(** * file_analyzer: a shallow embedding of [main.py] and [client.py]

    The server of [main.py] exposes five tools and one resource over a
    directory of tabular data files.  This development embeds the handlers
    as Rocq functions over

    - a tree-shaped file system (directories are ordered association lists,
      so that the order in which a directory is listed is an arbitrary but
      fixed property of the state);
    - [pathlib]'s joining rule for [DATA_DIR / filename] and the kernel's
      component-by-component resolution of the joined path, with its
      limits on the length of a name and of a path;
    - a result type with Python exceptions, and [try ... except Exception]
      written out;
    - a state with the file system, the generator of [random] and the date;
    - the [pandas] calls as an interface ([Class Pandas]) with the two
      round-trip laws the handlers rely on, together with a small
      implementation of that interface that can be run.

    The command loop of [client.py] is embedded over strings held as
    UTF-8 bytes, with the whitespace and the decimal digits of Unicode.

    The file has the model first, then the notions the statements use,
    then the facts, then the claims C1 to C10 and their runs on a small
    disk, then further properties of the server and of the client.

    Symbolic links and permissions are outside the model.  In the server
    every exception is an [Exception]; the client tells a
    [KeyboardInterrupt] and the other classes that are not [Exception]s
    apart.  The text of an exception raised by the system or by [pandas]
    is a stand-in: the handlers only paste it into their answers. *)

From Stdlib Require Import List String Ascii ZArith Lia Bool Arith.
From Stdlib Require Import DecimalString Decimal DecimalZ Permutation.
Import ListNotations.

Set Warnings "-register-all".

Local Open Scope list_scope.
Local Open Scope string_scope.

(* ================================================================= *)
(** ** Python strings *)

Module PyStr.

(** The double quote and the line feed, which cannot be written inside a
    string literal. *)
Definition dquote_char : ascii := "034"%char.
Definition newline_char : ascii := "010"%char.
Definition return_char : ascii := "013"%char.
Definition nul_char : ascii := "000"%char.
Definition dquote : string := String dquote_char EmptyString.
Definition newline : string := String newline_char EmptyString.
Definition quoted (s : string) : string := dquote ++ s ++ dquote.

(** [str.join]. *)
Definition join (sep : string) (l : list string) : string :=
  String.concat sep l.

(** [s.split(sep)] for a one-character separator: never empty, keeps
    empty pieces. *)
Fixpoint split_on (sep : ascii) (s : string) : list string :=
  match s with
  | EmptyString => [EmptyString]
  | String c rest =>
      if Ascii.eqb c sep then EmptyString :: split_on sep rest
      else match split_on sep rest with
           | [] => [String c EmptyString]
           | w :: ws => String c w :: ws
           end
  end.

(** [s.startswith(p)] and [s.endswith(p)]. *)
Definition startswith (s p : string) : bool := String.prefix p s.

Definition endswith (s suffix : string) : bool :=
  let n := String.length s in
  let m := String.length suffix in
  (m <=? n)%nat && String.eqb (substring (n - m) m s) suffix.

(** [c in s] for a character. *)
Fixpoint has_char (c : ascii) (s : string) : bool :=
  match s with
  | EmptyString => false
  | String d rest => Ascii.eqb c d || has_char c rest
  end.

(** [sub in s]: [sub] occurs in [s]. *)
Definition contains (s sub : string) : Prop :=
  exists pre post, s = pre ++ sub ++ post.

(** [sub in s], decided. *)
Fixpoint occurs (sub s : string) : bool :=
  String.prefix sub s ||
  match s with
  | EmptyString => false
  | String _ rest => occurs sub rest
  end.

(** [str(n)] for an [int]. *)
Definition str_of_Z (z : Z) : string := NilZero.string_of_int (Z.to_int z).
Definition str_of_nat (n : nat) : string := str_of_Z (Z.of_nat n).

(** Zero padding to a width, as [%02d] and [%04d] do for a number that is
    not negative. *)
Fixpoint zeros (n : nat) : string :=
  match n with
  | O => EmptyString
  | S k => String "0"%char (zeros k)
  end.

Definition zfill (width : nat) (s : string) : string :=
  zeros (width - String.length s) ++ s.

(** [s * n] *)
Fixpoint times (s : string) (n : nat) : string :=
  match n with
  | O => EmptyString
  | S k => s ++ times s k
  end.

(** The characters of a decimal numeral: the digits and the sign. *)
Definition numeral_char (c : ascii) : bool :=
  Ascii.eqb c "-"%char ||
  ((48 <=? nat_of_ascii c)%nat && (nat_of_ascii c <=? 57)%nat).

End PyStr.

(* ================================================================= *)
(** ** Exceptions and results *)

(** A raised exception: the name of its class and what [str(e)] gives. *)
Record exn : Type := mk_exn { exn_class : string; exn_str : string }.

Inductive result (A : Type) : Type :=
| Ok (a : A)
| Raise (e : exn).
Arguments Ok {A} a.
Arguments Raise {A} e.

Module Res.
Definition bind {A B} (m : result A) (k : A -> result B) : result B :=
  match m with
  | Ok a => k a
  | Raise e => Raise e
  end.

(** [try: body except Exception as e: handler(e)]. *)
Definition try_except {A} (body : result A) (handler : exn -> result A)
  : result A :=
  match body with
  | Ok a => Ok a
  | Raise e => handler e
  end.
End Res.

Declare Scope res_scope.
Delimit Scope res_scope with res.
Notation "x <- c ;; k" := (Res.bind c (fun x => k))
  (at level 61, c at next level, right associativity) : res_scope.

(* ================================================================= *)
(** ** Paths and the file system *)

(** An absolute path is the list of its components below the root. *)
Definition path := list string.

Module Pathlib.
Import PyStr.

(** The components [PurePosixPath(s).parts] keeps below the root: empty
    pieces and [.] are dropped, [..] is kept. *)
Definition keep_part (c : string) : bool :=
  negb (String.eqb c "") && negb (String.eqb c ".").

Definition parse_parts (s : string) : list string :=
  filter keep_part (split_on "/"%char s).

Definition is_absolute (s : string) : bool := startswith s "/".

(** [base / filename]: an absolute right operand replaces the left one. *)
Definition joinpath (base : path) (filename : string) : path :=
  if is_absolute filename then parse_parts filename
  else (base ++ parse_parts filename)%list.

(** [str(p)] *)
Definition to_str (p : path) : string := "/" ++ join "/" p.

(** [p.parent] and [p.name] *)
Definition parent (p : path) : path := removelast p.
Definition name (p : path) : string := last p "".
End Pathlib.

(** A node of the file system.  A directory lists its entries in the order
    the system returns them. *)
Inductive node : Type :=
| File (content : string)
| Dir (entries : list (string * node)).

Module FS.
Import PyStr.

Fixpoint get_entry (name : string) (es : list (string * node))
  : option node :=
  match es with
  | [] => None
  | (k, n) :: rest => if String.eqb k name then Some n else get_entry name rest
  end.

(** The node at a path that has no [..] left in it. *)
Fixpoint lookup (n : node) (p : path) : option node :=
  match p with
  | [] => Some n
  | c :: rest =>
      match n with
      | File _ => None
      | Dir es =>
          match get_entry c es with
          | Some m => lookup m rest
          | None => None
          end
      end
  end.

Definition is_dir (root : node) (p : path) : bool :=
  match lookup root p with
  | Some (Dir _) => true
  | _ => false
  end.

Definition is_file (root : node) (p : path) : bool :=
  match lookup root p with
  | Some (File _) => true
  | _ => false
  end.

Definition is_file_node (n : node) : bool :=
  match n with File _ => true | Dir _ => false end.

(** The limits of the system (Linux) on names: a component holds at most
    [NAME_MAX] bytes, and the text of a path with the NUL that ends it at
    most [PATH_MAX]. *)
Definition NAME_MAX : nat := 255.
Definition PATH_MAX : nat := 4096.

(** A component the kernel accepts: no NUL byte in it, and no longer than
    [NAME_MAX]. *)
Definition valid_component (c : string) : bool :=
  negb (has_char nul_char c) && (String.length c <=? NAME_MAX)%nat.

(** The kernel's walk along the components of a path: from the directory
    [cur], each component is looked up in a directory; [..] goes to the
    parent (the root is its own parent).  The result is the location the
    path names, which need not exist; [None] when a component is looked up
    in something that is not a directory, or is not a valid name. *)
Fixpoint walk (root : node) (cur : path) (comps : list string)
  : option path :=
  match comps with
  | [] => Some cur
  | c :: rest =>
      if valid_component c && is_dir root cur then
        walk root (if String.eqb c ".." then removelast cur
                   else (cur ++ [c])%list) rest
      else None
  end.

(** The text of a path has room in the buffer the kernel copies it to.
    ([str] keeps both slashes of a name that starts with exactly two, which
    the kernel reads as one; [Pathlib.to_str] writes one.) *)
Definition fits (p : path) : bool :=
  (String.length (Pathlib.to_str p) <? PATH_MAX)%nat.

(** The location a system call is made on, when the path can be walked. *)
Definition resolve (root : node) (p : path) : option path :=
  if fits p then walk root [] p else None.

(** The walk comes to a component that is too long: one that is looked up
    in a directory, after the components before it have been walked. *)
Fixpoint meets_long_name (root : node) (cur : path) (comps : list string)
  : bool :=
  match comps with
  | [] => false
  | c :: rest =>
      is_dir root cur &&
      ((NAME_MAX <? String.length c)%nat ||
       meets_long_name root (if String.eqb c ".." then removelast cur
                             else (cur ++ [c])%list) rest)
  end.

(** A NUL byte anywhere in the text is refused by Python before the system
    is called. *)
Definition has_nul (p : path) : bool := existsb (has_char nul_char) p.

(** The system answers ENAMETOOLONG for the path. *)
Definition name_too_long (root : node) (p : path) : bool :=
  negb (has_nul p) && (negb (fits p) || meets_long_name root [] p).

(** [os.stat] succeeds. *)
Definition exists_ (root : node) (p : path) : bool :=
  match resolve root p with
  | Some q => match lookup root q with Some _ => true | None => false end
  | None => false
  end.

Definition err_name_too_long (p : path) : exn :=
  mk_exn "OSError"
    ("[Errno 36] File name too long: '" ++ Pathlib.to_str p ++ "'").

(** [Path.exists()] (Python 3.11): [os.stat], where the errors ENOENT and
    ENOTDIR, and the [ValueError] for a NUL byte, are answered [False] and
    any other [OSError] is raised again. *)
Definition path_exists (root : node) (p : path) : result bool :=
  match resolve root p with
  | Some q =>
      Ok (match lookup root q with Some _ => true | None => false end)
  | None =>
      if name_too_long root p then Raise (err_name_too_long p)
      else Ok false
  end.

(** Replace the entry [name], keeping its place, or add it at the end. *)
Fixpoint upsert (name : string) (n : node) (es : list (string * node))
  : list (string * node) :=
  match es with
  | [] => [(name, n)]
  | (k, m) :: rest =>
      if String.eqb k name then (k, n) :: rest
      else (k, m) :: upsert name n rest
  end.

(** Apply [f] to the entry [name], if there is one. *)
Fixpoint map_entry (name : string) (f : node -> node)
  (es : list (string * node)) : list (string * node) :=
  match es with
  | [] => []
  | (k, m) :: rest =>
      if String.eqb k name then (k, f m) :: rest
      else (k, m) :: map_entry name f rest
  end.

(** The tree with a regular file of content [c] at [p]. *)
Fixpoint put (p : path) (c : string) (n : node) {struct p} : node :=
  match n with
  | File _ => n
  | Dir es =>
      match p with
      | [] => n
      | [name] => Dir (upsert name (File c) es)
      | name :: rest => Dir (map_entry name (put rest c) es)
      end
  end.

Definition err_not_found (p : path) : exn :=
  mk_exn "FileNotFoundError"
    ("[Errno 2] No such file or directory: '" ++ Pathlib.to_str p ++ "'").
Definition err_is_dir (p : path) : exn :=
  mk_exn "IsADirectoryError"
    ("[Errno 21] Is a directory: '" ++ Pathlib.to_str p ++ "'").
Definition err_null_byte : exn := mk_exn "ValueError" "embedded null byte".

(** The error of a system call on a path that cannot be walked. *)
Definition resolve_error (root : node) (p : path) : exn :=
  if has_nul p then err_null_byte
  else if name_too_long root p then err_name_too_long p
  else err_not_found p.

(** [open(p, 'rb').read()] *)
Definition read_file (root : node) (p : path) : result string :=
  match resolve root p with
  | None => Raise (resolve_error root p)
  | Some q =>
      match lookup root q with
      | Some (File c) => Ok c
      | Some (Dir _) => Raise (err_is_dir p)
      | None => Raise (err_not_found p)
      end
  end.

(** [open(p, 'wb').write(c)]: the path must be one the system walks, the
    parent must be a directory and the target must not be one; nothing is
    created above the target. *)
Definition write_file (root : node) (p : path) (c : string) : result node :=
  match resolve root p with
  | None => Raise (resolve_error root p)
  | Some q =>
      match q with
      | [] => Raise (err_is_dir p)
      | _ :: _ =>
          if is_dir root q then Raise (err_is_dir p)
          else if is_dir root (Pathlib.parent q) then Ok (put q c root)
          else Raise (err_not_found p)
      end
  end.

(** The entries of a directory, as [Path.glob("*")] yields them; nothing
    when [p] is not a directory.  (The directory listed is [DATA_DIR],
    which the start of the server has made: its path, and that of each of
    its entries, is one the system walks.) *)
Definition glob_star (root : node) (p : path) : list (string * node) :=
  match resolve root p with
  | Some q =>
      match lookup root q with
      | Some (Dir es) => es
      | _ => []
      end
  | None => []
  end.

(** What [os.stat] and [os.listdir] show of a location: the content of a
    regular file, the names in a directory. *)
Inductive view : Type :=
| VFile (content : string)
| VDir (names : list string).

Definition stat (root : node) (p : path) : option view :=
  match lookup root p with
  | None => None
  | Some (File c) => Some (VFile c)
  | Some (Dir es) => Some (VDir (map fst es))
  end.
(** A path that [write_file] accepts: within the limits on names, its
    parent a directory, and not a directory itself. *)
Definition writable (root : node) (p : path) : bool :=
  match resolve root p with
  | Some (c :: q) =>
      negb (is_dir root (c :: q)) && is_dir root (Pathlib.parent (c :: q))
  | _ => false
  end.
(** The content of the regular file at a location, if there is one. *)
Definition file_content (root : node) (p : path) : option string :=
  match lookup root p with
  | Some (File c) => Some c
  | _ => None
  end.

(** The tree with the node [new] at [p], in place of what was there or as
    a new last entry. *)
Fixpoint place (p : path) (new : node) (n : node) {struct p} : node :=
  match n with
  | File _ => n
  | Dir es =>
      match p with
      | [] => n
      | [name] => Dir (upsert name new es)
      | name :: rest => Dir (map_entry name (place rest new) es)
      end
  end.

Definition err_exists (p : path) : exn :=
  mk_exn "FileExistsError"
    ("[Errno 17] File exists: '" ++ Pathlib.to_str p ++ "'").

(** [os.mkdir(p)]: the parent must be a directory and nothing may stand at
    the target. *)
Definition os_mkdir (root : node) (p : path) : result node :=
  match resolve root p with
  | None => Raise (resolve_error root p)
  | Some q =>
      match lookup root q with
      | Some _ => Raise (err_exists p)
      | None =>
          if is_dir root (Pathlib.parent q) then Ok (place q (Dir []) root)
          else Raise (err_not_found p)
      end
  end.

(** [Path.is_dir()] answers [True]. *)
Definition path_is_dir (root : node) (p : path) : bool :=
  match resolve root p with
  | Some q => is_dir root q
  | None => false
  end.

(** [Path(p).mkdir(exist_ok=True)], without [parents]: a missing parent is
    an error; any other error is let through unless [p] is a directory. *)
Definition mkdir_exist_ok (root : node) (p : path) : result node :=
  match os_mkdir root p with
  | Ok root' => Ok root'
  | Raise e =>
      if String.eqb (exn_class e) "FileNotFoundError" then Raise e
      else if path_is_dir root p then Ok root
      else Raise e
  end.
End FS.

(* ================================================================= *)
(** ** Tables *)

(** A value in a table: the handlers only ever build integers and strings. *)
Inductive cell : Type :=
| CInt (z : Z)
| CStr (s : string).

(** A [pandas.DataFrame]: its column labels and its rows. *)
Record DataFrame : Type := mk_df {
  columns : list string;
  rows : list (list cell)
}.

Module Frame.
Import PyStr.

(** [len(df)] *)
Definition len (df : DataFrame) : nat := List.length (rows df).

(** [str(v)] of a value *)
Definition cell_text (c : cell) : string :=
  match c with
  | CInt z => str_of_Z z
  | CStr s => s
  end.

(** [pd.DataFrame(data)] for a dict of columns, in insertion order: the
    columns must have one length. *)
Definition column_length (data : list (string * list cell)) : nat :=
  match data with
  | [] => 0
  | (_, col) :: _ => List.length col
  end.

Definition row_at (data : list (string * list cell)) (i : nat) : list cell :=
  map (fun kv => nth i (snd kv) (CStr "")) data.

Definition from_dict (data : list (string * list cell)) : result DataFrame :=
  let n := column_length data in
  if forallb (fun kv => Nat.eqb (List.length (snd kv)) n) data then
    Ok (mk_df (map fst data) (map (row_at data) (seq 0 n)))
  else
    Raise (mk_exn "ValueError" "All arrays must be of the same length").

(** Text that a CSV writer emits as it is and a reader takes as it is:
    not empty, of printable ASCII characters, and free of the separator,
    the quote and the line terminators. *)
Definition plain_char (c : ascii) : bool :=
  negb (Ascii.eqb c ","%char) && negb (Ascii.eqb c dquote_char)
  && negb (Ascii.eqb c newline_char) && negb (Ascii.eqb c return_char)
  && (32 <=? nat_of_ascii c)%nat && (nat_of_ascii c <=? 126)%nat.

Fixpoint all_chars (f : ascii -> bool) (s : string) : bool :=
  match s with
  | EmptyString => true
  | String c rest => f c && all_chars f rest
  end.

Definition plain_text (s : string) : bool :=
  negb (String.eqb s "") && all_chars plain_char s.

(** Whether a value is an integer, the values of one column, and a
    column of integers only or of strings only. *)
Definition is_int (v : cell) : bool :=
  match v with CInt _ => true | CStr _ => false end.

Definition column (df : DataFrame) (j : nat) : list cell :=
  map (fun r => nth j r (CStr "")) (rows df).

Definition one_kind (col : list cell) : bool :=
  forallb is_int col || forallb (fun v => negb (is_int v)) col.

(** A table with at least two columns (so that no line of its text is
    blank), distinct plain labels, rows as wide as the header, plain
    values, and in each column integers only or strings only (a column
    that mixes the two has no Parquet type). *)
Definition plain_frame (df : DataFrame) : Prop :=
  2 <= List.length (columns df) /\
  NoDup (columns df) /\
  Forall (fun c => plain_text c = true) (columns df) /\
  Forall (fun r => List.length r = List.length (columns df) /\
                   Forall (fun v => plain_text (cell_text v) = true) r)
         (rows df) /\
  forall j, j < List.length (columns df) -> one_kind (column df j) = true.
End Frame.

(** The calls into [pandas] and the renderings of Python values that the
    handlers use.  What the library does with the bytes of a file is not
    part of this program; the two laws are the round trips [create] then
    [summarize] relies on, for the tables of [Frame.plain_frame]. *)
Class Pandas : Type := {
  (** [pd.read_csv] on the bytes of a regular file *)
  parse_csv : string -> result DataFrame;
  (** [df.to_csv(index=False)] *)
  render_csv : DataFrame -> string;
  (** [pd.read_parquet] on the bytes of a regular file, and on a directory *)
  parse_parquet : string -> result DataFrame;
  parse_parquet_dir : list (string * node) -> result DataFrame;
  (** [df.to_parquet(index=False)] *)
  render_parquet : DataFrame -> result string;
  (** [df.describe().to_string()], [df.head().to_string()],
      [df.dtypes.to_string()] *)
  describe_to_string : DataFrame -> result string;
  head_to_string : DataFrame -> result string;
  dtypes_to_string : DataFrame -> result string;
  (** [repr] of a list of strings *)
  repr_list : list string -> string;

  csv_round_trip : forall df, Frame.plain_frame df ->
    exists df', parse_csv (render_csv df) = Ok df' /\
                Frame.len df' = Frame.len df /\ columns df' = columns df;
  parquet_round_trip : forall df, Frame.plain_frame df ->
    exists bytes df', render_parquet df = Ok bytes /\
                parse_parquet bytes = Ok df' /\
                Frame.len df' = Frame.len df /\ columns df' = columns df
}.

(* ================================================================= *)
(** ** Dates *)

Module Datetime.
Import PyStr.

(** A date is its proleptic Gregorian ordinal, [date.toordinal()]:
    day 1 is 0001-01-01. *)
Definition date := Z.

(** [d - timedelta(days=k)] *)
Definition minus_days (d : date) (k : Z) : date := (d - k)%Z.

(** Year, month and day of an ordinal. *)
Definition civil (d : date) : Z * Z * Z :=
  let z := (d + 305)%Z in
  let era := (z / 146097)%Z in
  let doe := (z - era * 146097)%Z in
  let yoe := ((doe - doe / 1460 + doe / 36524 - doe / 146096) / 365)%Z in
  let y := (yoe + era * 400)%Z in
  let doy := (doe - (365 * yoe + yoe / 4 - yoe / 100))%Z in
  let mp := ((5 * doy + 2) / 153)%Z in
  let day := (doy - (153 * mp + 2) / 5 + 1)%Z in
  let m := (if (mp <? 10)%Z then mp + 3 else mp - 9)%Z in
  ((if (m <=? 2)%Z then y + 1 else y)%Z, m, day).

(** [d.strftime('%Y-%m-%d')]: the C library (of Linux) prints the year
    without padding, the month and the day on two digits. *)
Definition strftime_ymd (d : date) : string :=
  let '(y, m, day) := civil d in
  str_of_Z y ++ "-" ++ zfill 2 (str_of_Z m)
    ++ "-" ++ zfill 2 (str_of_Z day).
End Datetime.

(* ================================================================= *)
(** ** JSON text *)

Module Json.
Import PyStr.

Inductive value : Type :=
| JStr (s : string)
| JList (items : list value)
| JObj (members : list (string * value)).

(** The escapes [json.dumps] applies to the printable ASCII text and the
    usual control characters. *)
Fixpoint escape (s : string) : string :=
  match s with
  | EmptyString => EmptyString
  | String c rest =>
      (if Ascii.eqb c dquote_char then "\" ++ dquote
       else if Ascii.eqb c "\"%char then "\\"
       else if Ascii.eqb c newline_char then "\n"
       else if Ascii.eqb c return_char then "\r"
       else if Ascii.eqb c "009"%char then "\t"
       else String c EmptyString) ++ escape rest
  end.

Definition encode_str (s : string) : string := dquote ++ escape s ++ dquote.

Fixpoint spaces (n : nat) : string :=
  match n with
  | O => EmptyString
  | S k => String " "%char (spaces k)
  end.

(** [json.dumps(v, indent=indent)] at nesting depth [level]. *)
Fixpoint dumps_at (indent level : nat) (v : value) : string :=
  let inner := newline ++ spaces (indent * S level) in
  let outer := newline ++ spaces (indent * level) in
  match v with
  | JStr s => encode_str s
  | JList [] => "[]"
  | JList items =>
      "[" ++ inner
        ++ join ("," ++ inner) (map (dumps_at indent (S level)) items)
        ++ outer ++ "]"
  | JObj [] => "{}"
  | JObj members =>
      "{" ++ inner
        ++ join ("," ++ inner)
             (map (fun kv : string * value => let (k, x) := kv in
                             encode_str k ++ ": "
                               ++ dumps_at indent (S level) x)
                  members)
        ++ outer ++ "}"
  end.

Definition dumps (indent : nat) (v : value) : string := dumps_at indent 0 v.
End Json.

(* ================================================================= *)
(** ** The state of a run *)

(** What a handler can see and change: the file system, the generator of
    [random] (a tape of draws and the position on it) and the date
    [datetime.now()] falls on, which one call sees as fixed. *)
Record world : Type := mk_world {
  fs : node;
  tape : nat -> nat;
  cursor : nat;
  today : Datetime.date
}.

Definition with_fs (w : world) (n : node) : world :=
  mk_world n (tape w) (cursor w) (today w).

Definition advance (w : world) : world :=
  mk_world (fs w) (tape w) (S (cursor w)) (today w).

(** Computations of a handler: they read and change the world and may
    raise. *)
Module St.
Definition M (A : Type) : Type := world -> result A * world.

Definition ret {A} (a : A) : M A := fun w => (Ok a, w).

Definition bind {A B} (m : M A) (k : A -> M B) : M B :=
  fun w => match m w with
           | (Ok a, w') => k a w'
           | (Raise e, w') => (Raise e, w')
           end.

Definition lift {A} (r : result A) : M A := fun w => (r, w).

(** [try: body except Exception as e: handler(e)]: what the body changed
    before it raised stays changed. *)
Definition try_except {A} (body : M A) (handler : exn -> M A) : M A :=
  fun w => match body w with
           | (Ok a, w') => (Ok a, w')
           | (Raise e, w') => handler e w'
           end.

(** A handler that only reads the file system. *)
Definition read_only {A} (f : node -> result A) : M A :=
  fun w => (f (fs w), w).

(** [[m for _ in range(n)]] *)
Fixpoint replicate {A} (n : nat) (m : M A) : M (list A) :=
  match n with
  | O => ret (@nil A)
  | S k => bind m (fun x => bind (replicate k m) (fun xs => ret (x :: xs)))
  end.
End St.

Declare Scope st_scope.
Delimit Scope st_scope with st.
Notation "x <- c ;; k" := (St.bind c (fun x => k))
  (at level 61, c at next level, right associativity) : st_scope.

Module Random.
(** [random.randint(a, b)]: a draw from [a..b], an error when the range is
    empty. *)
Definition randint (a b : Z) : St.M Z :=
  fun w =>
    if (b <? a)%Z then
      (Raise (mk_exn "ValueError" "empty range in randrange()"), w)
    else
      (Ok (a + Z.of_nat (tape w (cursor w)) mod (b - a + 1))%Z, advance w).

(** [random.choice(l)] *)
Definition choice {A} (l : list A) : St.M A :=
  fun w => match nth_error l (tape w (cursor w) mod List.length l) with
           | Some x => (Ok x, advance w)
           | None => (Raise (mk_exn "IndexError"
                               "Cannot choose from an empty sequence"), w)
           end.
End Random.

(** [range(a, b)] *)
Definition range (a b : Z) : list Z :=
  map (fun k => (a + Z.of_nat k)%Z) (seq 0 (Z.to_nat (b - a))).

(* ================================================================= *)
(** ** The server *)

Inductive tool_call : Type :=
| list_data_files_call
| summarize_csv_file_call (filename : string)
| summarize_parquet_file_call (filename : string)
| analyze_csv_data_call (filename : string) (operation : option string)
| create_sample_data_call (filename : string) (rows : option Z).

Section Server.
Import PyStr.

Context {pd : Pandas}.

(** [Path(__file__).resolve().parent]: where the script lives. *)
Variable script_dir : path.

(** Base directory for data files *)
Definition DATA_DIR : path := Pathlib.joinpath script_dir "data".

(** [pd.read_csv(p)], [pd.read_parquet(p)] *)
Definition pd_read_csv (root : node) (p : path) : result DataFrame :=
  (bytes <- FS.read_file root p ;; parse_csv bytes)%res.

Definition pd_read_parquet (root : node) (p : path) : result DataFrame :=
  match FS.resolve root p with
  | None => Raise (FS.resolve_error root p)
  | Some q =>
      match FS.lookup root q with
      | Some (File bytes) => parse_parquet bytes
      | Some (Dir es) => parse_parquet_dir es
      | None => Raise (FS.err_not_found p)
      end
  end.

(** [df.to_csv(p, index=False)], [df.to_parquet(p, index=False)] *)
Definition df_to_csv (df : DataFrame) (p : path) : St.M unit :=
  fun w => match FS.write_file (fs w) p (render_csv df) with
           | Ok root' => (Ok tt, with_fs w root')
           | Raise e => (Raise e, w)
           end.

Definition df_to_parquet (df : DataFrame) (p : path) : St.M unit :=
  fun w => match render_parquet df with
           | Ok bytes =>
               match FS.write_file (fs w) p bytes with
               | Ok root' => (Ok tt, with_fs w root')
               | Raise e => (Raise e, w)
               end
           | Raise e => (Raise e, w)
           end.

(** *** Utility functions *)

Definition read_csv_summary (root : node) (filename : string)
  : result string :=
  let file_path := Pathlib.joinpath DATA_DIR filename in
  (found <- FS.path_exists root file_path ;;
   if negb found then
     Ok ("Error: File '" ++ filename ++ "' not found in data directory.")
   else
     Res.try_except
       (df <- pd_read_csv root file_path ;;
        let columns_info := join ", " (columns df) in
        Ok ("CSV file '" ++ filename ++ "' has "
              ++ str_of_nat (Frame.len df) ++ " rows and "
              ++ str_of_nat (List.length (columns df))
              ++ " columns. Columns: " ++ columns_info))
       (fun e => Ok ("Error reading CSV file '" ++ filename ++ "': "
                       ++ exn_str e)))%res.

Definition read_parquet_summary (root : node) (filename : string)
  : result string :=
  let file_path := Pathlib.joinpath DATA_DIR filename in
  (found <- FS.path_exists root file_path ;;
   if negb found then
     Ok ("Error: File '" ++ filename ++ "' not found in data directory.")
   else
     Res.try_except
       (df <- pd_read_parquet root file_path ;;
        let columns_info := join ", " (columns df) in
        Ok ("Parquet file '" ++ filename ++ "' has "
              ++ str_of_nat (Frame.len df) ++ " rows and "
              ++ str_of_nat (List.length (columns df))
              ++ " columns. Columns: " ++ columns_info))
       (fun e => Ok ("Error reading Parquet file '" ++ filename ++ "': "
                       ++ exn_str e)))%res.

(** *** Tools *)

Definition list_data_files (root : node) : result string :=
  let files := FS.glob_star root DATA_DIR in
  match files with
  | [] => Ok "No data files found in the data directory."
  | _ :: _ =>
      let file_list :=
        map fst (filter (fun f => FS.is_file_node (snd f)) files) in
      Ok ("Available data files: " ++ join ", " file_list)
  end.

Definition summarize_csv_file (root : node) (filename : string)
  : result string :=
  read_csv_summary root filename.

Definition summarize_parquet_file (root : node) (filename : string)
  : result string :=
  read_parquet_summary root filename.

(** [f"{df.shape}"] *)
Definition shape_text (df : DataFrame) : string :=
  "(" ++ str_of_nat (Frame.len df) ++ ", "
      ++ str_of_nat (List.length (columns df)) ++ ")".

Definition analyze_csv_data (root : node) (filename operation : string)
  : result string :=
  let file_path := Pathlib.joinpath DATA_DIR filename in
  (found <- FS.path_exists root file_path ;;
   if negb found then
     Ok ("Error: File '" ++ filename ++ "' not found.")
   else
     Res.try_except
      (df <- pd_read_csv root file_path ;;
       if String.eqb operation "describe" then
         d <- describe_to_string df ;;
         Ok ("Statistical description of " ++ filename ++ ":"
               ++ newline ++ d)
       else if String.eqb operation "head" then
         h <- head_to_string df ;;
         Ok ("First 5 rows of " ++ filename ++ ":" ++ newline ++ h)
       else if String.eqb operation "info" then
         let info_str := "Info for " ++ filename ++ ":" ++ newline in
         let info_str :=
           info_str ++ "Shape: " ++ shape_text df ++ newline in
         let info_str :=
           info_str ++ "Columns: " ++ repr_list (columns df) ++ newline in
         t <- dtypes_to_string df ;;
         Ok (info_str ++ "Data types:" ++ newline ++ t)
       else if String.eqb operation "columns" then
         Ok ("Columns in " ++ filename ++ ": " ++ join ", " (columns df))
       else
         Ok ("Unknown operation: " ++ operation
               ++ ". Available: describe, head, info, columns"))
      (fun e => Ok ("Error analyzing " ++ filename ++ ": " ++ exn_str e)))%res.

(** The columns [create_sample_data] generates, in the order the dict
    lists them; the three random columns are drawn one after the other. *)
Definition sample_columns (rows : Z) : St.M (list (string * list cell)) :=
  (let id := map CInt (range 1 (rows + 1)) in
   let name :=
     map (fun i => CStr ("User_" ++ str_of_Z i)) (range 1 (rows + 1)) in
   score <- St.replicate (Z.to_nat rows)
              (x <- Random.randint 1 100 ;; St.ret (CInt x)) ;;
   category <- St.replicate (Z.to_nat rows)
              (x <- Random.choice ["A"; "B"; "C"] ;; St.ret (CStr x)) ;;
   created_date <- St.replicate (Z.to_nat rows)
              (fun w =>
                 (k <- Random.randint 1 365 ;;
                  St.ret (CStr (Datetime.strftime_ymd
                                  (Datetime.minus_days (today w) k)))) w) ;;
   St.ret [("id", id); ("name", name); ("score", score);
           ("category", category); ("created_date", created_date)])%st.

Definition create_sample_data (filename : string) (rows : Z)
  : St.M string :=
  St.try_except
    (data <- sample_columns rows ;;
     df <- St.lift (Frame.from_dict data) ;;
     let file_path := Pathlib.joinpath DATA_DIR filename in
     if endswith filename ".csv" then
       _ <- df_to_csv df file_path ;;
       St.ret ("Created " ++ filename ++ " with " ++ str_of_Z rows
                 ++ " rows and " ++ str_of_nat (List.length (columns df))
                 ++ " columns.")
     else if endswith filename ".parquet" then
       _ <- df_to_parquet df file_path ;;
       St.ret ("Created " ++ filename ++ " with " ++ str_of_Z rows
                 ++ " rows and " ++ str_of_nat (List.length (columns df))
                 ++ " columns.")
     else
       St.ret "Error: Filename must end with .csv or .parquet")%st
    (fun e => St.ret ("Error creating sample data: " ++ exn_str e)).

(** *** Resources *)

Definition schema_info : Json.value :=
  Json.JObj
    [("description", Json.JStr "Schema information for data files");
     ("supported_formats", Json.JList [Json.JStr "CSV"; Json.JStr "Parquet"]);
     ("sample_structure",
       Json.JObj
         [("id", Json.JStr "integer - unique identifier");
          ("name", Json.JStr "string - user name");
          ("email", Json.JStr "string - email address");
          ("signup_date", Json.JStr "date - registration date")])].

Definition get_data_schema : St.M string :=
  St.ret (Json.dumps 2 schema_info).

(** *** Dispatch of a tool call, with the defaults of the signatures *)

Definition invoke (c : tool_call) : St.M string :=
  match c with
  | list_data_files_call => St.read_only list_data_files
  | summarize_csv_file_call filename =>
      St.read_only (fun root => summarize_csv_file root filename)
  | summarize_parquet_file_call filename =>
      St.read_only (fun root => summarize_parquet_file root filename)
  | analyze_csv_data_call filename operation =>
      St.read_only (fun root =>
        analyze_csv_data root filename
          (match operation with Some o => o | None => "describe" end))
  | create_sample_data_call filename rows =>
      create_sample_data filename
        (match rows with Some n => n | None => 10%Z end)
  end.

(** A session: the calls of a client, one after the other. *)
Fixpoint run (cs : list tool_call) (w : world) : world :=
  match cs with
  | [] => w
  | c :: rest => run rest (snd (invoke c w))
  end.

(** *** Start of the process *)

(** Ensure data directory exists: done when the module is loaded, outside
    any [try]. *)
Definition ensure_data_dir : St.M unit :=
  fun w => match FS.mkdir_exist_ok (fs w) DATA_DIR with
           | Ok root' => (Ok tt, with_fs w root')
           | Raise e => (Raise e, w)
           end.

Definition sample_data : list (string * list cell) :=
  [("id", [CInt 1; CInt 2; CInt 3; CInt 4; CInt 5]);
   ("name", [CStr "Alice Johnson"; CStr "Bob Smith"; CStr "Carol Lee";
             CStr "David Wu"; CStr "Eva Brown"]);
   ("email", [CStr "alice@example.com"; CStr "bob@example.com";
              CStr "carol@example.com"; CStr "david@example.com";
              CStr "eva@example.com"]);
   ("signup_date", [CStr "2023-01-15"; CStr "2023-02-22"; CStr "2023-03-10";
                    CStr "2023-04-18"; CStr "2023-05-30"])].

(** The [__main__] block before [mcp.run()]: create sample data if it
    doesn't exist.  Nothing catches what the writes raise. *)
Definition main : St.M unit :=
  let sample_csv := Pathlib.joinpath DATA_DIR "sample.csv" in
  (found <- St.read_only (fun root => FS.path_exists root sample_csv) ;;
   if negb found then
     df <- St.lift (Frame.from_dict sample_data) ;;
     _ <- df_to_csv df sample_csv ;;
     _ <- df_to_parquet df (Pathlib.joinpath DATA_DIR "sample.parquet") ;;
     St.ret tt
   else St.ret tt)%st.

(** [python main.py] up to the point where requests are served. *)
Definition start : St.M unit := (_ <- ensure_data_dir ;; main)%st.

End Server.

(* ================================================================= *)
(** ** The interactive client of [client.py]

    The loop of [run_custom_commands].  A string is held as its UTF-8
    bytes; the methods of [str] the loop uses work on characters, which are
    decoded where they matter.  What is done with a line is a value of
    [reaction]; the printing and the connection are left out. *)

Module Client.
Import PyStr.

(** *** Characters *)

Definition continuation (c : ascii) : bool :=
  let n := N_of_ascii c in ((128 <=? n) && (n <? 192))%N.

Definition payload (c : ascii) : N := (N_of_ascii c - 128)%N.

(** The character at the head of a text: its code point and the number of
    bytes it takes.  Nothing is decoded from bytes that are not UTF-8. *)
Definition decode (s : string) : option (N * nat) :=
  match s with
  | EmptyString => None
  | String b0 r0 =>
      let n0 := N_of_ascii b0 in
      if (n0 <? 128)%N then Some (n0, 1)
      else if ((194 <=? n0) && (n0 <? 224))%N then
        match r0 with
        | String b1 _ =>
            if continuation b1 then
              Some (((n0 - 192) * 64 + payload b1)%N, 2)
            else None
        | EmptyString => None
        end
      else if ((224 <=? n0) && (n0 <? 240))%N then
        match r0 with
        | String b1 (String b2 _) =>
            if continuation b1 && continuation b2 then
              Some (((n0 - 224) * 4096 + payload b1 * 64 + payload b2)%N, 3)
            else None
        | _ => None
        end
      else if ((240 <=? n0) && (n0 <? 245))%N then
        match r0 with
        | String b1 (String b2 (String b3 _)) =>
            if continuation b1 && continuation b2 && continuation b3 then
              Some (((n0 - 240) * 262144 + payload b1 * 4096
                     + payload b2 * 64 + payload b3)%N, 4)
            else None
        | _ => None
        end
      else None
  end.

(** [ch.isspace()] (Unicode 14, as in Python 3.11). *)
Definition isspace (cp : N) : bool :=
  existsb (N.eqb cp)
    [9; 10; 11; 12; 13; 28; 29; 30; 31; 32; 133; 160; 5760;
     8192; 8193; 8194; 8195; 8196; 8197; 8198; 8199; 8200; 8201; 8202;
     8232; 8233; 8239; 8287; 12288]%N.

(** The digit zero of each run of ten decimal digits (Unicode 14). *)
Definition decimal_zeros : list N :=
  [48; 1632; 1776; 1984; 2406; 2534; 2662; 2790; 2918; 3046; 3174; 3302;
   3430; 3558; 3664; 3792; 3872; 4160; 4240; 6112; 6160; 6470; 6608; 6784;
   6800; 6992; 7088; 7232; 7248; 42528; 43216; 43264; 43472; 43504; 43600;
   44016; 65296; 66720; 68912; 69734; 69872; 69942; 70096; 70384; 70736;
   70864; 71248; 71360; 71472; 71904; 72016; 72784; 73040; 73120; 92768;
   92864; 93008; 120782; 120792; 120802; 120812; 120822; 123200; 123632;
   125264; 130032]%N.

(** [unicodedata.decimal(ch)] *)
Definition decimal (cp : N) : option N :=
  match find (fun z => (z <=? cp) && (cp <? z + 10))%N decimal_zeros with
  | Some z => Some (cp - z)%N
  | None => None
  end.

(** The number of bytes of the whitespace character at the head of a
    text, if there is one. *)
Definition space_at (s : string) : option nat :=
  match decode s with
  | Some (cp, n) => if isspace cp then Some n else None
  | None => None
  end.

(** *** [s.lstrip()], [s.rstrip()], [s.strip()]

    [skip] counts the bytes still to pass of a character that has been
    read. *)
Fixpoint lstrip_from (skip : nat) (s : string) : string :=
  match s with
  | EmptyString => EmptyString
  | String _ rest =>
      match skip with
      | S k => lstrip_from k rest
      | O =>
          match space_at s with
          | Some n => lstrip_from (n - 1) rest
          | None => s
          end
      end
  end.

Definition lstrip (s : string) : string := lstrip_from 0 s.

Fixpoint rstrip (s : string) : string :=
  match s with
  | EmptyString => EmptyString
  | String c rest =>
      if String.eqb (lstrip s) "" then EmptyString
      else String c (rstrip rest)
  end.

Definition strip (s : string) : string := rstrip (lstrip s).

(** The pieces between the whitespace characters. *)
Fixpoint pieces_from (skip : nat) (s : string) : list string :=
  match s with
  | EmptyString => [EmptyString]
  | String c rest =>
      match skip with
      | S k => pieces_from k rest
      | O =>
          match space_at s with
          | Some n => EmptyString :: pieces_from (n - 1) rest
          | None =>
              match pieces_from 0 rest with
              | [] => [String c EmptyString]
              | w :: ws => String c w :: ws
              end
          end
      end
  end.

(** [s.split()]: the words between runs of whitespace. *)
Definition split (s : string) : list string :=
  filter (fun w => negb (String.eqb w "")) (pieces_from 0 s).

(** *** [int(s)]

    CPython first rewrites the text: a character below 127 stays, a
    whitespace character becomes a space, a decimal digit its ASCII digit;
    at any other character the text ends in a question mark. *)
Fixpoint transform_from (skip : nat) (s : string) : string :=
  match s with
  | EmptyString => EmptyString
  | String c rest =>
      match skip with
      | S k => transform_from k rest
      | O =>
          match decode s with
          | Some (cp, n) =>
              if (cp <? 127)%N then String c (transform_from 0 rest)
              else if isspace cp then
                String " "%char (transform_from (n - 1) rest)
              else
                match decimal cp with
                | Some d =>
                    String (ascii_of_N (48 + d))
                      (transform_from (n - 1) rest)
                | None => "?"
                end
          | None => "?"
          end
      end
  end.

Definition transform (s : string) : string := transform_from 0 s.

(** The parser of the rewritten text takes the whitespace of C around the
    numeral, a sign, and decimal digits with single underscores between
    them. *)
Definition c_space (c : ascii) : bool :=
  let n := nat_of_ascii c in
  ((9 <=? n)%nat && (n <=? 13)%nat) || (n =? 32)%nat.

Fixpoint lstrip_c (s : string) : string :=
  match s with
  | EmptyString => EmptyString
  | String c rest => if c_space c then lstrip_c rest else s
  end.

Fixpoint rstrip_c (s : string) : string :=
  match s with
  | EmptyString => EmptyString
  | String c rest =>
      let rest' := rstrip_c rest in
      if c_space c && String.eqb rest' "" then EmptyString
      else String c rest'
  end.

Definition is_digit (c : ascii) : bool :=
  (48 <=? nat_of_ascii c)%nat && (nat_of_ascii c <=? 57)%nat.

Fixpoint valid_digits (after_digit : bool) (s : string) : bool :=
  match s with
  | EmptyString => after_digit
  | String c rest =>
      if is_digit c then valid_digits true rest
      else if Ascii.eqb c "_"%char then after_digit && valid_digits false rest
      else false
  end.

Fixpoint drop_underscores (s : string) : string :=
  match s with
  | EmptyString => EmptyString
  | String c rest =>
      if Ascii.eqb c "_"%char then drop_underscores rest
      else String c (drop_underscores rest)
  end.

Definition digits_value (s : string) : option Z :=
  if valid_digits false s then
    option_map Z.of_uint (NilEmpty.uint_of_string (drop_underscores s))
  else None.

Definition signed_value (t : string) : option Z :=
  match t with
  | String "+"%char rest => digits_value rest
  | String "-"%char rest => option_map Z.opp (digits_value rest)
  | _ => digits_value t
  end.

(** The digits and underscores the parser scans after the sign, and the
    number of digits among them, which may not exceed
    [sys.get_int_max_str_digits()]. *)
Definition unsigned (t : string) : string :=
  match t with
  | String "+"%char rest => rest
  | String "-"%char rest => rest
  | _ => t
  end.

Fixpoint digit_run (s : string) : string :=
  match s with
  | EmptyString => EmptyString
  | String c rest =>
      if is_digit c || Ascii.eqb c "_"%char then String c (digit_run rest)
      else EmptyString
  end.

Fixpoint count_digits (s : string) : nat :=
  match s with
  | EmptyString => 0
  | String c rest =>
      if is_digit c then S (count_digits rest) else count_digits rest
  end.

Definition int_max_str_digits : nat := 4300.

Definition int (s : string) : result Z :=
  let t := rstrip_c (lstrip_c (transform s)) in
  let run := digit_run (unsigned t) in
  if valid_digits false run && (int_max_str_digits <? count_digits run)%nat
  then
    Raise (mk_exn "ValueError"
             ("Exceeds the limit (4300 digits) for integer string "
                ++ "conversion: value has " ++ str_of_nat (count_digits run)
                ++ " digits; use sys.set_int_max_str_digits() to increase "
                ++ "the limit"))
  else
    match signed_value t with
    | Some z => Ok z
    | None =>
        Raise (mk_exn "ValueError"
                 ("invalid literal for int() with base 10: '" ++ s ++ "'"))
    end.

(** *** The loop *)

(** The file name a call carries. *)
Definition call_filename (c : tool_call) : option string :=
  match c with
  | list_data_files_call => None
  | summarize_csv_file_call f => Some f
  | summarize_parquet_file_call f => Some f
  | analyze_csv_data_call f _ => Some f
  | create_sample_data_call f _ => Some f
  end.

(** A word: not empty, and no whitespace character begins anywhere in
    it. *)
Fixpoint no_space (s : string) : bool :=
  match s with
  | EmptyString => true
  | String _ rest =>
      match space_at s with
      | Some _ => false
      | None => no_space rest
      end
  end.

Definition word (s : string) : Prop := s <> "" /\ no_space s = true.

(** What the body of the loop of [run_custom_commands] does with the line
    it has read: leave the loop, ask the server, print a message, or raise
    what [int] raised. *)
Inductive reaction : Type :=
| Break
| ListTools
| CallTool (c : tool_call)
| Print (msg : string)
| Caught (e : exn).

Definition second (parts : list string) : string := nth 1 parts "".
Definition third (parts : list string) : string := nth 2 parts "".

Definition react (line : string) : reaction :=
  let command := strip line in
  if String.eqb command "quit" then Break
  else if String.eqb command "list_tools" then ListTools
  else if String.eqb command "list_files" then CallTool list_data_files_call
  else if startswith command "summarize" then
    let parts := split command in
    if (2 <=? List.length parts)%nat then
      let filename := second parts in
      if endswith filename ".csv" then
        CallTool (summarize_csv_file_call filename)
      else if endswith filename ".parquet" then
        CallTool (summarize_parquet_file_call filename)
      else Print "❌ Please specify .csv or .parquet extension"
    else Print "❌ Usage: summarize <filename>"
  else if startswith command "analyze" then
    let parts := split command in
    if (3 <=? List.length parts)%nat then
      let filename := second parts in
      let operation := third parts in
      CallTool (analyze_csv_data_call filename (Some operation))
    else Print "❌ Usage: analyze <filename> <operation>"
  else if startswith command "create" then
    let parts := split command in
    if (3 <=? List.length parts)%nat then
      let filename := second parts in
      match int (third parts) with
      | Ok rows => CallTool (create_sample_data_call filename (Some rows))
      | Raise e => Caught e
      end
    else Print "❌ Usage: create <filename> <rows>"
  else Print "❌ Unknown command. Type 'quit' to exit.".






(** The tool calls of [interactive_demo], in the order it makes them; a
    call that fails is answered with a text and the demo goes on. *)
Definition demo : list tool_call :=
  [list_data_files_call;
   summarize_csv_file_call "sample.csv";
   analyze_csv_data_call "sample.csv" (Some "info");
   analyze_csv_data_call "sample.csv" (Some "head");
   create_sample_data_call "test_data.csv" (Some 3%Z)].
End Client.

(* ================================================================= *)
(** ** A table library that runs

    Comma-separated text without quoting, which is what [pandas] writes and
    reads back for plain tables; every value read back is a string.  The
    Parquet bytes are the magic number followed by the same text. *)

Module SimplePandas.
Import PyStr.

Definition render_line (fields : list string) : string :=
  join "," fields ++ newline.

Definition render_csv (df : DataFrame) : string :=
  String.concat ""
    (map render_line
       (columns df :: map (map Frame.cell_text) (rows df))).

(** The lines of a text, blank ones skipped. *)
Definition lines (s : string) : list string :=
  filter (fun l => negb (String.eqb l "")) (split_on newline_char s).

Definition fields (l : string) : list string := split_on ","%char l.

Definition parse_csv (s : string) : result DataFrame :=
  match lines s with
  | [] => Raise (mk_exn "EmptyDataError" "No columns to parse from file")
  | header :: body =>
      let cols := fields header in
      let rs := map (fun l => map CStr (fields l)) body in
      if forallb (fun r => Nat.eqb (List.length r) (List.length cols)) rs
      then Ok (mk_df cols rs)
      else Raise (mk_exn "ParserError" "Error tokenizing data")
  end.

Definition magic : string := "PAR1".

Definition render_parquet (df : DataFrame) : result string :=
  Ok (magic ++ render_csv df).

Definition parse_parquet (s : string) : result DataFrame :=
  if startswith s magic then
    parse_csv (substring 4 (String.length s - 4) s)
  else
    Raise (mk_exn "ArrowInvalid"
             "Parquet magic bytes not found in footer.").

Definition parse_parquet_dir (es : list (string * node))
  : result DataFrame :=
  Raise (mk_exn "ArrowInvalid" "Not a Parquet dataset").

Definition row_text (r : list cell) : string :=
  join "  " (map Frame.cell_text r).

Definition head_to_string (df : DataFrame) : result string :=
  Ok (join newline
        (join "  " (columns df) :: map row_text (firstn 5 (rows df)))).

Definition describe_to_string (df : DataFrame) : result string :=
  match columns df with
  | [] => Raise (mk_exn "ValueError"
                   "Cannot describe a DataFrame without columns")
  | _ :: _ =>
      Ok (join newline
            [join "  " (columns df);
             join "  " (map (fun _ => str_of_nat (Frame.len df))
                            (columns df))])
  end.

Definition dtypes_to_string (df : DataFrame) : result string :=
  Ok (join newline (map (fun c => c ++ "    object") (columns df))).

Definition repr_list (l : list string) : string :=
  "[" ++ join ", " (map (fun s => "'" ++ s ++ "'") l) ++ "]".
(** A line of plain fields: at least one field. *)
Definition plain_fields (l : list string) : Prop :=
  l <> [] /\ Forall (fun f => Frame.plain_text f = true) l.
End SimplePandas.

(* ================================================================= *)
(** * Notions for the statements *)

(** [p] is [base] or lies below it. *)
Definition inside (base p : path) : Prop :=
  exists rest, p = (base ++ rest)%list.

(** The two suffixes [create_sample_data] accepts. *)
Definition supported (filename : string) : bool :=
  PyStr.endswith filename ".csv" || PyStr.endswith filename ".parquet".

(** A file name that stays below the directory it is joined to: relative,
    and without a [..] component. *)
Definition stays_below (filename : string) : Prop :=
  Pathlib.is_absolute filename = false /\
  ~ In ".." (Pathlib.parse_parts filename).

(** The location a file name resolves to is inside the data directory. *)
Definition confined (script_dir : path) (root : node) (filename : string)
  : Prop :=
  forall q,
    FS.resolve root (Pathlib.joinpath (DATA_DIR script_dir) filename)
    = Some q ->
    inside (DATA_DIR script_dir) q.

(** Two file systems with the same data directory. *)
Definition same_data (script_dir : path) (r1 r2 : node) : Prop :=
  FS.is_dir r1 (DATA_DIR script_dir) = true /\
  FS.lookup r1 (DATA_DIR script_dir) = FS.lookup r2 (DATA_DIR script_dir).

Module Sample.
(** A computation that always yields a value with [P] and leaves the file
    system and the date alone. *)
Definition draws {A} (P : A -> Prop) (m : St.M A) : Prop :=
  forall w, exists x w',
    m w = (Ok x, w') /\ P x /\ fs w' = fs w /\ today w' = today w.

Definition plain_cell (v : cell) : Prop :=
  Frame.plain_text (Frame.cell_text v) = true.

(** The labels of the generated table. *)
Definition sample_names : list string :=
  ["id"; "name"; "score"; "category"; "created_date"].

(** The table [create_sample_data] builds. *)
Definition is_sample_frame (rows : Z) (df : DataFrame) : Prop :=
  columns df = sample_names /\
  Frame.len df = Z.to_nat rows /\
  Frame.plain_frame df.
End Sample.

(** The sentences the handlers return. *)
Definition not_found_text (filename : string) : string :=
  "Error: File '" ++ filename ++ "' not found in data directory.".

Definition analyze_not_found_text (filename : string) : string :=
  "Error: File '" ++ filename ++ "' not found.".

Definition summary_text (format filename : string) (nrows : string)
  (cols : list string) : string :=
  format ++ " file '" ++ filename ++ "' has " ++ nrows ++ " rows and "
    ++ PyStr.str_of_nat (List.length cols) ++ " columns. Columns: "
    ++ PyStr.join ", " cols.

Definition created_text (filename : string) (rows : Z) : string :=
  "Created " ++ filename ++ " with " ++ PyStr.str_of_Z rows
    ++ " rows and 5 columns.".

Definition unsupported_text : string :=
  "Error: Filename must end with .csv or .parquet".

Definition no_files_text : string :=
  "No data files found in the data directory.".

(** The operations [analyze_csv_data] knows. *)
Definition valid_operations : list string :=
  ["describe"; "head"; "info"; "columns"].

Definition unknown_operation_text (operation : string) : string :=
  "Unknown operation: " ++ operation ++ ". Available: "
    ++ PyStr.join ", " valid_operations.

(** The names of the regular files among the entries of a directory. *)
Definition regular_names (es : list (string * node)) : list string :=
  map fst (filter (fun f => FS.is_file_node (snd f)) es).

(** The bytes a table is stored as under a file name. *)
Definition stored_as {pd : Pandas} (filename : string) (df : DataFrame)
  (bytes : string) : Prop :=
  if PyStr.endswith filename ".csv" then bytes = render_csv df
  else render_parquet df = Ok bytes.

(** ** The failure kinds of the handlers *)

Inductive failure : Type :=
| NotFound
| UnsupportedFormat
| LoadFailure
| WriteFailure
| UnknownOperation.

Definition operation_or_default (operation : option string) : string :=
  match operation with Some o => o | None => "describe" end.

Section Failures.
Import PyStr FS.
Context {pd : Pandas}.
Variable script_dir : path.

Local Abbreviation target f := (Pathlib.joinpath (DATA_DIR script_dir) f).

(** When a call meets a failure of a kind: the conditions are those the
    handlers test, in the order they test them. *)
Inductive suffers (w : world) : tool_call -> failure -> Prop :=
| csv_not_found filename :
    path_exists (fs w) (target filename) = Ok false ->
    suffers w (summarize_csv_file_call filename) NotFound
| parquet_not_found filename :
    path_exists (fs w) (target filename) = Ok false ->
    suffers w (summarize_parquet_file_call filename) NotFound
| analyze_missing filename operation :
    path_exists (fs w) (target filename) = Ok false ->
    suffers w (analyze_csv_data_call filename operation) NotFound
| csv_load_failure filename e :
    path_exists (fs w) (target filename) = Ok true ->
    pd_read_csv (fs w) (target filename) = Raise e ->
    suffers w (summarize_csv_file_call filename) LoadFailure
| parquet_load_failure filename e :
    path_exists (fs w) (target filename) = Ok true ->
    pd_read_parquet (fs w) (target filename) = Raise e ->
    suffers w (summarize_parquet_file_call filename) LoadFailure
| analyze_load_fails filename operation e :
    path_exists (fs w) (target filename) = Ok true ->
    pd_read_csv (fs w) (target filename) = Raise e ->
    suffers w (analyze_csv_data_call filename operation) LoadFailure
| analyze_unknown filename operation df :
    path_exists (fs w) (target filename) = Ok true ->
    pd_read_csv (fs w) (target filename) = Ok df ->
    ~ In (operation_or_default operation) valid_operations ->
    suffers w (analyze_csv_data_call filename operation) UnknownOperation
| create_bad_suffix filename rows :
    supported filename = false ->
    suffers w (create_sample_data_call filename rows) UnsupportedFormat
| create_cannot_write filename rows :
    supported filename = true ->
    writable (fs w) (target filename) = false ->
    suffers w (create_sample_data_call filename rows) WriteFailure.

(** The existence test of a reading call gives an answer: the system does
    not refuse the name as too long. *)
Definition test_answers (w : world) (c : tool_call) : Prop :=
  match c with
  | summarize_csv_file_call f
  | summarize_parquet_file_call f
  | analyze_csv_data_call f _ => name_too_long (fs w) (target f) = false
  | _ => True
  end.

(** The sentence that describes a failure of a call. *)
Definition describes (c : tool_call) (k : failure) (s : string) : Prop :=
  match k, c with
  | NotFound, summarize_csv_file_call f => s = not_found_text f
  | NotFound, summarize_parquet_file_call f => s = not_found_text f
  | NotFound, analyze_csv_data_call f _ => s = analyze_not_found_text f
  | LoadFailure, summarize_csv_file_call f =>
      exists e, s = "Error reading CSV file '" ++ f ++ "': " ++ exn_str e
  | LoadFailure, summarize_parquet_file_call f =>
      exists e, s = "Error reading Parquet file '" ++ f ++ "': " ++ exn_str e
  | LoadFailure, analyze_csv_data_call f _ =>
      exists e, s = "Error analyzing " ++ f ++ ": " ++ exn_str e
  | UnknownOperation, analyze_csv_data_call _ operation =>
      s = unknown_operation_text (operation_or_default operation)
  | UnsupportedFormat, create_sample_data_call _ _ => s = unsupported_text
  | WriteFailure, create_sample_data_call _ _ =>
      exists e, s = "Error creating sample data: " ++ exn_str e
  | _, _ => False
  end.
End Failures.

(** The claim of C2 as it is written: after [create_sample_data] the
    matching summary reports [n] rows and the five columns. *)
Definition round_trip_reports {pd : Pandas} (script_dir : path) (w : world)
  (filename : string) (n : Z) : Prop :=
  let w' := snd (create_sample_data script_dir filename n w) in
  (PyStr.endswith filename ".csv" = true ->
   summarize_csv_file script_dir (fs w') filename
   = Ok (summary_text "CSV" filename (PyStr.str_of_Z n)
           Sample.sample_names)) /\
  (PyStr.endswith filename ".csv" = false ->
   PyStr.endswith filename ".parquet" = true ->
   summarize_parquet_file script_dir (fs w') filename
   = Ok (summary_text "Parquet" filename (PyStr.str_of_Z n)
           Sample.sample_names)).

(** A file name names something in the base directory: the path it is
    joined to leads to an existing location inside [DATA_DIR]. *)
Definition in_base_directory (script_dir : path) (root : node)
  (filename : string) : Prop :=
  exists q,
    FS.resolve root (Pathlib.joinpath (DATA_DIR script_dir) filename)
    = Some q /\
    inside (DATA_DIR script_dir) q /\ FS.lookup root q <> None.

(* ================================================================= *)
(** * Notions for the further properties *)

(** A node with nothing below it: a regular file, an empty directory. *)
Definition leaf (n : node) : Prop :=
  forall c rest, FS.lookup n (c :: rest) = None.

(** A component as a path on the disk has them: not empty, not [.] or
    [..], without a slash or a NUL. *)
Definition clean_component (c : string) : bool :=
  Pathlib.keep_part c && negb (PyStr.has_char "/"%char c)
  && negb (String.eqb c "..") && FS.valid_component c.

(** A session whose creations all carry a file name that stays below. *)
Definition writes_below (c : tool_call) : Prop :=
  match c with
  | create_sample_data_call filename _ => stays_below filename
  | _ => True
  end.

(** The labels of the table the [__main__] block writes. *)
Definition seed_names : list string := ["id"; "name"; "email"; "signup_date"].

Module Rows.
(** [draws], for the worlds whose date is [d]. *)
Definition draws_on {A} (d : Datetime.date) (P : A -> Prop) (m : St.M A)
  : Prop :=
  forall w, today w = d ->
    exists x w', m w = (Ok x, w') /\ P x /\ fs w' = fs w /\ today w' = d.

(** Row [i] of the generated table, counted from 0, on the day [d]. *)
Definition sample_row (d : Datetime.date) (i : nat) (r : list cell) : Prop :=
  exists s c k,
    r = [CInt (1 + Z.of_nat i);
         CStr ("User_" ++ PyStr.str_of_Z (1 + Z.of_nat i));
         CInt s; CStr c;
         CStr (Datetime.strftime_ymd (Datetime.minus_days d k))] /\
    (1 <= s <= 100)%Z /\ In c ["A"; "B"; "C"]%string /\ (1 <= k <= 365)%Z.

Definition sample_rows (d : Datetime.date) (n : Z) (df : DataFrame) : Prop :=
  forall i, i < Z.to_nat n -> sample_row d i (nth i (rows df) []).

Definition is_score (v : cell) : Prop :=
  exists s, v = CInt s /\ (1 <= s <= 100)%Z.
Definition is_category (v : cell) : Prop :=
  exists c, v = CStr c /\ In c ["A"; "B"; "C"]%string.
Definition is_created (d : Datetime.date) (v : cell) : Prop :=
  exists k, v = CStr (Datetime.strftime_ymd (Datetime.minus_days d k)) /\
            (1 <= k <= 365)%Z.
End Rows.

(* ================================================================= *)
(** * A disk to run the handlers on *)

Module Fixture.
Import PyStr.

(** The script lives in [/srv/app], the data in [/srv/app/data]. *)
Definition app_dir : path := ["srv"; "app"].

Definition disk : node :=
  Dir [("srv",
        Dir [("app",
              Dir [("main.py", File "import pandas as pd");
                   ("data",
                    Dir [("sample.csv",
                          File ("id,name" ++ newline ++ "1,Alice" ++ newline));
                         ("notes.txt", File ("to do" ++ newline));
                         ("archive", Dir [])])])]);
       ("etc", Dir [("hosts.csv", File ("ip,host" ++ newline))])].

(** The data directory holds one subdirectory and no regular file. *)
Definition disk_only_subdir : node :=
  Dir [("srv", Dir [("app", Dir [("data", Dir [("archive", Dir [])])])])].

(** A file outside the application directory. *)
Definition hosts : path := ["etc"; "hosts.csv"].

(** A file name of 260 bytes: more than a directory entry can hold. *)
Definition long_name : string := zeros 256 ++ ".csv".

Definition w0 : world :=
  mk_world disk (fun n => (n * 37 + 11)%nat) 0 739000%Z.

(** A disk on which the server has never run, and one whose data directory
    holds no file. *)
Definition fresh_disk : node :=
  Dir [("srv", Dir [("app", Dir [("main.py", File "import pandas as pd")])])].

Definition w_fresh : world :=
  mk_world fresh_disk (fun n => (n * 5 + 2)%nat) 0 739000%Z.

Definition w_bare : world :=
  mk_world disk_only_subdir (fun n => n) 0 739000%Z.
End Fixture.

(* ================================================================= *)
(** * Facts about strings *)

Module PyStrFacts.
Import PyStr.

Lemma append_empty_r (s : string) : s ++ "" = s.
Proof. induction s as [|c s IH]; simpl; [reflexivity | now rewrite IH]. Qed.

Lemma length_app (a b : string) :
  String.length (a ++ b) = (String.length a + String.length b)%nat.
Proof. induction a as [|x a IH]; simpl; [reflexivity | now rewrite IH]. Qed.

Lemma append_assoc (a b c : string) : (a ++ b) ++ c = a ++ (b ++ c).
Proof. induction a as [|x a IH]; simpl; [reflexivity | now rewrite IH]. Qed.

Lemma has_char_app (c : ascii) (a b : string) :
  has_char c (a ++ b) = has_char c a || has_char c b.
Proof.
  induction a as [|x a IH]; simpl; [reflexivity|].
  rewrite IH. now rewrite orb_assoc.
Qed.

Lemma split_on_whole (sep : ascii) (s : string) :
  has_char sep s = false -> split_on sep s = [s].
Proof.
  induction s as [|c s IH]; simpl; intros H; [reflexivity|].
  apply orb_false_iff in H. destruct H as [Hc Hs].
  rewrite Ascii.eqb_sym, Hc. now rewrite (IH Hs).
Qed.

Lemma split_on_app (sep : ascii) (a b : string) :
  has_char sep a = false ->
  split_on sep (a ++ String sep b) = a :: split_on sep b.
Proof.
  induction a as [|c a IH]; simpl; intros H.
  - now rewrite Ascii.eqb_refl.
  - apply orb_false_iff in H. destruct H as [Hc Ha].
    rewrite Ascii.eqb_sym, Hc. now rewrite (IH Ha).
Qed.

(** Splitting what [join] glued gives the pieces back, when no piece
    holds the separator. *)
Lemma split_on_join (sep : ascii) (x : string) (xs : list string) :
  Forall (fun f => has_char sep f = false) (x :: xs) ->
  split_on sep (join (String sep "") (x :: xs)) = x :: xs.
Proof.
  revert x. induction xs as [|y ys IH]; intros x H.
  - inversion H; subst. now apply split_on_whole.
  - inversion H as [|? ? Hx Hrest]; subst.
    change (join (String sep "") (x :: y :: ys))
      with (x ++ String sep (join (String sep "") (y :: ys))).
    rewrite split_on_app by assumption.
    now rewrite (IH y Hrest).
Qed.

(** *** Decimal numerals are made of digits and a sign *)

Lemma string_of_uint_numeral (d : uint) :
  Frame.all_chars numeral_char (NilEmpty.string_of_uint d) = true.
Proof. induction d; simpl; auto. Qed.

Lemma str_of_Z_numeral (z : Z) :
  Frame.all_chars numeral_char (str_of_Z z) = true.
Proof.
  unfold str_of_Z, NilZero.string_of_int, NilZero.string_of_uint.
  destruct (Z.to_int z) as [d|d]; [|simpl];
    (destruct d; [reflexivity | apply string_of_uint_numeral ..]).
Qed.

Lemma str_of_Z_nonempty (z : Z) : str_of_Z z <> "".
Proof.
  unfold str_of_Z, NilZero.string_of_int, NilZero.string_of_uint.
  destruct (Z.to_int z) as [d|d]; destruct d; simpl; discriminate.
Qed.

Lemma numeral_char_plain (c : ascii) :
  numeral_char c = true -> Frame.plain_char c = true.
Proof.
  destruct c as [[] [] [] [] [] [] [] []]; vm_compute; intros H;
    first [reflexivity | discriminate H].
Qed.

Lemma all_chars_impl (f g : ascii -> bool) (s : string) :
  (forall c, f c = true -> g c = true) ->
  Frame.all_chars f s = true -> Frame.all_chars g s = true.
Proof.
  intros Hfg. induction s as [|c s IH]; simpl; [reflexivity|].
  intros H. apply andb_true_iff in H. destruct H as [Hc Hs].
  apply andb_true_iff. split; auto.
Qed.

Lemma all_chars_app (f : ascii -> bool) (a b : string) :
  Frame.all_chars f (a ++ b)
  = Frame.all_chars f a && Frame.all_chars f b.
Proof.
  induction a as [|c a IH]; simpl; [reflexivity|].
  now rewrite IH, andb_assoc.
Qed.

Lemma all_chars_zeros (n : nat) :
  Frame.all_chars Frame.plain_char (zeros n) = true.
Proof. induction n as [|n IH]; simpl; [reflexivity | exact IH]. Qed.

Lemma plain_text_intro (s : string) :
  s <> "" -> Frame.all_chars Frame.plain_char s = true ->
  Frame.plain_text s = true.
Proof.
  intros Hne Hall. unfold Frame.plain_text. rewrite Hall, andb_true_r.
  destruct (String.eqb_spec s ""); [contradiction | reflexivity].
Qed.

Lemma plain_text_str_of_Z (z : Z) : Frame.plain_text (str_of_Z z) = true.
Proof.
  apply plain_text_intro; [apply str_of_Z_nonempty|].
  eapply all_chars_impl; [apply numeral_char_plain|].
  apply str_of_Z_numeral.
Qed.

Lemma plain_str_of_Z (z : Z) :
  Frame.all_chars Frame.plain_char (str_of_Z z) = true.
Proof.
  eapply all_chars_impl; [apply numeral_char_plain|].
  apply str_of_Z_numeral.
Qed.

Lemma plain_zfill (w : nat) (s : string) :
  Frame.all_chars Frame.plain_char s = true ->
  Frame.all_chars Frame.plain_char (zfill w s) = true.
Proof.
  intros H. unfold zfill. now rewrite all_chars_app, all_chars_zeros, H.
Qed.

Lemma plain_text_strftime (d : Datetime.date) :
  Frame.plain_text (Datetime.strftime_ymd d) = true.
Proof.
  unfold Datetime.strftime_ymd.
  destruct (Datetime.civil d) as [[y m] day].
  apply plain_text_intro.
  - intros H.
    assert (L : String.length
                  (str_of_Z y ++ "-" ++ zfill 2 (str_of_Z m)
                     ++ "-" ++ zfill 2 (str_of_Z day)) = 0%nat)
      by now rewrite H.
    rewrite !length_app in L. simpl in L. lia.
  - rewrite !all_chars_app, !plain_zfill by apply plain_str_of_Z.
    rewrite plain_str_of_Z. reflexivity.
Qed.

Lemma all_chars_has_char (f : ascii -> bool) (c : ascii) (s : string) :
  Frame.all_chars f s = true -> f c = false -> has_char c s = false.
Proof.
  intros Hall Hc. induction s as [|d s IH]; cbn [has_char]; [reflexivity|].
  cbn [Frame.all_chars] in Hall.
  apply andb_true_iff in Hall. destruct Hall as [Hd Hs].
  rewrite (IH Hs), orb_false_r.
  destruct (Ascii.eqb_spec c d) as [->|]; [congruence | reflexivity].
Qed.

(** What a plain text gives to the CSV reader. *)
Lemma plain_text_elim (s : string) :
  Frame.plain_text s = true ->
  s <> "" /\ has_char ","%char s = false /\
  has_char newline_char s = false.
Proof.
  unfold Frame.plain_text. intros H.
  apply andb_true_iff in H. destruct H as [Hne Hall].
  split; [intros ->; discriminate Hne|].
  split; eapply all_chars_has_char; eauto.
Qed.
End PyStrFacts.

(* ================================================================= *)
(** * The table library that runs obeys the laws *)

Module SimplePandasFacts.
Import PyStr PyStrFacts SimplePandas.

Lemma concat_empty_cons (x : string) (xs : list string) :
  String.concat "" (x :: xs) = x ++ String.concat "" xs.
Proof.
  destruct xs as [|y ys]; simpl; [now rewrite append_empty_r | reflexivity].
Qed.

Lemma has_char_join (c sep : ascii) (l : list string) :
  Ascii.eqb c sep = false ->
  Forall (fun f => has_char c f = false) l ->
  has_char c (join (String sep "") l) = false.
Proof.
  intros Hsep H. induction H as [|x xs Hx Hxs IH]; [reflexivity|].
  destruct xs as [|y ys]; [exact Hx|].
  change (join (String sep "") (x :: y :: ys))
    with (x ++ String sep (join (String sep "") (y :: ys))).
  rewrite has_char_app. cbn [has_char]. now rewrite Hx, Hsep, IH.
Qed.

Lemma join_nonempty (sep : string) (x : string) (xs : list string) :
  x <> "" -> join sep (x :: xs) <> "".
Proof.
  intros Hx. destruct x as [|c x]; [contradiction|].
  destruct xs; simpl; discriminate.
Qed.

Lemma plain_fields_no_char (c : ascii) (l : list string) :
  Frame.plain_char c = false ->
  Forall (fun f => Frame.plain_text f = true) l ->
  Forall (fun f => has_char c f = false) l.
Proof.
  intros Hc H. induction H as [|x xs Hx _ IH]; constructor; [|exact IH].
  unfold Frame.plain_text in Hx. apply andb_true_iff in Hx.
  destruct Hx as [_ Hall]. eapply all_chars_has_char; eauto.
Qed.

Lemma lines_render (ls : list (list string)) :
  Forall plain_fields ls ->
  lines (String.concat "" (map render_line ls)) = map (join ",") ls.
Proof.
  induction 1 as [|l ls [Hne Hl] _ IH]; [reflexivity|].
  cbn [map]. rewrite concat_empty_cons. unfold render_line at 1.
  unfold newline. rewrite append_assoc. cbn [append].
  unfold lines. rewrite split_on_app.
  - cbn [filter]. fold (lines (String.concat "" (map render_line ls))).
    rewrite IH.
    destruct l as [|f fs]; [contradiction|].
    inversion Hl as [|? ? Hf _]; subst.
    destruct (plain_text_elim f Hf) as [Hfne _].
    destruct (String.eqb_spec (join "," (f :: fs)) "") as [E|_];
      [now apply join_nonempty in E | reflexivity].
  - apply (has_char_join newline_char ","%char); [reflexivity|].
    now apply plain_fields_no_char.
Qed.

Lemma fields_join (l : list string) :
  plain_fields l -> fields (join "," l) = l.
Proof.
  intros [Hne Hl]. destruct l as [|f fs]; [contradiction|].
  unfold fields. apply (split_on_join ","%char).
  now apply plain_fields_no_char.
Qed.

Lemma plain_frame_lines (df : DataFrame) :
  Frame.plain_frame df ->
  Forall plain_fields (columns df :: map (map Frame.cell_text) (rows df)).
Proof.
  intros (Hne & _ & Hcols & Hrows & _).
  assert (Hc : columns df <> [])
    by (intros E; rewrite E in Hne; cbn in Hne; lia).
  constructor; [now split|].
  apply Forall_map. eapply Forall_impl; [|exact Hrows].
  intros r [Hlen Hr]. split.
  - destruct r; [|discriminate]. cbn in Hlen. lia.
  - now apply Forall_map.
Qed.

Lemma parse_render_csv (df : DataFrame) :
  Frame.plain_frame df ->
  parse_csv (render_csv df)
  = Ok (mk_df (columns df)
              (map (fun r => map (fun v => CStr (Frame.cell_text v)) r)
                   (rows df))).
Proof.
  intros Hdf. pose proof (plain_frame_lines df Hdf) as Hlines.
  unfold parse_csv, render_csv. rewrite lines_render by assumption.
  cbn [map]. inversion Hlines as [|? ? Hhead Hbody]; subst.
  rewrite fields_join by assumption.
  rewrite !map_map.
  assert (E : map (fun r => map CStr
                              (fields (join "," (map Frame.cell_text r))))
                  (rows df)
              = map (fun r => map (fun v => CStr (Frame.cell_text v)) r)
                    (rows df)).
  { apply map_ext_in. intros r Hr.
    rewrite Forall_map in Hbody. rewrite Forall_forall in Hbody.
    rewrite fields_join by now apply Hbody.
    now rewrite map_map. }
  rewrite E.
  replace (forallb _ _) with true; [reflexivity|].
  symmetry. apply forallb_forall. intros r' Hr'.
  apply in_map_iff in Hr'. destruct Hr' as (r & <- & Hr).
  destruct Hdf as (_ & _ & _ & Hrows & _). rewrite Forall_forall in Hrows.
  rewrite length_map. apply Nat.eqb_eq. now apply Hrows.
Qed.

Lemma csv_round_trip (df : DataFrame) :
  Frame.plain_frame df ->
  exists df', parse_csv (render_csv df) = Ok df' /\
              Frame.len df' = Frame.len df /\ columns df' = columns df.
Proof.
  intros Hdf. eexists. split; [now apply parse_render_csv|].
  split; [|reflexivity]. unfold Frame.len. cbn [rows]. apply length_map.
Qed.

Lemma prefix_append (a b : string) : String.prefix a (a ++ b) = true.
Proof.
  induction a as [|c a IH]; simpl; [now destruct b|].
  destruct (ascii_dec c c); [exact IH | contradiction].
Qed.

Lemma substring_whole (s : string) : substring 0 (String.length s) s = s.
Proof. induction s as [|c s IH]; simpl; [reflexivity | now rewrite IH]. Qed.

Lemma parse_parquet_magic (s : string) :
  parse_parquet (magic ++ s) = parse_csv s.
Proof.
  unfold parse_parquet, startswith. rewrite prefix_append.
  unfold magic. cbn [append String.length Nat.sub substring].
  now rewrite Nat.sub_0_r, substring_whole.
Qed.

Lemma parquet_round_trip (df : DataFrame) :
  Frame.plain_frame df ->
  exists bytes df', render_parquet df = Ok bytes /\
              parse_parquet bytes = Ok df' /\
              Frame.len df' = Frame.len df /\ columns df' = columns df.
Proof.
  intros Hdf. destruct (csv_round_trip df Hdf) as (df' & Hparse & Hlen & Hcols).
  exists (magic ++ SimplePandas.render_csv df), df'.
  split; [reflexivity|]. split; [|now split].
  now rewrite parse_parquet_magic.
Qed.
End SimplePandasFacts.

(** The implementation as an instance of the interface. *)
#[local] Instance simple_pandas : Pandas := {|
  parse_csv := SimplePandas.parse_csv;
  render_csv := SimplePandas.render_csv;
  parse_parquet := SimplePandas.parse_parquet;
  parse_parquet_dir := SimplePandas.parse_parquet_dir;
  render_parquet := SimplePandas.render_parquet;
  describe_to_string := SimplePandas.describe_to_string;
  head_to_string := SimplePandas.head_to_string;
  dtypes_to_string := SimplePandas.dtypes_to_string;
  repr_list := SimplePandas.repr_list;
  csv_round_trip := SimplePandasFacts.csv_round_trip;
  parquet_round_trip := SimplePandasFacts.parquet_round_trip
|}.

(* ================================================================= *)
(** * Facts about the file system *)

Module FSFacts.
Import FS.
Local Open Scope list_scope.

Lemma get_entry_upsert (name : string) (n : node) es (k : string) :
  get_entry k (upsert name n es)
  = if String.eqb name k then Some n else get_entry k es.
Proof.
  induction es as [|[k' m] rest IH]; cbn [upsert get_entry].
  - rewrite String.eqb_sym. reflexivity.
  - destruct (String.eqb_spec k' name) as [->|Hk]; cbn [get_entry].
    + destruct (String.eqb_spec name k); reflexivity.
    + rewrite IH. destruct (String.eqb_spec k' k) as [->|]; [|reflexivity].
      destruct (String.eqb_spec name k); [congruence | reflexivity].
Qed.

Lemma get_entry_map_entry (name : string) (f : node -> node) es (k : string) :
  get_entry k (map_entry name f es)
  = if String.eqb name k then option_map f (get_entry k es)
    else get_entry k es.
Proof.
  induction es as [|[k' m] rest IH]; cbn [map_entry get_entry].
  - now destruct (String.eqb name k).
  - destruct (String.eqb_spec k' name) as [->|Hk]; cbn [get_entry].
    + destruct (String.eqb_spec name k); reflexivity.
    + rewrite IH. destruct (String.eqb_spec k' k) as [->|]; [|reflexivity].
      destruct (String.eqb_spec name k); [congruence | reflexivity].
Qed.

Lemma names_map_entry (name : string) (f : node -> node) es :
  map fst (map_entry name f es) = map fst es.
Proof.
  induction es as [|[k' m] rest IH]; cbn [map_entry map]; [reflexivity|].
  destruct (String.eqb k' name); cbn [map fst]; [reflexivity | now rewrite IH].
Qed.

Lemma lookup_app (n : node) (p q : path) :
  lookup n (p ++ q)
  = match lookup n p with Some m => lookup m q | None => None end.
Proof.
  revert n. induction p as [|c p IH]; intros n; [reflexivity|].
  rewrite <- app_comm_cons. cbn [lookup].
  destruct n as [x|es]; [reflexivity|].
  destruct (get_entry c es); [apply IH | reflexivity].
Qed.

Lemma lookup_file (x : string) (p : path) :
  lookup (File x) p = match p with [] => Some (File x) | _ => None end.
Proof. now destruct p. Qed.

Lemma put_file (p : path) (c x : string) : put p c (File x) = File x.
Proof. now destruct p. Qed.

(** Above a directory there are only directories. *)
Lemma is_dir_app (root : node) (p q : path) :
  is_dir root (p ++ q) = true -> is_dir root p = true.
Proof.
  unfold is_dir. rewrite lookup_app.
  destruct (lookup root p) as [[x|es]|]; try reflexivity;
    rewrite ?lookup_file; now destruct q.
Qed.

(** Writing a file where no directory stands keeps every directory. *)
Lemma is_dir_put (q : path) (c : string) :
  forall (root : node) (p : path),
    q <> [] -> is_dir root q = false ->
    is_dir (put q c root) p = is_dir root p.
Proof.
  induction q as [|name rest IH]; intros root p Hne Hd; [contradiction|].
  destruct root as [x|es]; [now rewrite put_file|].
  destruct p as [|k ps]; [now destruct rest|].
  unfold is_dir in *. destruct rest as [|r rs].
  - cbn [put lookup] in *. rewrite get_entry_upsert.
    destruct (String.eqb_spec name k) as [->|]; [|reflexivity].
    destruct (get_entry k es) as [[x|es']|]; try discriminate;
      now destruct ps.
  - cbn [lookup] in Hd. change (put (name :: r :: rs) c (Dir es))
      with (Dir (map_entry name (put (r :: rs) c) es)).
    cbn [lookup]. rewrite get_entry_map_entry.
    destruct (String.eqb_spec name k) as [->|]; [|reflexivity].
    destruct (get_entry k es) as [m|]; cbn [option_map]; [|reflexivity].
    apply IH; [discriminate | exact Hd].
Qed.

(** The written file is found where it was put. *)
Lemma lookup_put (q : path) (c : string) :
  forall root : node,
    q <> [] -> is_dir root (Pathlib.parent q) = true ->
    lookup (put q c root) q = Some (File c).
Proof.
  unfold Pathlib.parent.
  induction q as [|name rest IH]; intros root Hne Hd; [contradiction|].
  destruct root as [x|es].
  - unfold is_dir in Hd. rewrite lookup_file in Hd.
    destruct (removelast (name :: rest)); discriminate.
  - destruct rest as [|r rs].
    + cbn [put lookup]. rewrite get_entry_upsert, String.eqb_refl.
      reflexivity.
    + change (put (name :: r :: rs) c (Dir es))
        with (Dir (map_entry name (put (r :: rs) c) es)).
      change (removelast (name :: r :: rs))
        with (name :: removelast (r :: rs)) in Hd.
      unfold is_dir in Hd. cbn [lookup] in *.
      rewrite get_entry_map_entry, String.eqb_refl.
      destruct (get_entry name es) as [m|]; [|discriminate].
      cbn [option_map]. apply IH; [discriminate|]. exact Hd.
Qed.

(** Writing at [q] shows only at [q] and in the listing of its parent. *)
Lemma stat_put (q : path) (c : string) :
  forall (root : node) (p : path),
    ~ inside (Pathlib.parent q) p ->
    stat (put q c root) p = stat root p.
Proof.
  unfold Pathlib.parent.
  induction q as [|name rest IH]; intros root p Hout.
  - now destruct root.
  - destruct root as [x|es]; [now rewrite put_file|].
    destruct rest as [|r rs].
    + exfalso. apply Hout. now exists p.
    + change (put (name :: r :: rs) c (Dir es))
        with (Dir (map_entry name (put (r :: rs) c) es)).
      change (removelast (name :: r :: rs))
        with (name :: removelast (r :: rs)) in Hout.
      destruct p as [|k ps].
      * unfold stat. cbn [lookup]. now rewrite names_map_entry.
      * unfold stat in *. cbn [lookup]. rewrite get_entry_map_entry.
        destruct (String.eqb_spec name k) as [->|]; [|reflexivity].
        destruct (get_entry k es) as [m|]; cbn [option_map]; [|reflexivity].
        apply IH. intros [t Ht]. apply Hout. exists t. now rewrite Ht.
Qed.

(** *** The walk *)

Lemma walk_ext (r1 r2 : node) :
  (forall p, is_dir r1 p = is_dir r2 p) ->
  forall comps cur, walk r1 cur comps = walk r2 cur comps.
Proof.
  intros H. induction comps as [|c rest IH]; intros cur; cbn [walk];
    [reflexivity|].
  rewrite H. destruct (valid_component c && is_dir r2 cur);
    [apply IH | reflexivity].
Qed.

Lemma walk_app (root : node) (a b : list string) :
  forall cur,
    walk root cur (a ++ b)
    = match walk root cur a with
      | Some q => walk root q b
      | None => None
      end.
Proof.
  induction a as [|c a IH]; intros cur; [reflexivity|].
  rewrite <- app_comm_cons. cbn [walk].
  destruct (valid_component c && is_dir root cur); [apply IH | reflexivity].
Qed.

(** Without [..] the walk ends where the components say. *)
Lemma walk_plain (root : node) (comps : list string) :
  ~ In ".." comps ->
  forall cur q, walk root cur comps = Some q -> q = (cur ++ comps)%list.
Proof.
  induction comps as [|c rest IH]; intros Hno cur q; cbn [walk].
  - intros [= <-]. now rewrite app_nil_r.
  - destruct (valid_component c && is_dir root cur); [|discriminate].
    destruct (String.eqb_spec c "..") as [->|_].
    + exfalso. apply Hno. now left.
    + intros Hw. apply IH in Hw.
      * now rewrite <- app_assoc in Hw.
      * intros Hin. apply Hno. now right.
Qed.

(** *** Resolution and the limits on names *)

Lemma resolve_walk (root : node) (p q : path) :
  resolve root p = Some q -> walk root [] p = Some q.
Proof. unfold resolve. now destruct (fits p). Qed.

Lemma resolve_fits (root : node) (p q : path) :
  resolve root p = Some q -> fits p = true.
Proof. unfold resolve. now destruct (fits p). Qed.

Lemma walk_resolve (root : node) (p : path) :
  fits p = true -> resolve root p = walk root [] p.
Proof. unfold resolve. now intros ->. Qed.

Lemma resolve_ext (r1 r2 : node) :
  (forall p, is_dir r1 p = is_dir r2 p) ->
  forall p, resolve r1 p = resolve r2 p.
Proof.
  intros H p. unfold resolve. destruct (fits p); [|reflexivity].
  now apply walk_ext.
Qed.

Lemma length_join_app (sep : string) (p q : list string) :
  String.length (PyStr.join sep p) <= String.length (PyStr.join sep (p ++ q)).
Proof.
  unfold PyStr.join. induction p as [|x p IH]; [cbn; lia|].
  destruct p as [|y p].
  - destruct q as [|z q]; [cbn; lia|].
    change (String.concat sep ([x] ++ z :: q))
      with (x ++ sep ++ String.concat sep (z :: q))%string.
    change (String.concat sep [x]) with x.
    rewrite PyStrFacts.length_app. lia.
  - change (String.concat sep ((x :: y :: p) ++ q))
      with (x ++ sep ++ String.concat sep ((y :: p) ++ q))%string.
    change (String.concat sep (x :: y :: p))
      with (x ++ sep ++ String.concat sep (y :: p))%string.
    rewrite !PyStrFacts.length_app. lia.
Qed.

(** A path that fits, fits up to any of its components. *)
Lemma fits_app (p q : path) : fits (p ++ q) = true -> fits p = true.
Proof.
  unfold fits, Pathlib.to_str. intros H.
  apply Nat.ltb_lt in H. apply Nat.ltb_lt.
  rewrite PyStrFacts.length_app in *.
  pose proof (length_join_app "/" p q). lia.
Qed.

Lemma length_join_snoc (sep : string) (base : list string) (x : string) :
  String.length (PyStr.join sep (base ++ [x]))
  = String.length (PyStr.join sep (base ++ [""%string])) + String.length x.
Proof.
  unfold PyStr.join. induction base as [|y base IH]; [cbn; lia|].
  destruct base as [|z base].
  - change (String.concat sep ([y] ++ [x]))
      with (y ++ sep ++ x)%string.
    change (String.concat sep ([y] ++ [""%string]))
      with (y ++ sep ++ "")%string.
    rewrite !PyStrFacts.length_app. cbn [String.length]. lia.
  - change (String.concat sep ((y :: z :: base) ++ [x]))
      with (y ++ sep ++ String.concat sep ((z :: base) ++ [x]))%string.
    change (String.concat sep ((y :: z :: base) ++ [""%string]))
      with (y ++ sep ++ String.concat sep ((z :: base) ++ [""%string]))%string.
    rewrite !PyStrFacts.length_app, IH. lia.
Qed.

(** Under one directory, a name no longer than one that fits, fits. *)
Lemma fits_shorter (base : path) (a b : string) :
  String.length b <= String.length a ->
  fits (base ++ [a]) = true -> fits (base ++ [b]) = true.
Proof.
  unfold fits, Pathlib.to_str. intros Hab H.
  apply Nat.ltb_lt in H. apply Nat.ltb_lt.
  rewrite PyStrFacts.length_app in *.
  rewrite (length_join_snoc "/" base a) in H.
  rewrite (length_join_snoc "/" base b). lia.
Qed.

Lemma resolve_prefix (root : node) (p q r : path) :
  resolve root (p ++ q) = Some r ->
  exists d, resolve root p = Some d /\ walk root d q = Some r.
Proof.
  intros H. pose proof (resolve_fits _ _ _ H) as F.
  apply resolve_walk in H. rewrite walk_app in H.
  destruct (walk root [] p) as [d|] eqn:W; [|discriminate].
  exists d. split; [|exact H].
  now rewrite (walk_resolve root p (fits_app p q F)).
Qed.

Lemma meets_long_name_ext (r1 r2 : node) :
  (forall p, is_dir r1 p = is_dir r2 p) ->
  forall comps cur,
    meets_long_name r1 cur comps = meets_long_name r2 cur comps.
Proof.
  intros H. induction comps as [|c rest IH]; intros cur;
    cbn [meets_long_name]; [reflexivity|].
  now rewrite H, IH.
Qed.

(** A walk that comes to a name that is too long ends there. *)
Lemma meets_long_name_walk (root : node) (comps : list string) :
  forall cur, meets_long_name root cur comps = true ->
              walk root cur comps = None.
Proof.
  induction comps as [|c rest IH]; intros cur; cbn [meets_long_name walk];
    [discriminate|].
  intros H. apply andb_true_iff in H. destruct H as [Hd H]. rewrite Hd.
  unfold valid_component.
  destruct (Nat.ltb_spec NAME_MAX (String.length c)) as [Hlong|Hshort].
  - replace (String.length c <=? NAME_MAX)%nat with false
      by (symmetry; apply Nat.leb_gt; exact Hlong).
    now rewrite andb_false_r.
  - cbn [orb] in H.
    destruct (negb (PyStr.has_char PyStr.nul_char c)
              && (String.length c <=? NAME_MAX)%nat); cbn [andb];
      [now apply IH | reflexivity].
Qed.

Lemma name_too_long_resolve (root : node) (p : path) :
  name_too_long root p = true -> resolve root p = None.
Proof.
  unfold name_too_long, resolve. intros H.
  apply andb_true_iff in H. destruct H as [_ H].
  destruct (fits p); [|reflexivity]. cbn [negb orb] in H.
  now apply meets_long_name_walk.
Qed.

Lemma resolve_not_too_long (root : node) (p q : path) :
  resolve root p = Some q -> name_too_long root p = false.
Proof.
  intros H. destruct (name_too_long root p) eqn:E; [|reflexivity].
  apply name_too_long_resolve in E. congruence.
Qed.

(** *** The existence test *)

Lemma path_exists_true (root : node) (p : path) :
  exists_ root p = true -> path_exists root p = Ok true.
Proof.
  unfold exists_, path_exists.
  destruct (resolve root p) as [q|]; [|discriminate].
  now destruct (lookup root q).
Qed.

Lemma path_exists_ok (root : node) (p : path) (b : bool) :
  path_exists root p = Ok b -> exists_ root p = b.
Proof.
  unfold exists_, path_exists.
  destruct (resolve root p) as [q|].
  - now intros [= <-].
  - destruct (name_too_long root p); [discriminate | now intros [= <-]].
Qed.

Lemma path_exists_raise (root : node) (p : path) (e : exn) :
  path_exists root p = Raise e ->
  e = err_name_too_long p /\ name_too_long root p = true.
Proof.
  unfold path_exists. destruct (resolve root p) as [q|]; [discriminate|].
  destruct (name_too_long root p); [|discriminate].
  now intros [= <-].
Qed.

Lemma path_exists_too_long (root : node) (p : path) :
  name_too_long root p = true ->
  path_exists root p = Raise (err_name_too_long p).
Proof.
  intros H. unfold path_exists.
  now rewrite (name_too_long_resolve root p H), H.
Qed.

(** The test answers, with what [os.stat] finds, unless the name is too
    long. *)
Lemma path_exists_cases (root : node) (p : path) :
  (name_too_long root p = false /\
   path_exists root p = Ok (exists_ root p)) \/
  (name_too_long root p = true /\
   path_exists root p = Raise (err_name_too_long p)).
Proof.
  destruct (name_too_long root p) eqn:E.
  - right. split; [reflexivity | now apply path_exists_too_long].
  - left. split; [reflexivity|]. unfold path_exists, exists_.
    destruct (resolve root p) as [q|]; [reflexivity|]. now rewrite E.
Qed.

Lemma path_exists_resolved (root : node) (p q : path) :
  resolve root p = Some q -> path_exists root p = Ok (exists_ root p).
Proof. unfold path_exists, exists_. now intros ->. Qed.

(** *** Reading back what was written *)

Lemma write_file_ok (root : node) (p : path) (c : string) :
  writable root p = true ->
  exists q, resolve root p = Some q /\ q <> [] /\
            is_dir root q = false /\
            is_dir root (Pathlib.parent q) = true /\
            write_file root p c = Ok (put q c root).
Proof.
  unfold writable, write_file.
  destruct (resolve root p) as [[|x q]|]; try discriminate.
  intros H. apply andb_true_iff in H. destruct H as [Hq Hpar].
  apply negb_true_iff in Hq. exists (x :: q).
  rewrite Hq, Hpar. repeat split; auto. discriminate.
Qed.

Lemma write_file_inv (root root' : node) (p : path) (c : string) :
  write_file root p c = Ok root' ->
  writable root p = true /\
  exists q, resolve root p = Some q /\ root' = put q c root.
Proof.
  unfold writable, write_file.
  destruct (resolve root p) as [[|x q]|]; try discriminate.
  destruct (is_dir root (x :: q)); [discriminate|].
  destruct (is_dir root (Pathlib.parent (x :: q))); [|discriminate].
  intros [= <-]. split; [reflexivity|]. now exists (x :: q).
Qed.

Lemma write_file_err (root : node) (p : path) (c : string) :
  writable root p = false -> exists e, write_file root p c = Raise e.
Proof.
  unfold writable, write_file.
  destruct (resolve root p) as [[|x q]|]; try (intros _; eexists; reflexivity).
  destruct (is_dir root (x :: q)); [intros _; eexists; reflexivity|].
  destruct (is_dir root (Pathlib.parent (x :: q)));
    [discriminate | intros _; eexists; reflexivity].
Qed.

(** After a write the same path resolves as before, exists, and reads as
    what was written. *)
Lemma read_after_write (root root' : node) (p : path) (c : string) :
  write_file root p c = Ok root' ->
  exists_ root' p = true /\ read_file root' p = Ok c /\
  exists q, resolve root' p = Some q /\ lookup root' q = Some (File c).
Proof.
  intros Hw. destruct (write_file_inv _ _ _ _ Hw) as [Hok _].
  destruct (write_file_ok root p c Hok) as (q & Hres & Hne & Hd & Hpar & Hw').
  rewrite Hw in Hw'. injection Hw' as ->.
  assert (R : resolve (put q c root) p = Some q).
  { rewrite <- Hres. apply resolve_ext.
    intros p'. now apply is_dir_put. }
  assert (L : lookup (put q c root) q = Some (File c))
    by now apply lookup_put.
  unfold exists_, read_file. rewrite R, L. repeat split; eauto.
Qed.
(** What holds a node is a directory. *)
Lemma lookup_parent (root : node) (q : path) (n : node) :
  q <> [] -> lookup root q = Some n ->
  is_dir root (Pathlib.parent q) = true.
Proof.
  intros Hne H. unfold Pathlib.parent, is_dir.
  rewrite (app_removelast_last ""%string Hne), lookup_app in H.
  destruct (lookup root (removelast q)) as [[x|es]|];
    [discriminate H | reflexivity | discriminate H].
Qed.

(** A path that resolves to a regular file can be written. *)
Lemma writable_file (root : node) (p q : path) (old : string) :
  p <> [] -> resolve root p = Some q -> lookup root q = Some (File old) ->
  q <> [] /\ writable root p = true.
Proof.
  intros Hp Hres Hold.
  assert (Hq : q <> []).
  { intros ->. cbn [lookup] in Hold. injection Hold as ->.
    destruct p as [|x xs]; [contradiction|].
    apply resolve_walk in Hres. cbn [walk] in Hres.
    unfold is_dir in Hres. cbn [lookup] in Hres.
    rewrite andb_false_r in Hres. discriminate. }
  split; [exact Hq|]. unfold writable. rewrite Hres.
  destruct q as [|c q]; [contradiction|].
  rewrite (lookup_parent root (c :: q) (File old)) by assumption.
  unfold is_dir. now rewrite Hold.
Qed.
End FSFacts.

(* ================================================================= *)
(** * Facts about the generated table *)

Module SampleFacts.
Import PyStr PyStrFacts Sample.
Local Open Scope list_scope.

Lemma draws_replicate {A} (P : A -> Prop) (m : St.M A) (n : nat) :
  draws P m ->
  draws (fun l => List.length l = n /\ Forall P l) (St.replicate n m).
Proof.
  intros Hm. induction n as [|n IH]; intros w.
  - exists [], w. cbn. auto.
  - destruct (Hm w) as (x & w1 & E1 & Px & F1 & T1).
    destruct (IH w1) as (xs & w2 & E2 & [Hlen Hall] & F2 & T2).
    exists (x :: xs), w2. cbn [St.replicate]. unfold St.bind at 1.
    rewrite E1. unfold St.bind at 1. rewrite E2. cbn.
    repeat split; auto; congruence.
Qed.

(** A plain integer, a plain string. *)
Definition plain_int (v : cell) : Prop :=
  plain_cell v /\ Frame.is_int v = true.

Definition plain_str (v : cell) : Prop :=
  plain_cell v /\ Frame.is_int v = false.

Lemma plain_ints (l : list cell) :
  Forall plain_int l -> Forall plain_cell l /\ Frame.one_kind l = true.
Proof.
  intros H. split; [eapply Forall_impl; [|exact H]; now intros v [Hv _]|].
  unfold Frame.one_kind. apply orb_true_iff. left.
  apply forallb_forall. rewrite Forall_forall in H.
  intros v Hv. now apply H.
Qed.

Lemma plain_strs (l : list cell) :
  Forall plain_str l -> Forall plain_cell l /\ Frame.one_kind l = true.
Proof.
  intros H. split; [eapply Forall_impl; [|exact H]; now intros v [Hv _]|].
  unfold Frame.one_kind. apply orb_true_iff. right.
  apply forallb_forall. rewrite Forall_forall in H.
  intros v Hv. destruct (H v Hv) as [_ ->]. reflexivity.
Qed.

Lemma draws_score :
  draws plain_int (x <- Random.randint 1 100 ;; St.ret (CInt x))%st.
Proof.
  intros w. eexists _, _. split; [reflexivity|].
  split; [split; [apply plain_text_str_of_Z | reflexivity] | auto].
Qed.

Lemma draws_category :
  draws plain_str
    (x <- Random.choice ["A"; "B"; "C"] ;; St.ret (CStr x))%st.
Proof.
  intros w. unfold St.bind, Random.choice.
  pose proof (Nat.mod_upper_bound (tape w (cursor w)) 3) as Hlt.
  cbn [List.length]. destruct (tape w (cursor w) mod 3) as [|[|[|k]]];
    [| | |lia]; cbn; eexists _, _; repeat split; reflexivity.
Qed.

Lemma draws_created_date :
  draws plain_str
    (fun w =>
       (k <- Random.randint 1 365 ;;
        St.ret (CStr (Datetime.strftime_ymd
                        (Datetime.minus_days (today w) k))))%st w).
Proof.
  intros w. eexists _, _. split; [reflexivity|].
  split; [split; [apply plain_text_strftime | reflexivity] | auto].
Qed.

Lemma length_range (a b : Z) : List.length (range a b) = Z.to_nat (b - a).
Proof. unfold range. now rewrite length_map, length_seq. Qed.

Lemma plain_user (i : Z) : plain_cell (CStr ("User_" ++ str_of_Z i)).
Proof.
  unfold plain_cell. cbn [Frame.cell_text].
  apply plain_text_intro; [discriminate|].
  rewrite all_chars_app, plain_str_of_Z. reflexivity.
Qed.

(** The columns that come out: five of them, all of length [rows], all
    plain and each of one kind; the file system is as it was. *)
Lemma sample_columns_spec (rows : Z) (w : world) :
  exists data w',
    sample_columns rows w = (Ok data, w') /\
    fs w' = fs w /\
    map fst data = sample_names /\
    Forall (fun kv => List.length (snd kv) = Z.to_nat rows /\
                      Forall plain_cell (snd kv)) data /\
    Forall (fun kv => Frame.one_kind (snd kv) = true) data.
Proof.
  unfold sample_columns.
  destruct (draws_replicate _ _ (Z.to_nat rows) draws_score w)
    as (score & w1 & E1 & [L1 P1] & F1 & _).
  destruct (draws_replicate _ _ (Z.to_nat rows) draws_category w1)
    as (category & w2 & E2 & [L2 P2] & F2 & _).
  destruct (draws_replicate _ _ (Z.to_nat rows) draws_created_date w2)
    as (created & w3 & E3 & [L3 P3] & F3 & _).
  eexists _, w3. unfold St.bind at 1. rewrite E1.
  unfold St.bind at 1. rewrite E2. unfold St.bind at 1. rewrite E3.
  split; [reflexivity|]. split; [congruence|]. split; [reflexivity|].
  assert (Hr : Z.to_nat (rows + 1 - 1) = Z.to_nat rows) by (f_equal; lia).
  apply plain_ints in P1. apply plain_strs in P2. apply plain_strs in P3.
  assert (Hid : Forall plain_int (map CInt (range 1 (rows + 1)))).
  { apply Forall_map, Forall_forall. intros i _.
    split; [apply plain_text_str_of_Z | reflexivity]. }
  assert (Hname : Forall plain_str
                    (map (fun i => CStr ("User_" ++ str_of_Z i))
                         (range 1 (rows + 1)))).
  { apply Forall_map, Forall_forall. intros i _.
    split; [apply plain_user | reflexivity]. }
  apply plain_ints in Hid. apply plain_strs in Hname.
  split; repeat (apply Forall_cons; [cbn [snd]|]); try apply Forall_nil;
    try (split; [rewrite ?length_map, ?length_range; auto|]); tauto.
Qed.

Lemma nth_map_default {A B} (f : A -> B) (l : list A) (i : nat) (a : A)
  (b : B) :
  i < List.length l -> nth i (map f l) b = f (nth i l a).
Proof.
  intros Hi. rewrite (nth_indep _ b (f a)) by now rewrite length_map.
  apply map_nth.
Qed.

Lemma column_from_dict (n j : nat) (data : list (string * list cell)) :
  Forall (fun kv => List.length (snd kv) = n) data ->
  j < List.length data ->
  map (fun r => nth j r (CStr "")) (map (Frame.row_at data) (seq 0 n))
  = snd (nth j data (""%string, [])).
Proof.
  intros H Hj. rewrite map_map.
  assert (Hl : List.length (snd (nth j data (""%string, []))) = n).
  { rewrite Forall_forall in H. now apply H, nth_In. }
  apply (nth_ext _ _ (CStr "") (CStr "")).
  - now rewrite length_map, length_seq.
  - intros k Hk. rewrite length_map, length_seq in Hk.
    rewrite (nth_map_default _ _ k 0) by now rewrite length_seq.
    rewrite seq_nth by assumption. cbn [Nat.add]. unfold Frame.row_at.
    now rewrite (nth_map_default _ _ j (""%string, [])).
Qed.

(** A column of the table is the list it was built from. *)
Lemma from_dict_column (data : list (string * list cell)) (df : DataFrame)
  (j : nat) :
  Frame.from_dict data = Ok df -> j < List.length data ->
  Frame.column df j = snd (nth j data (""%string, [])).
Proof.
  unfold Frame.from_dict.
  destruct (forallb _ data) eqn:E; [|discriminate].
  intros [= <-] Hj. unfold Frame.column. cbn [rows].
  apply column_from_dict; [|assumption].
  apply Forall_forall. intros kv Hkv.
  rewrite forallb_forall in E. now apply Nat.eqb_eq, E.
Qed.

Lemma row_at_spec (P : cell -> Prop) (n i : nat)
  (data : list (string * list cell)) :
  Forall (fun kv => List.length (snd kv) = n /\ Forall P (snd kv)) data ->
  i < n ->
  List.length (Frame.row_at data i) = List.length data /\
  Forall P (Frame.row_at data i).
Proof.
  intros H Hi. unfold Frame.row_at. split; [apply length_map|].
  apply Forall_map. eapply Forall_impl; [|exact H].
  intros [k col] [Hlen Hcol]. cbn [snd] in *.
  rewrite Forall_forall in Hcol. apply Hcol, nth_In. lia.
Qed.

Lemma from_dict_spec (P : cell -> Prop) (n : nat)
  (data : list (string * list cell)) :
  data <> [] ->
  Forall (fun kv => List.length (snd kv) = n /\ Forall P (snd kv)) data ->
  exists df,
    Frame.from_dict data = Ok df /\
    columns df = map fst data /\
    Frame.len df = n /\
    Forall (fun r => List.length r = List.length (columns df) /\ Forall P r)
           (rows df).
Proof.
  intros Hne H. unfold Frame.from_dict.
  assert (Hn : Frame.column_length data = n).
  { destruct data as [|[k col] rest]; [contradiction|].
    inversion H as [|? ? [Hlen _] _]; subst. reflexivity. }
  rewrite Hn.
  replace (forallb _ data) with true.
  - eexists. split; [reflexivity|]. cbn [columns rows Frame.len].
    split; [reflexivity|].
    split; [unfold Frame.len; cbn [rows]; now rewrite length_map, length_seq|].
    apply Forall_map, Forall_forall. intros i Hi. apply in_seq in Hi.
    rewrite length_map. apply (row_at_spec P n); [assumption | lia].
  - symmetry. apply forallb_forall. intros kv Hkv.
    rewrite Forall_forall in H. apply Nat.eqb_eq. now apply H.
Qed.

Lemma sample_frame (rows : Z) (w : world) :
  exists data df w',
    sample_columns rows w = (Ok data, w') /\
    Frame.from_dict data = Ok df /\
    fs w' = fs w /\ is_sample_frame rows df.
Proof.
  destruct (sample_columns_spec rows w)
    as (data & w' & E & F & Hnames & Hcols & Hkinds).
  destruct (from_dict_spec plain_cell (Z.to_nat rows) data) as
    (df & Hdf & Hc & Hlen & Hrows); [|assumption|].
  { intros ->. discriminate Hnames. }
  exists data, df, w'.
  assert (Hcs : columns df = sample_names) by congruence.
  split; [exact E|]. split; [exact Hdf|]. split; [exact F|].
  split; [exact Hcs|]. split; [exact Hlen|].
  split; [rewrite Hcs; cbn; lia|].
  split; [rewrite Hcs; unfold sample_names;
          repeat constructor; cbn; intuition discriminate|].
  split; [rewrite Hcs; repeat constructor|]. split; [exact Hrows|].
  intros j Hj. rewrite Hc, length_map in Hj.
  rewrite (from_dict_column data df j Hdf Hj).
  rewrite Forall_forall in Hkinds. now apply Hkinds, nth_In.
Qed.
End SampleFacts.

(* ================================================================= *)
(** * Facts about file names *)

Module PathFacts.
Import PyStr PyStrFacts Pathlib.
Local Open Scope list_scope.

Lemma substring_cut (s : string) :
  forall k, k <= String.length s ->
    s = (substring 0 k s ++ substring k (String.length s - k) s)%string.
Proof.
  induction s as [|c s IH]; intros k Hk.
  - cbn in Hk. assert (k = 0) as -> by lia. reflexivity.
  - destruct k as [|k].
    + cbn [substring append String.length Nat.sub].
      now rewrite SimplePandasFacts.substring_whole.
    + cbn [String.length] in *. cbn [substring Nat.sub append].
      f_equal. apply IH. lia.
Qed.

Lemma endswith_split (s suffix : string) :
  endswith s suffix = true -> exists pre, s = (pre ++ suffix)%string.
Proof.
  unfold endswith. intros H. apply andb_true_iff in H.
  destruct H as [Hle Heq]. apply Nat.leb_le in Hle.
  apply String.eqb_eq in Heq.
  exists (substring 0 (String.length s - String.length suffix) s).
  pose proof (substring_cut s (String.length s - String.length suffix)) as C.
  replace (String.length s - (String.length s - String.length suffix))
    with (String.length suffix) in C by lia.
  rewrite Heq in C. apply C. lia.
Qed.

(** Appending text without the separator lengthens the last piece. *)
Lemma split_on_append_last (sep : ascii) (a b : string) :
  has_char sep b = false ->
  exists ps l, split_on sep a = ps ++ [l] /\
               split_on sep (a ++ b)%string = ps ++ [(l ++ b)%string].
Proof.
  intros Hb. induction a as [|c a (ps & l & E1 & E2)].
  - exists [], ""%string. cbn. now rewrite split_on_whole.
  - cbn [append split_on]. destruct (Ascii.eqb c sep).
    + exists (""%string :: ps), l. now rewrite E1, E2.
    + rewrite E1, E2. destruct ps as [|p ps].
      * exists [], (String c l). auto.
      * exists (String c p :: ps), l. auto.
Qed.

(** What occurs in a text is found by [occurs]. *)
Lemma contains_occurs (s sub : string) :
  contains s sub -> occurs sub s = true.
Proof.
  intros (pre & post & ->). induction pre as [|c pre IH].
  - destruct (sub ++ post)%string eqn:E; cbn [append occurs]; rewrite <- ?E;
      now rewrite SimplePandasFacts.prefix_append.
  - cbn [append occurs]. rewrite IH. apply orb_true_r.
Qed.

Lemma filter_snoc {A} (f : A -> bool) (l : list A) (x : A) :
  f x = true -> filter f (l ++ [x]) = filter f l ++ [x].
Proof. intros H. rewrite filter_app. cbn. now rewrite H. Qed.

Lemma keep_part_long (s : string) :
  2 <= String.length s -> keep_part s = true.
Proof.
  intros H. unfold keep_part.
  destruct (String.eqb_spec s "") as [->|_]; [cbn in H; lia|].
  destruct (String.eqb_spec s ".") as [->|_]; [cbn in H; lia|].
  reflexivity.
Qed.

(** A file name with a suffix of two characters or more, without a slash,
    has a last component, and that component carries the suffix. *)
Lemma parse_parts_suffix (filename suffix : string) :
  endswith filename suffix = true ->
  has_char "/"%char suffix = false ->
  2 <= String.length suffix ->
  exists ps l, parse_parts filename = ps ++ [(l ++ suffix)%string].
Proof.
  intros He Hs Hlen. destruct (endswith_split _ _ He) as [pre ->].
  destruct (split_on_append_last "/"%char pre suffix Hs) as (ps & l & _ & E).
  unfold parse_parts. rewrite E. rewrite filter_snoc.
  - eauto.
  - apply keep_part_long. rewrite length_app. lia.
Qed.

Lemma supported_parts (filename : string) :
  supported filename = true -> parse_parts filename <> [].
Proof.
  unfold supported. intros H. apply orb_true_iff in H.
  destruct H as [H|H];
    (eapply parse_parts_suffix in H; [|reflexivity | cbn; lia]);
    destruct H as (ps & l & ->); now destruct ps.
Qed.

Lemma joinpath_nonempty (base : path) (filename : string) :
  supported filename = true -> joinpath base filename <> [].
Proof.
  intros H. apply supported_parts in H. unfold joinpath.
  destruct (is_absolute filename); [assumption|].
  intros E. apply app_eq_nil in E. now destruct E.
Qed.

Lemma inside_refl (p : path) : inside p p.
Proof. exists []. now rewrite app_nil_r. Qed.

Lemma inside_app (base rest : path) : inside base (base ++ rest).
Proof. now exists rest. Qed.

Lemma inside_trans (a b c : path) : inside a b -> inside b c -> inside a c.
Proof.
  intros [r1 ->] [r2 ->]. exists (r1 ++ r2). now rewrite app_assoc.
Qed.

Lemma parent_app (base rest : path) :
  rest <> [] -> parent (base ++ rest) = base ++ parent rest.
Proof. intros H. unfold parent. now apply removelast_app. Qed.
End PathFacts.

(* ================================================================= *)
(** * Facts about the handlers *)

Section ServerFacts.
Import PyStr PyStrFacts FS FSFacts PathFacts Sample SampleFacts.

Context {pd : Pandas}.
Variable script_dir : path.

Local Abbreviation DATA := (DATA_DIR script_dir).
Local Abbreviation target f := (Pathlib.joinpath (DATA_DIR script_dir) f).

Lemma DATA_DIR_eq : DATA = (script_dir ++ ["data"])%list.
Proof. reflexivity. Qed.

(** *** Absent files *)

Lemma read_csv_summary_not_found (root : node) (filename : string) :
  path_exists root (target filename) = Ok false ->
  read_csv_summary script_dir root filename = Ok (not_found_text filename).
Proof. intros H. unfold read_csv_summary. cbv zeta. now rewrite H. Qed.

Lemma read_parquet_summary_not_found (root : node) (filename : string) :
  path_exists root (target filename) = Ok false ->
  read_parquet_summary script_dir root filename
  = Ok (not_found_text filename).
Proof. intros H. unfold read_parquet_summary. cbv zeta. now rewrite H. Qed.

Lemma analyze_not_found (root : node) (filename operation : string) :
  path_exists root (target filename) = Ok false ->
  analyze_csv_data script_dir root filename operation
  = Ok (analyze_not_found_text filename).
Proof. intros H. unfold analyze_csv_data. cbv zeta. now rewrite H. Qed.

(** *** Names that are too long: the existence test is outside the [try] *)

Lemma read_csv_summary_raises (root : node) (filename : string) :
  name_too_long root (target filename) = true ->
  read_csv_summary script_dir root filename
  = Raise (err_name_too_long (target filename)).
Proof.
  intros H. unfold read_csv_summary. cbv zeta.
  now rewrite (path_exists_too_long _ _ H).
Qed.

Lemma read_parquet_summary_raises (root : node) (filename : string) :
  name_too_long root (target filename) = true ->
  read_parquet_summary script_dir root filename
  = Raise (err_name_too_long (target filename)).
Proof.
  intros H. unfold read_parquet_summary. cbv zeta.
  now rewrite (path_exists_too_long _ _ H).
Qed.

Lemma analyze_raises (root : node) (filename operation : string) :
  name_too_long root (target filename) = true ->
  analyze_csv_data script_dir root filename operation
  = Raise (err_name_too_long (target filename)).
Proof.
  intros H. unfold analyze_csv_data. cbv zeta.
  now rewrite (path_exists_too_long _ _ H).
Qed.

(** *** Files that do not load *)

Lemma read_csv_summary_load_failure (root : node) (filename : string) e :
  exists_ root (target filename) = true ->
  pd_read_csv root (target filename) = Raise e ->
  read_csv_summary script_dir root filename
  = Ok ("Error reading CSV file '" ++ filename ++ "': " ++ exn_str e).
Proof.
  intros H E. apply path_exists_true in H.
  unfold read_csv_summary. cbv zeta. now rewrite H, E.
Qed.

Lemma read_parquet_summary_load_failure (root : node) (filename : string) e :
  exists_ root (target filename) = true ->
  pd_read_parquet root (target filename) = Raise e ->
  read_parquet_summary script_dir root filename
  = Ok ("Error reading Parquet file '" ++ filename ++ "': " ++ exn_str e).
Proof.
  intros H E. apply path_exists_true in H.
  unfold read_parquet_summary. cbv zeta. now rewrite H, E.
Qed.

Lemma analyze_load_failure (root : node) (filename operation : string) e :
  exists_ root (target filename) = true ->
  pd_read_csv root (target filename) = Raise e ->
  analyze_csv_data script_dir root filename operation
  = Ok ("Error analyzing " ++ filename ++ ": " ++ exn_str e).
Proof.
  intros H E. apply path_exists_true in H.
  unfold analyze_csv_data. cbv zeta. now rewrite H, E.
Qed.

(** *** Files that load *)

Lemma read_csv_summary_loaded (root : node) (filename : string) df :
  exists_ root (target filename) = true ->
  pd_read_csv root (target filename) = Ok df ->
  read_csv_summary script_dir root filename
  = Ok (summary_text "CSV" filename (str_of_nat (Frame.len df)) (columns df)).
Proof.
  intros H E. apply path_exists_true in H.
  unfold read_csv_summary. cbv zeta. now rewrite H, E.
Qed.

Lemma read_parquet_summary_loaded (root : node) (filename : string) df :
  exists_ root (target filename) = true ->
  pd_read_parquet root (target filename) = Ok df ->
  read_parquet_summary script_dir root filename
  = Ok (summary_text "Parquet" filename (str_of_nat (Frame.len df))
          (columns df)).
Proof.
  intros H E. apply path_exists_true in H.
  unfold read_parquet_summary. cbv zeta. now rewrite H, E.
Qed.

(** The next [if operation == ...] of the chain is not taken, for an
    operation that [Hop] keeps out of the valid ones. *)
Ltac skip_branch Hop :=
  match goal with
  | |- context [String.eqb ?op ?name] =>
      destruct (String.eqb_spec op name) as [->|_];
      [exfalso; apply Hop; cbn; auto|]
  end.

Lemma analyze_unknown_operation (root : node) (filename operation : string) df :
  exists_ root (target filename) = true ->
  pd_read_csv root (target filename) = Ok df ->
  ~ In operation valid_operations ->
  analyze_csv_data script_dir root filename operation
  = Ok (unknown_operation_text operation).
Proof.
  intros H E Hop. apply path_exists_true in H.
  unfold analyze_csv_data. cbv zeta. rewrite H, E.
  cbn [negb Res.bind Res.try_except].
  do 4 skip_branch Hop. reflexivity.
Qed.

(** Once the existence test has answered, the readers return. *)
Lemma analyze_returns (root : node) (filename operation : string) :
  name_too_long root (target filename) = false ->
  exists s, analyze_csv_data script_dir root filename operation = Ok s.
Proof.
  intros Hn. unfold analyze_csv_data. cbv zeta.
  destruct (path_exists_cases root (target filename)) as [[_ ->]|[E _]];
    [|congruence].
  cbn [Res.bind].
  destruct (exists_ root (target filename)); cbn [negb]; [|eauto].
  destruct (pd_read_csv root (target filename)) as [df|e];
    cbn [Res.bind Res.try_except]; [|eauto].
  destruct (String.eqb operation "describe");
    [destruct (describe_to_string df); cbn; eauto|].
  destruct (String.eqb operation "head");
    [destruct (head_to_string df); cbn; eauto|].
  destruct (String.eqb operation "info");
    [destruct (dtypes_to_string df); cbn; eauto|].
  destruct (String.eqb operation "columns"); cbn; eauto.
Qed.

Lemma read_csv_summary_returns (root : node) (filename : string) :
  name_too_long root (target filename) = false ->
  exists s, read_csv_summary script_dir root filename = Ok s.
Proof.
  intros Hn. unfold read_csv_summary. cbv zeta.
  destruct (path_exists_cases root (target filename)) as [[_ ->]|[E _]];
    [|congruence].
  cbn [Res.bind].
  destruct (exists_ root (target filename)); cbn [negb]; [|eauto].
  destruct (pd_read_csv root (target filename)); cbn; eauto.
Qed.

Lemma read_parquet_summary_returns (root : node) (filename : string) :
  name_too_long root (target filename) = false ->
  exists s, read_parquet_summary script_dir root filename = Ok s.
Proof.
  intros Hn. unfold read_parquet_summary. cbv zeta.
  destruct (path_exists_cases root (target filename)) as [[_ ->]|[E _]];
    [|congruence].
  cbn [Res.bind].
  destruct (exists_ root (target filename)); cbn [negb]; [|eauto].
  destruct (pd_read_parquet root (target filename)); cbn; eauto.
Qed.

(** *** Listing *)

Lemma list_data_files_cases (root : node) :
  list_data_files script_dir root
  = match glob_star root DATA with
    | [] => Ok no_files_text
    | es => Ok ("Available data files: " ++ join ", " (regular_names es))
    end.
Proof. unfold list_data_files. now destruct (glob_star root DATA). Qed.

Lemma list_data_files_returns (root : node) :
  exists s, list_data_files script_dir root = Ok s.
Proof.
  rewrite list_data_files_cases. destruct (glob_star root DATA); eauto.
Qed.

(** *** Creation *)

(** [create_sample_data] by cases: the table is built, the file system
    untouched until the write, and every failure of the write is turned
    into a sentence. *)
Lemma create_sample_data_cases (filename : string) (rows : Z) (w : world) :
  exists df w1,
    fs w1 = fs w /\ is_sample_frame rows df /\
    create_sample_data script_dir filename rows w
    = if endswith filename ".csv" then
        match write_file (fs w) (target filename) (render_csv df) with
        | Ok root' => (Ok (created_text filename rows), with_fs w1 root')
        | Raise e => (Ok ("Error creating sample data: " ++ exn_str e), w1)
        end
      else if endswith filename ".parquet" then
        match render_parquet df with
        | Ok bytes =>
            match write_file (fs w) (target filename) bytes with
            | Ok root' => (Ok (created_text filename rows), with_fs w1 root')
            | Raise e => (Ok ("Error creating sample data: " ++ exn_str e), w1)
            end
        | Raise e => (Ok ("Error creating sample data: " ++ exn_str e), w1)
        end
      else (Ok unsupported_text, w1).
Proof.
  destruct (sample_frame rows w) as (data & df & w1 & E & Hdf & F & Hs).
  exists df, w1. split; [exact F|]. split; [exact Hs|].
  destruct Hs as (Hc & _ & _).
  unfold create_sample_data, St.try_except.
  unfold St.bind at 1. rewrite E.
  unfold St.bind at 1, St.lift. rewrite Hdf.
  destruct (endswith filename ".csv").
  - unfold St.bind, df_to_csv. rewrite F.
    destruct (write_file (fs w) (target filename) (render_csv df));
      [|reflexivity].
    unfold St.ret, created_text. now rewrite Hc.
  - destruct (endswith filename ".parquet"); [|reflexivity].
    unfold St.bind, df_to_parquet. rewrite F.
    destruct (render_parquet df) as [bytes|e]; [|reflexivity].
    destruct (write_file (fs w) (target filename) bytes); [|reflexivity].
    unfold St.ret, created_text. now rewrite Hc.
Qed.

Lemma create_sample_data_returns (filename : string) (rows : Z) (w : world) :
  exists s, fst (create_sample_data script_dir filename rows w) = Ok s.
Proof.
  destruct (create_sample_data_cases filename rows w) as (df & w1 & _ & _ & ->).
  destruct (endswith filename ".csv");
    [destruct (write_file _ _ _); cbn; eauto|].
  destruct (endswith filename ".parquet"); [|cbn; eauto].
  destruct (render_parquet df); [|cbn; eauto].
  destruct (write_file _ _ _); cbn; eauto.
Qed.

Lemma create_unsupported (filename : string) (rows : Z) (w : world) :
  endswith filename ".csv" = false ->
  endswith filename ".parquet" = false ->
  fst (create_sample_data script_dir filename rows w) = Ok unsupported_text /\
  fs (snd (create_sample_data script_dir filename rows w)) = fs w.
Proof.
  intros H1 H2.
  destruct (create_sample_data_cases filename rows w) as (df & w1 & F & _ & ->).
  rewrite H1, H2. now split.
Qed.

(** A supported name and a writable target: the table is written. *)
Lemma create_writes (filename : string) (rows : Z) (w : world) :
  supported filename = true ->
  writable (fs w) (target filename) = true ->
  exists df bytes root',
    is_sample_frame rows df /\ stored_as filename df bytes /\
    write_file (fs w) (target filename) bytes = Ok root' /\
    fst (create_sample_data script_dir filename rows w)
    = Ok (created_text filename rows) /\
    fs (snd (create_sample_data script_dir filename rows w)) = root'.
Proof.
  intros Hs Hw.
  destruct (create_sample_data_cases filename rows w)
    as (df & w1 & F & Hdf & ->).
  unfold supported in Hs. unfold stored_as.
  destruct (endswith filename ".csv").
  - destruct (write_file_ok _ _ (render_csv df) Hw) as (q & _ & _ & _ & _ & E).
    rewrite E. exists df, (render_csv df), (put q (render_csv df) (fs w)).
    split; [exact Hdf|]. repeat split; assumption.
  - cbn [orb] in Hs. rewrite Hs.
    destruct (parquet_round_trip df (proj2 (proj2 Hdf)))
      as (bytes & df' & E1 & _).
    rewrite E1.
    destruct (write_file_ok _ _ bytes Hw) as (q & _ & _ & _ & _ & E).
    rewrite E. exists df, bytes, (put q bytes (fs w)).
    split; [exact Hdf|]. repeat split; assumption.
Qed.

(** A supported name and a target that cannot be written: a sentence. *)
Lemma create_write_failure (filename : string) (rows : Z) (w : world) :
  supported filename = true ->
  writable (fs w) (target filename) = false ->
  (exists e, fst (create_sample_data script_dir filename rows w)
             = Ok ("Error creating sample data: " ++ exn_str e)) /\
  fs (snd (create_sample_data script_dir filename rows w)) = fs w.
Proof.
  intros Hs Hw.
  destruct (create_sample_data_cases filename rows w)
    as (df & w1 & F & Hdf & ->).
  unfold supported in Hs.
  destruct (endswith filename ".csv").
  - destruct (write_file_err _ _ (render_csv df) Hw) as [e ->].
    split; [now exists e | exact F].
  - cbn [orb] in Hs. rewrite Hs.
    destruct (render_parquet df) as [bytes|e];
      [|split; [now exists e | exact F]].
    destruct (write_file_err _ _ bytes Hw) as [e ->].
    split; [now exists e | exact F].
Qed.
End ServerFacts.

(* ================================================================= *)
(** * Confinement to the data directory *)

Section Confinement.
Import PyStr FS FSFacts PathFacts Sample SampleFacts.
Local Open Scope list_scope.

Context {pd : Pandas}.
Variable script_dir : path.

(** [Path.resolve()] leaves no [..] in the directory of the script. *)
Hypothesis script_dir_resolved : ~ In ".."%string script_dir.

Local Abbreviation DATA := (DATA_DIR script_dir).
Local Abbreviation target f := (Pathlib.joinpath (DATA_DIR script_dir) f).

Lemma DATA_plain : ~ In ".."%string DATA.
Proof.
  rewrite DATA_DIR_eq. intros H. apply in_app_or in H.
  destruct H as [H|[H|[]]]; [now apply script_dir_resolved | discriminate H].
Qed.

Lemma target_below (filename : string) :
  stays_below filename ->
  target filename = DATA ++ Pathlib.parse_parts filename /\
  ~ In ".."%string (target filename).
Proof.
  intros [Hrel Hno]. unfold Pathlib.joinpath. rewrite Hrel.
  split; [reflexivity|]. intros H. apply in_app_or in H.
  destruct H; [now apply DATA_plain | contradiction].
Qed.

Lemma resolve_below (root : node) (filename : string) (q : path) :
  stays_below filename ->
  resolve root (target filename) = Some q ->
  q = DATA ++ Pathlib.parse_parts filename.
Proof.
  intros Hs Hres. destruct (target_below filename Hs) as [E Hno].
  apply resolve_walk in Hres. apply walk_plain in Hres; [|assumption].
  now rewrite Hres, E.
Qed.

Lemma confined_below (root : node) (filename : string) :
  stays_below filename -> confined script_dir root filename.
Proof.
  intros Hs q Hres. rewrite (resolve_below root filename q Hs Hres).
  apply inside_app.
Qed.

(** A write through a name that stays below shows nowhere outside. *)
Lemma write_below (root root' : node) (filename bytes : string) (p : path) :
  stays_below filename -> supported filename = true ->
  write_file root (target filename) bytes = Ok root' ->
  ~ inside DATA p -> stat root' p = stat root p.
Proof.
  intros Hs Hsup Hw Hout.
  destruct (write_file_inv _ _ _ _ Hw) as (_ & q & Hres & ->).
  apply stat_put. intros Hin. apply Hout.
  rewrite (resolve_below root filename q Hs Hres) in Hin.
  rewrite parent_app in Hin by now apply supported_parts.
  eapply inside_trans; [apply inside_app | exact Hin].
Qed.

Lemma create_below (filename : string) (rows : Z) (w : world) (p : path) :
  stays_below filename -> ~ inside DATA p ->
  stat (fs (snd (create_sample_data script_dir filename rows w))) p
  = stat (fs w) p.
Proof.
  intros Hs Hout.
  destruct (create_sample_data_cases script_dir filename rows w)
    as (df & w1 & F & _ & ->).
  unfold supported in *.
  destruct (endswith filename ".csv") eqn:Hcsv.
  - destruct (write_file _ _ _) as [root'|e] eqn:Hw; cbn; [|now rewrite F].
    eapply write_below; eauto. unfold supported. now rewrite Hcsv.
  - destruct (endswith filename ".parquet") eqn:Hpq; cbn; [|now rewrite F].
    destruct (render_parquet df) as [bytes|e]; cbn; [|now rewrite F].
    destruct (write_file _ _ _) as [root'|e] eqn:Hw; cbn; [|now rewrite F].
    eapply write_below; eauto. unfold supported. now rewrite Hcsv, Hpq.
Qed.

(** *** What is read *)

Lemma walk_agree (r1 r2 : node) (comps : list string) :
  ~ In ".."%string comps ->
  forall cur,
    (forall pre post, comps = pre ++ post -> post <> [] ->
                      is_dir r1 (cur ++ pre) = is_dir r2 (cur ++ pre)) ->
    walk r1 cur comps = walk r2 cur comps.
Proof.
  induction comps as [|c rest IH]; intros Hno cur H; [reflexivity|].
  cbn [walk]. pose proof (H [] (c :: rest) eq_refl) as H0.
  rewrite app_nil_r in H0. rewrite H0 by discriminate.
  destruct (valid_component c && is_dir r2 cur); [|reflexivity].
  destruct (String.eqb_spec c "..") as [->|_]; [exfalso; apply Hno; now left|].
  apply IH; [intros Hin; apply Hno; now right|].
  intros pre post -> Hpost. rewrite <- app_assoc. cbn [app].
  now apply (H (c :: pre) post).
Qed.

Lemma long_agree (r1 r2 : node) (comps : list string) :
  ~ In ".."%string comps ->
  forall cur,
    (forall pre post, comps = pre ++ post -> post <> [] ->
                      is_dir r1 (cur ++ pre) = is_dir r2 (cur ++ pre)) ->
    meets_long_name r1 cur comps = meets_long_name r2 cur comps.
Proof.
  induction comps as [|c rest IH]; intros Hno cur H; [reflexivity|].
  cbn [meets_long_name]. pose proof (H [] (c :: rest) eq_refl) as H0.
  rewrite app_nil_r in H0. rewrite H0 by discriminate.
  destruct (is_dir r2 cur); [|reflexivity]. cbn [andb]. f_equal.
  destruct (String.eqb_spec c "..") as [->|_]; [exfalso; apply Hno; now left|].
  apply IH; [intros Hin; apply Hno; now right|].
  intros pre post -> Hpost. rewrite <- app_assoc. cbn [app].
  now apply (H (c :: pre) post).
Qed.

Lemma same_data_is_dir (r1 r2 : node) (parts pre post : path) :
  same_data script_dir r1 r2 -> DATA ++ parts = pre ++ post ->
  is_dir r1 pre = is_dir r2 pre.
Proof.
  intros [Hd Hl] E.
  assert (Hd2 : is_dir r2 DATA = true).
  { unfold is_dir in *. now rewrite <- Hl. }
  apply app_eq_app in E. destruct E as [l [[E _]|[E _]]].
  - rewrite E in Hd, Hd2. apply is_dir_app in Hd, Hd2. congruence.
  - rewrite E. unfold is_dir. now rewrite !lookup_app, Hl.
Qed.

Lemma same_data_resolve (r1 r2 : node) (filename : string) :
  same_data script_dir r1 r2 -> stays_below filename ->
  resolve r1 (target filename) = resolve r2 (target filename) /\
  forall q, resolve r1 (target filename) = Some q ->
            lookup r1 q = lookup r2 q.
Proof.
  intros Hsame Hs. destruct (target_below filename Hs) as [E Hno]. split.
  - unfold resolve. destruct (fits (target filename)); [|reflexivity].
    apply walk_agree; [assumption|].
    intros pre post Hpp _. cbn [app]. rewrite E in Hpp.
    exact (same_data_is_dir r1 r2 _ pre post Hsame Hpp).
  - intros q Hres. rewrite (resolve_below r1 filename q Hs Hres).
    rewrite !lookup_app. destruct Hsame as [_ ->]. reflexivity.
Qed.

Lemma same_data_too_long (r1 r2 : node) (filename : string) :
  same_data script_dir r1 r2 -> stays_below filename ->
  name_too_long r1 (target filename) = name_too_long r2 (target filename).
Proof.
  intros Hsame Hs. destruct (target_below filename Hs) as [E Hno].
  unfold name_too_long. f_equal. f_equal.
  apply long_agree; [assumption|].
  intros pre post Hpp _. cbn [app]. rewrite E in Hpp.
  exact (same_data_is_dir r1 r2 _ pre post Hsame Hpp).
Qed.

(** The reading handlers see the data directory and nothing else. *)
Lemma reads_below (r1 r2 : node) (filename : string) :
  same_data script_dir r1 r2 -> stays_below filename ->
  summarize_csv_file script_dir r1 filename
  = summarize_csv_file script_dir r2 filename /\
  summarize_parquet_file script_dir r1 filename
  = summarize_parquet_file script_dir r2 filename /\
  forall operation,
    analyze_csv_data script_dir r1 filename operation
    = analyze_csv_data script_dir r2 filename operation.
Proof.
  intros Hsame Hs.
  destruct (same_data_resolve r1 r2 filename Hsame Hs) as [Hres Hl].
  pose proof (same_data_too_long r1 r2 filename Hsame Hs) as Hlong.
  assert (Herr : resolve_error r1 (target filename)
                 = resolve_error r2 (target filename))
    by (unfold resolve_error; now rewrite Hlong).
  assert (Hex : path_exists r1 (target filename)
                = path_exists r2 (target filename)).
  { unfold path_exists. rewrite <- Hres, <- Hlong.
    destruct (resolve r1 (target filename)) as [q|]; [|reflexivity].
    now rewrite (Hl q eq_refl). }
  assert (Hcsv : pd_read_csv r1 (target filename)
                 = pd_read_csv r2 (target filename)).
  { unfold pd_read_csv, read_file. rewrite <- Hres, <- Herr.
    destruct (resolve r1 (target filename)) as [q|]; [|reflexivity].
    now rewrite (Hl q eq_refl). }
  assert (Hpq : pd_read_parquet r1 (target filename)
                = pd_read_parquet r2 (target filename)).
  { unfold pd_read_parquet. rewrite <- Hres, <- Herr.
    destruct (resolve r1 (target filename)) as [q|]; [|reflexivity].
    now rewrite (Hl q eq_refl). }
  unfold summarize_csv_file, summarize_parquet_file, read_csv_summary,
    read_parquet_summary, analyze_csv_data. cbv zeta.
  rewrite Hex, Hcsv, Hpq. repeat split.
Qed.

Lemma listing_below (r1 r2 : node) :
  same_data script_dir r1 r2 ->
  list_data_files script_dir r1 = list_data_files script_dir r2.
Proof.
  intros Hsame. unfold list_data_files, glob_star.
  assert (Hres : resolve r1 DATA = resolve r2 DATA).
  { unfold resolve. destruct (fits DATA); [|reflexivity].
    apply walk_agree; [apply DATA_plain|].
    intros pre post Hpp _. cbn [app].
    apply (same_data_is_dir r1 r2 [] pre post Hsame).
    now rewrite app_nil_r. }
  rewrite <- Hres. destruct (resolve r1 DATA) as [q|] eqn:Hq; [|reflexivity].
  apply resolve_walk in Hq. apply walk_plain in Hq; [|apply DATA_plain].
  change ([] ++ DATA) with DATA in Hq. subst q.
  destruct Hsame as [_ ->]. reflexivity.
Qed.
End Confinement.

(* ================================================================= *)
(** * The model at work *)

Module Checks.
Import PyStr Fixture.

Example parts_of_a_name :
  Pathlib.parse_parts "a//b/./../c/" = ["a"; "b"; ".."; "c"].
Proof. reflexivity. Qed.

Example join_relative :
  Pathlib.joinpath (DATA_DIR app_dir) "sub/t.csv"
  = ["srv"; "app"; "data"; "sub"; "t.csv"].
Proof. reflexivity. Qed.

Example join_absolute :
  Pathlib.joinpath (DATA_DIR app_dir) "/etc/hosts.csv" = ["etc"; "hosts.csv"].
Proof. reflexivity. Qed.

Example resolve_dotdot :
  FS.resolve disk (Pathlib.joinpath (DATA_DIR app_dir) "../main.py")
  = Some ["srv"; "app"; "main.py"].
Proof. reflexivity. Qed.

Example resolve_through_a_file :
  FS.resolve disk (Pathlib.joinpath (DATA_DIR app_dir) "sample.csv/../x")
  = None.
Proof. reflexivity. Qed.

(** A name of 260 bytes is refused where it is looked up in a directory,
    and only there. *)
Example exists_of_a_long_name :
  FS.path_exists disk (Pathlib.joinpath (DATA_DIR app_dir) long_name)
  = Raise (FS.err_name_too_long
             (Pathlib.joinpath (DATA_DIR app_dir) long_name)) /\
  FS.path_exists disk
    (Pathlib.joinpath (DATA_DIR app_dir) ("nodir/" ++ long_name)) = Ok false /\
  FS.path_exists disk
    (Pathlib.joinpath (DATA_DIR app_dir) ("sample.csv/" ++ long_name))
  = Ok false /\
  FS.path_exists disk
    (Pathlib.joinpath (DATA_DIR app_dir)
       (String nul_char "/" ++ long_name)) = Ok false /\
  FS.writable disk (Pathlib.joinpath (DATA_DIR app_dir) long_name) = false.
Proof. repeat split; vm_compute; reflexivity. Qed.

(** A path of 4095 bytes is walked, one of 4096 is not. *)
Example exists_of_a_long_path :
  let p := Pathlib.joinpath (DATA_DIR app_dir)
             (times "archive/../" 370 ++ "missing.csv") in
  let p' := Pathlib.joinpath (DATA_DIR app_dir)
              (times "archive/../" 370 ++ "missing2.csv") in
  String.length (Pathlib.to_str p) = 4095 /\
  FS.path_exists disk p = Ok false /\
  FS.path_exists disk p' = Raise (FS.err_name_too_long p').
Proof. repeat split; vm_compute; reflexivity. Qed.

Example epoch : Datetime.strftime_ymd 719163%Z = "1970-01-01".
Proof. reflexivity. Qed.

Example leap_day : Datetime.strftime_ymd 738945%Z = "2024-02-29".
Proof. reflexivity. Qed.

Example first_day : Datetime.strftime_ymd 1%Z = "1-01-01".
Proof. reflexivity. Qed.

Example negative_rows : range 1 (-4 + 1) = [].
Proof. reflexivity. Qed.

Example listing :
  list_data_files app_dir disk
  = Ok "Available data files: sample.csv, notes.txt".
Proof. reflexivity. Qed.

Example summary :
  summarize_csv_file app_dir disk "sample.csv"
  = Ok "CSV file 'sample.csv' has 1 rows and 2 columns. Columns: id, name".
Proof. reflexivity. Qed.

Example created :
  fst (create_sample_data app_dir "t.parquet" (-4) w0)
  = Ok "Created t.parquet with -4 rows and 5 columns.".
Proof. reflexivity. Qed.

(** The client's reading of a line. *)
Example strip_no_break_space :
  Client.strip (String "194" (String "160" "quit")) = "quit".
Proof. reflexivity. Qed.

Example split_at_whitespace :
  Client.split ("a" ++ String "194" (String "160" "b") ++ "  c"
                  ++ String "028" "d")
  = ["a"; "b"; "c"; "d"].
Proof. reflexivity. Qed.

Example int_of_numerals :
  Client.int " 12 " = Ok 12%Z /\ Client.int "+1_0" = Ok 10%Z /\
  Client.int "٣٤" = Ok 34%Z /\ Client.int "１２" = Ok 12%Z /\
  Client.int ("-" ++ zeros 4300) = Ok 0%Z.
Proof. repeat split; vm_compute; reflexivity. Qed.

Example int_refuses :
  (exists e, Client.int "1__0" = Raise e) /\
  (exists e, Client.int "- 5" = Raise e) /\
  (exists e, Client.int (String "028" "5") = Raise e) /\
  (exists e, Client.int (zeros 4301) = Raise e).
Proof. repeat split; eexists; vm_compute; reflexivity. Qed.

Example typed_commands :
  Client.react "create t.csv ٣"
  = Client.CallTool (create_sample_data_call "t.csv" (Some 3%Z)) /\
  (exists e, Client.react "create t.csv three" = Client.Caught e) /\
  Client.react "summarize my file.csv"
  = Client.Print "❌ Please specify .csv or .parquet extension".
Proof. repeat split; try eexists; vm_compute; reflexivity. Qed.

(** The text of the schema resource, line by line. *)
Example schema_text :
  split_on newline_char (Json.dumps 2 schema_info)
  = ["{";
     "  " ++ quoted "description" ++ ": "
          ++ quoted "Schema information for data files" ++ ",";
     "  " ++ quoted "supported_formats" ++ ": [";
     "    " ++ quoted "CSV" ++ ",";
     "    " ++ quoted "Parquet";
     "  ],";
     "  " ++ quoted "sample_structure" ++ ": {";
     "    " ++ quoted "id" ++ ": "
            ++ quoted "integer - unique identifier" ++ ",";
     "    " ++ quoted "name" ++ ": " ++ quoted "string - user name" ++ ",";
     "    " ++ quoted "email" ++ ": " ++ quoted "string - email address" ++ ",";
     "    " ++ quoted "signup_date" ++ ": "
            ++ quoted "date - registration date";
     "  }";
     "}"].
Proof. reflexivity. Qed.
End Checks.

(* ================================================================= *)
(** * The claims *)

Section Claims.
Import PyStr PyStrFacts FS FSFacts PathFacts Sample SampleFacts.
Context {pd : Pandas}.
Variable script_dir : path.

Local Abbreviation DATA := (DATA_DIR script_dir).
Local Abbreviation target f := (Pathlib.joinpath (DATA_DIR script_dir) f).

(** C7, amended: for a file name whose joined path [DATA_DIR / filename]
    does not exist (the existence test answers false; the path may lead
    outside the base directory), [summarize_csv_file] and
    [summarize_parquet_file] return an error sentence that contains
    "not found" and the file name asked for. *)
Theorem C7_summarize_absent_file (root : node) (filename : string) :
  path_exists root (target filename) = Ok false ->
  (exists msg, summarize_csv_file script_dir root filename = Ok msg /\
               contains msg "not found" /\ contains msg filename) /\
  (exists msg, summarize_parquet_file script_dir root filename = Ok msg /\
               contains msg "not found" /\ contains msg filename).
Proof.
  intros H. unfold summarize_csv_file, summarize_parquet_file.
  rewrite read_csv_summary_not_found, read_parquet_summary_not_found
    by assumption.
  assert (C : contains (not_found_text filename) "not found" /\
              contains (not_found_text filename) filename).
  { unfold not_found_text. split.
    - exists ("Error: File '" ++ filename ++ "' "), " in data directory.".
      rewrite !append_assoc. reflexivity.
    - exists "Error: File '", "' not found in data directory.". reflexivity. }
  split; exists (not_found_text filename); (split; [reflexivity | exact C]).
Qed.

(** C9, amended: in [analyze_csv_data] the existence check comes before
    the operation is looked at: for a file name whose joined path does not
    exist (the existence test answers false) and any operation, valid or
    not, the result is the not-found sentence and never the
    unknown-operation one. *)
Theorem C9_absent_file_before_operation (root : node)
  (filename operation : string) :
  path_exists root (target filename) = Ok false ->
  analyze_csv_data script_dir root filename operation
  = Ok (analyze_not_found_text filename) /\
  forall op', analyze_csv_data script_dir root filename operation
              <> Ok (unknown_operation_text op').
Proof.
  intros H. rewrite analyze_not_found by assumption.
  split; [reflexivity | discriminate].
Qed.

(** C6: for an operation outside describe, head, info and columns, on a
    file that exists and loads, [analyze_csv_data] returns the message that
    names the operation and lists the four valid ones. *)
Theorem C6_unknown_operation (root : node) (filename operation : string)
  (df : DataFrame) :
  exists_ root (target filename) = true ->
  pd_read_csv root (target filename) = Ok df ->
  ~ In operation ["describe"; "head"; "info"; "columns"] ->
  analyze_csv_data script_dir root filename operation
  = Ok ("Unknown operation: " ++ operation ++ ". Available: "
          ++ join ", " ["describe"; "head"; "info"; "columns"]).
Proof. intros H E Hop. now apply analyze_unknown_operation with df. Qed.

(** C5: for a file name that ends neither in .csv nor in .parquet,
    [create_sample_data] returns the error sentence and the file system
    after the call is the one before it: nothing was written. *)
Theorem C5_unsupported_suffix_writes_nothing (filename : string) (rows : Z)
  (w : world) :
  endswith filename ".csv" = false ->
  endswith filename ".parquet" = false ->
  fst (create_sample_data script_dir filename rows w)
  = Ok "Error: Filename must end with .csv or .parquet" /\
  fs (snd (create_sample_data script_dir filename rows w)) = fs w.
Proof. intros H1 H2. now apply create_unsupported. Qed.

(** C10: [create_sample_data] does not test whether its target exists: for
    a supported name that resolves to a regular file, the call succeeds
    with the confirmation, and afterwards the file holds the new table in
    place of its old content. *)
Theorem C10_overwrites_existing_file (filename : string) (rows : Z)
  (w : world) (q : path) (old : string) :
  supported filename = true ->
  resolve (fs w) (target filename) = Some q ->
  lookup (fs w) q = Some (File old) ->
  fst (create_sample_data script_dir filename rows w)
  = Ok (created_text filename rows) /\
  exists df bytes,
    is_sample_frame rows df /\ stored_as filename df bytes /\
    lookup (fs (snd (create_sample_data script_dir filename rows w))) q
    = Some (File bytes).
Proof.
  intros Hs Hres Hold.
  destruct (writable_file (fs w) (target filename) q old) as [Hq Hw];
    [now apply joinpath_nonempty | assumption | assumption |].
  destruct (create_writes script_dir filename rows w Hs Hw)
    as (df & bytes & root' & Hdf & Hst & Hwr & Hret & Hfs).
  split; [exact Hret|]. exists df, bytes. split; [exact Hdf|].
  split; [exact Hst|]. rewrite Hfs.
  destruct (write_file_inv _ _ _ _ Hwr) as (_ & q2 & Hq2 & ->).
  assert (q2 = q) as -> by congruence.
  apply lookup_put; [exact Hq|]. now apply lookup_parent with (File old).
Qed.

(** C8: reading the resource [data://schema] gives one and the same text
    whatever the state: after any session of tool calls, on any file
    system, and the read changes nothing. *)
Theorem C8_schema_is_stable (cs : list tool_call) (w w' : world) :
  get_data_schema (run script_dir cs w)
  = (Ok (Json.dumps 2 schema_info), run script_dir cs w) /\
  fst (get_data_schema (run script_dir cs w)) = fst (get_data_schema w').
Proof. split; reflexivity. Qed.

(** C2, amended: for a row count [n >= 0] and a file name that ends in
    .csv or .parquet and whose target can be written (the joined path is
    one the system walks, within its limits on the length of names; its
    parent is an existing directory and the target is not a directory),
    [create_sample_data] returns the confirmation and the matching
    summary then reports [n] rows and the five columns id, name, score,
    category, created_date; the counts are the same for both formats. *)
Theorem C2_create_then_summarize (filename : string) (n : Z) (w : world) :
  (0 <= n)%Z ->
  supported filename = true ->
  writable (fs w) (target filename) = true ->
  fst (create_sample_data script_dir filename n w)
  = Ok (created_text filename n) /\
  round_trip_reports script_dir w filename n.
Proof.
  intros Hn Hs Hw.
  destruct (create_writes script_dir filename n w Hs Hw)
    as (df & bytes & root' & (Hc & Hl & Hp) & Hst & Hwr & Hret & Hfs).
  split; [exact Hret|]. unfold round_trip_reports. cbv zeta. rewrite Hfs.
  destruct (read_after_write _ _ _ _ Hwr) as (Hex & Hrd & q & Hq & Hlq).
  assert (Hrows : str_of_nat (Z.to_nat n) = str_of_Z n).
  { unfold str_of_nat. now rewrite Z2Nat.id. }
  unfold stored_as in Hst. split.
  - intros Hcsv. rewrite Hcsv in Hst. subst bytes.
    destruct (csv_round_trip df Hp) as (df' & Hparse & Hl' & Hc').
    unfold summarize_csv_file.
    rewrite (read_csv_summary_loaded script_dir root' filename df' Hex).
    + now rewrite Hl', Hl, Hc', Hc, Hrows.
    + unfold pd_read_csv. rewrite Hrd. exact Hparse.
  - intros Hcsv Hpq. rewrite Hcsv in Hst.
    destruct (parquet_round_trip df Hp)
      as (bytes' & df' & Hrender & Hparse & Hl' & Hc').
    assert (bytes' = bytes) as -> by congruence.
    unfold summarize_parquet_file.
    rewrite (read_parquet_summary_loaded script_dir root' filename df' Hex).
    + now rewrite Hl', Hl, Hc', Hc, Hrows.
    + unfold pd_read_parquet. rewrite Hq, Hlq. exact Hparse.
Qed.

(** C1, amended: no handler checks that a file name stays inside the data
    directory; the path used is [DATA_DIR / filename] as it is.  For a file
    name that is relative and has no [..] component, the path resolves
    inside the data directory, [create_sample_data] changes nothing that is
    seen outside it, and the reading handlers return the same on any two
    file systems with the same data directory; the listing, which takes no
    file name, always does. *)
Theorem C1_confined_when_name_stays_below (filename : string) :
  ~ In ".." script_dir ->
  stays_below filename ->
  (forall root, confined script_dir root filename) /\
  (forall rows w p,
      ~ inside DATA p ->
      stat (fs (snd (create_sample_data script_dir filename rows w))) p
      = stat (fs w) p) /\
  (forall r1 r2,
      same_data script_dir r1 r2 ->
      summarize_csv_file script_dir r1 filename
      = summarize_csv_file script_dir r2 filename /\
      summarize_parquet_file script_dir r1 filename
      = summarize_parquet_file script_dir r2 filename /\
      (forall operation,
          analyze_csv_data script_dir r1 filename operation
          = analyze_csv_data script_dir r2 filename operation) /\
      list_data_files script_dir r1 = list_data_files script_dir r2).
Proof.
  intros Hdir Hs. split; [|split].
  - intros root. now apply confined_below.
  - intros rows w p Hout. now apply create_below.
  - intros r1 r2 Hsame.
    destruct (reads_below script_dir Hdir r1 r2 filename Hsame Hs)
      as (H1 & H2 & H3).
    repeat split; auto. now apply listing_below.
Qed.
End Claims.

(* ================================================================= *)
(** * The claims on the disk of [Fixture] *)

Module Runs.
Import PyStr FS FSFacts PathFacts Sample SampleFacts Fixture.

(** C4: a data directory that holds only a subdirectory has no regular
    file, and [list_data_files] does not answer with the no-files sentence:
    the emptiness test is made on all the entries, before the regular
    files are selected, so the answer is the heading with no name after
    it. *)
Theorem C4_listing_of_subdirectories_only :
  regular_names (glob_star disk_only_subdir (DATA_DIR app_dir)) = [] /\
  list_data_files app_dir disk_only_subdir = Ok "Available data files: " /\
  list_data_files app_dir disk_only_subdir <> Ok no_files_text.
Proof. repeat split. discriminate. Qed.

(** C3: every handler turns what it catches into a sentence, but the three
    readers test [file_path.exists()] before their [try]: for a file name
    longer than a directory entry can be, the test raises [OSError] and the
    call raises with it.  [create_sample_data], whose [try] holds the whole
    body, answers the same name with its error sentence. *)
Theorem C3_long_name_raises :
  String.length long_name = 260 /\
  fst (invoke app_dir (summarize_csv_file_call long_name) w0)
  = Raise (err_name_too_long (Pathlib.joinpath (DATA_DIR app_dir) long_name))
  /\
  fst (invoke app_dir (summarize_parquet_file_call long_name) w0)
  = Raise (err_name_too_long (Pathlib.joinpath (DATA_DIR app_dir) long_name))
  /\
  fst (invoke app_dir (analyze_csv_data_call long_name (Some "bogus")) w0)
  = Raise (err_name_too_long (Pathlib.joinpath (DATA_DIR app_dir) long_name))
  /\
  fst (invoke app_dir (create_sample_data_call long_name (Some 3%Z)) w0)
  = Ok ("Error creating sample data: "
          ++ exn_str (err_name_too_long
                        (Pathlib.joinpath (DATA_DIR app_dir) long_name))).
Proof. repeat split; vm_compute; reflexivity. Qed.

Lemma C7_witness :
  path_exists disk (Pathlib.joinpath (DATA_DIR app_dir) "missing.csv")
  = Ok false /\
  (exists msg, summarize_csv_file app_dir disk "missing.csv" = Ok msg /\
               contains msg "not found" /\ contains msg "missing.csv") /\
  (exists msg, summarize_parquet_file app_dir disk "missing.csv" = Ok msg /\
               contains msg "not found" /\ contains msg "missing.csv").
Proof.
  split; [reflexivity|].
  apply (@C7_summarize_absent_file simple_pandas app_dir disk "missing.csv").
  reflexivity.
Defined.

(** C7 as it is written fails: [/etc/hosts.csv] names nothing in the base
    directory, and [summarize_csv_file] reads the file of that name and
    answers with its summary, in which "not found" does not occur. *)
Lemma C7_counterexample :
  ~ in_base_directory app_dir disk "/etc/hosts.csv" /\
  summarize_csv_file app_dir disk "/etc/hosts.csv"
  = Ok (summary_text "CSV" "/etc/hosts.csv" "0" ["ip"; "host"]) /\
  ~ contains (summary_text "CSV" "/etc/hosts.csv" "0" ["ip"; "host"])
      "not found".
Proof.
  split; [|split].
  - intros (q & Hq & [rest Hin] & _). vm_compute in Hq.
    injection Hq as <-. discriminate Hin.
  - reflexivity.
  - intros H. apply contains_occurs in H. vm_compute in H. discriminate H.
Qed.

Lemma C9_witness :
  path_exists disk (Pathlib.joinpath (DATA_DIR app_dir) "missing.csv")
  = Ok false /\
  analyze_csv_data app_dir disk "missing.csv" "bogus"
  = Ok (analyze_not_found_text "missing.csv") /\
  forall op', analyze_csv_data app_dir disk "missing.csv" "bogus"
              <> Ok (unknown_operation_text op').
Proof.
  split; [reflexivity|].
  apply (@C9_absent_file_before_operation simple_pandas app_dir disk
           "missing.csv" "bogus").
  reflexivity.
Defined.

(** C9 as it is written fails: [../main.py] names nothing in the base
    directory, and [analyze_csv_data] loads the file it leads to and, for
    an operation it does not know, answers with the unknown-operation
    message. *)
Lemma C9_counterexample :
  ~ in_base_directory app_dir disk "../main.py" /\
  analyze_csv_data app_dir disk "../main.py" "bogus"
  = Ok (unknown_operation_text "bogus").
Proof.
  split.
  - intros (q & Hq & [rest Hin] & _). vm_compute in Hq.
    injection Hq as <-. discriminate Hin.
  - reflexivity.
Qed.

Lemma C6_witness :
  analyze_csv_data app_dir disk "sample.csv" "bogus"
  = Ok ("Unknown operation: bogus. Available: "
          ++ join ", " ["describe"; "head"; "info"; "columns"]).
Proof.
  apply (@C6_unknown_operation simple_pandas app_dir disk "sample.csv" "bogus"
           (mk_df ["id"; "name"] [[CStr "1"; CStr "Alice"]])).
  - reflexivity.
  - reflexivity.
  - cbn. intuition discriminate.
Defined.

Lemma C5_witness :
  fst (create_sample_data app_dir "x.txt" 10 w0)
  = Ok "Error: Filename must end with .csv or .parquet" /\
  fs (snd (create_sample_data app_dir "x.txt" 10 w0)) = fs w0.
Proof.
  apply (@C5_unsupported_suffix_writes_nothing simple_pandas app_dir
           "x.txt" 10 w0); reflexivity.
Defined.

Lemma C10_witness :
  fst (create_sample_data app_dir "sample.csv" 2 w0)
  = Ok (created_text "sample.csv" 2) /\
  exists df bytes,
    is_sample_frame 2 df /\ stored_as "sample.csv" df bytes /\
    lookup (fs (snd (create_sample_data app_dir "sample.csv" 2 w0)))
      ["srv"; "app"; "data"; "sample.csv"]
    = Some (File bytes).
Proof.
  apply (@C10_overwrites_existing_file simple_pandas app_dir "sample.csv" 2 w0
           ["srv"; "app"; "data"; "sample.csv"]
           ("id,name" ++ newline ++ "1,Alice" ++ newline));
    reflexivity.
Defined.

Lemma C2_witness :
  fst (create_sample_data app_dir "t.csv" 3 w0) = Ok (created_text "t.csv" 3) /\
  round_trip_reports app_dir w0 "t.csv" 3.
Proof.
  apply (@C2_create_then_summarize simple_pandas app_dir "t.csv" 3 w0).
  - lia.
  - reflexivity.
  - reflexivity.
Defined.

Lemma C1_witness :
  (forall root, confined app_dir root "sample.csv") /\
  (forall rows w p,
      ~ inside (DATA_DIR app_dir) p ->
      stat (fs (snd (create_sample_data app_dir "sample.csv" rows w))) p
      = stat (fs w) p) /\
  (forall r1 r2,
      same_data app_dir r1 r2 ->
      summarize_csv_file app_dir r1 "sample.csv"
      = summarize_csv_file app_dir r2 "sample.csv" /\
      summarize_parquet_file app_dir r1 "sample.csv"
      = summarize_parquet_file app_dir r2 "sample.csv" /\
      (forall operation,
          analyze_csv_data app_dir r1 "sample.csv" operation
          = analyze_csv_data app_dir r2 "sample.csv" operation) /\
      list_data_files app_dir r1 = list_data_files app_dir r2).
Proof.
  apply (@C1_confined_when_name_stays_below simple_pandas app_dir "sample.csv").
  - cbn. intuition discriminate.
  - split; [reflexivity | cbn; intuition discriminate].
Defined.

(** C1 as it is written fails: [../../evil.csv] resolves to [/srv/evil.csv],
    outside the data directory, and [create_sample_data] creates that file;
    an absolute name is read where it points. *)
Lemma C1_counterexample :
  ~ confined app_dir disk "../../evil.csv" /\
  ~ inside (DATA_DIR app_dir) ["srv"; "evil.csv"] /\
  stat disk ["srv"; "evil.csv"] = None /\
  fst (create_sample_data app_dir "../../evil.csv" 2 w0)
  = Ok (created_text "../../evil.csv" 2) /\
  (exists bytes,
      stat (fs (snd (create_sample_data app_dir "../../evil.csv" 2 w0)))
        ["srv"; "evil.csv"] = Some (VFile bytes)) /\
  ~ confined app_dir disk "/etc/hosts.csv" /\
  summarize_csv_file app_dir disk "/etc/hosts.csv"
  = Ok (summary_text "CSV" "/etc/hosts.csv" "0" ["ip"; "host"]).
Proof.
  assert (Out : forall p, In p [["srv"; "evil.csv"]; ["etc"; "hosts.csv"]] ->
                          ~ inside (DATA_DIR app_dir) p).
  { intros p [<-|[<-|[]]] [rest H]; discriminate H. }
  repeat split.
  - intros H. apply (Out ["srv"; "evil.csv"]); [now left|].
    now apply H.
  - apply Out. now left.
  - eexists. vm_compute. reflexivity.
  - intros H. apply (Out ["etc"; "hosts.csv"]); [right; now left|].
    now apply H.
Qed.

(** C2 as it is written fails: [nodir/t.csv] ends in .csv, but the data
    directory has no [nodir], the write fails, and the summary that follows
    finds no file. *)
Lemma C2_counterexample :
  (0 <= 3)%Z /\ endswith "nodir/t.csv" ".csv" = true /\
  ~ round_trip_reports app_dir w0 "nodir/t.csv" 3 /\
  (exists e, fst (create_sample_data app_dir "nodir/t.csv" 3 w0)
             = Ok ("Error creating sample data: " ++ exn_str e)) /\
  summarize_csv_file app_dir
    (fs (snd (create_sample_data app_dir "nodir/t.csv" 3 w0))) "nodir/t.csv"
  = Ok (not_found_text "nodir/t.csv").
Proof.
  split; [lia|]. split; [reflexivity|]. split; [|split].
  - intros [H _]. specialize (H eq_refl). vm_compute in H. discriminate H.
  - exists (err_not_found ["srv"; "app"; "data"; "nodir"; "t.csv"]).
    reflexivity.
  - reflexivity.
Qed.
End Runs.

(* ================================================================= *)
(** * Failures that are answered with a sentence *)

Section Sentences.
Import PyStr PyStrFacts FS FSFacts PathFacts Sample SampleFacts.
Context {pd : Pandas}.
Variable script_dir : path.

(** X21: apart from a file name that is too long for the system, on which
    the existence test of the readers raises, every tool call returns a
    string; and when a call meets one of the five kinds of failure (file
    missing, suffix not supported, file that does not load, file that
    cannot be written, operation not known), the string returned is the
    sentence that describes that failure. *)
Theorem X21_failures_are_sentences (c : tool_call) (w : world) :
  (test_answers script_dir w c ->
   exists s, fst (invoke script_dir c w) = Ok s) /\
  (forall k, suffers script_dir w c k ->
             exists s, fst (invoke script_dir c w) = Ok s /\
                       describes c k s).
Proof.
  split.
  - destruct c as [|f|f|f op|f rows];
      cbn [invoke St.read_only fst test_answers]; intros Ht.
    + apply list_data_files_returns.
    + now apply read_csv_summary_returns.
    + now apply read_parquet_summary_returns.
    + now apply analyze_returns.
    + apply create_sample_data_returns.
  - intros k H.
    destruct H as [f H|f H|f op H|f e H E|f e H E|f op e H E|f op df H E Hop
                  |f rows H|f rows H Hw];
      cbn [invoke St.read_only fst describes].
    + eexists. split; [now apply read_csv_summary_not_found | reflexivity].
    + eexists. split; [now apply read_parquet_summary_not_found | reflexivity].
    + eexists. split; [now apply analyze_not_found | reflexivity].
    + apply path_exists_ok in H. eexists.
      split; [now apply read_csv_summary_load_failure with (e := e)|].
      now exists e.
    + apply path_exists_ok in H. eexists.
      split; [now apply read_parquet_summary_load_failure with (e := e)|].
      now exists e.
    + apply path_exists_ok in H. eexists.
      split; [now apply analyze_load_failure with (e := e)|].
      now exists e.
    + apply path_exists_ok in H. eexists. split; [|reflexivity].
      now apply analyze_unknown_operation with df.
    + unfold supported in H. apply orb_false_iff in H. destruct H as [H1 H2].
      eexists. split; [|reflexivity].
      now apply create_unsupported.
    + destruct (create_write_failure script_dir f
                  (match rows with Some n => n | None => 10%Z end) w H Hw)
        as [[e He] _].
      eexists. split; [exact He | now exists e].
Qed.
End Sentences.

(* ================================================================= *)
(** * Further facts about the file system *)

Module TreeFacts.
Import FS FSFacts.
Local Open Scope list_scope.

Lemma place_file (p : path) (new : node) (x : string) :
  place p new (File x) = File x.
Proof. now destruct p. Qed.

(** Writing a file is placing a file node. *)
Lemma put_place (q : path) (c : string) :
  forall root, put q c root = place q (File c) root.
Proof.
  induction q as [|name rest IH]; intros root; [now destruct root|].
  destruct root as [x|es]; [reflexivity|].
  destruct rest as [|r rs]; [reflexivity|].
  change (put (name :: r :: rs) c (Dir es))
    with (Dir (map_entry name (put (r :: rs) c) es)).
  change (place (name :: r :: rs) (File c) (Dir es))
    with (Dir (map_entry name (place (r :: rs) (File c)) es)).
  f_equal. induction es as [|[k m] es IHes]; [reflexivity|].
  cbn [map_entry]. destruct (String.eqb k name); [now rewrite IH|].
  now rewrite IHes.
Qed.

Lemma leaf_file (c : string) : leaf (File c).
Proof. intros x rest. reflexivity. Qed.

Lemma leaf_empty_dir : leaf (Dir []).
Proof. intros x rest. reflexivity. Qed.

(** Placing a leaf where no directory stands changes the content of no
    other regular file. *)
Lemma file_content_place (q : path) (new : node) :
  leaf new ->
  forall (root : node) (p : path),
    p <> q -> is_dir root q = false ->
    file_content (place q new root) p = file_content root p.
Proof.
  intros Hleaf. induction q as [|name rest IH]; intros root p Hpq Hd.
  - now destruct root.
  - destruct root as [x|es]; [now rewrite place_file|].
    destruct p as [|k ps]; [now destruct rest|].
    unfold file_content, is_dir in *. destruct rest as [|r rs].
    + cbn [place lookup] in *. rewrite get_entry_upsert.
      destruct (String.eqb_spec name k) as [->|]; [|reflexivity].
      destruct ps as [|x xs]; [congruence|]. rewrite Hleaf.
      destruct (get_entry k es) as [[y|es']|]; try discriminate; reflexivity.
    + cbn [lookup] in Hd. change (place (name :: r :: rs) new (Dir es))
        with (Dir (map_entry name (place (r :: rs) new) es)).
      cbn [lookup]. rewrite get_entry_map_entry.
      destruct (String.eqb_spec name k) as [->|]; [|reflexivity].
      destruct (get_entry k es) as [m|]; cbn [option_map]; [|reflexivity].
      apply IH; [congruence | exact Hd].
Qed.

(** Placing where nothing stands keeps every directory a directory. *)
Lemma is_dir_place_absent (q : path) (new : node) :
  forall (root : node) (p : path),
    lookup root q = None -> is_dir root p = true ->
    is_dir (place q new root) p = true.
Proof.
  induction q as [|name rest IH]; intros root p Hq Hp; [discriminate Hq|].
  destruct root as [x|es]; [now rewrite place_file|].
  destruct p as [|k ps]; [now destruct rest|].
  unfold is_dir in *. destruct rest as [|r rs].
  - cbn [place lookup] in *. rewrite get_entry_upsert.
    destruct (String.eqb_spec name k) as [->|]; [|exact Hp].
    destruct (get_entry k es); discriminate.
  - cbn [lookup] in Hq. change (place (name :: r :: rs) new (Dir es))
      with (Dir (map_entry name (place (r :: rs) new) es)).
    cbn [lookup] in *. rewrite get_entry_map_entry.
    destruct (String.eqb_spec name k) as [->|]; [|exact Hp].
    destruct (get_entry k es) as [m|]; cbn [option_map]; [|discriminate].
    now apply IH.
Qed.

(** The placed node is found where it was put. *)
Lemma lookup_place (q : path) (new : node) :
  forall root : node,
    q <> [] -> is_dir root (Pathlib.parent q) = true ->
    lookup (place q new root) q = Some new.
Proof.
  unfold Pathlib.parent.
  induction q as [|name rest IH]; intros root Hne Hd; [contradiction|].
  destruct root as [x|es].
  - unfold is_dir in Hd. rewrite lookup_file in Hd.
    destruct (removelast (name :: rest)); discriminate.
  - destruct rest as [|r rs].
    + cbn [place lookup]. now rewrite get_entry_upsert, String.eqb_refl.
    + change (place (name :: r :: rs) new (Dir es))
        with (Dir (map_entry name (place (r :: rs) new) es)).
      change (removelast (name :: r :: rs))
        with (name :: removelast (r :: rs)) in Hd.
      unfold is_dir in Hd. cbn [lookup] in *.
      rewrite get_entry_map_entry, String.eqb_refl.
      destruct (get_entry name es) as [m|]; [|discriminate].
      cbn [option_map]. apply IH; [discriminate | exact Hd].
Qed.

(** A walk that succeeds still succeeds, and ends at the same place, when
    directories are only added. *)
Lemma walk_mono (r1 r2 : node) :
  (forall p, is_dir r1 p = true -> is_dir r2 p = true) ->
  forall comps cur q, walk r1 cur comps = Some q -> walk r2 cur comps = Some q.
Proof.
  intros H. induction comps as [|c rest IH]; intros cur q; cbn [walk];
    [auto|].
  destruct (valid_component c); cbn [andb]; [|discriminate].
  destruct (is_dir r1 cur) eqn:E; [|discriminate].
  rewrite (H cur E). apply IH.
Qed.

(** What exists before a write exists after it. *)
Lemma lookup_put_some (q : path) (c : string) (root : node) (p : path) :
  q <> [] -> is_dir root q = false ->
  is_dir root (Pathlib.parent q) = true ->
  lookup root p <> None -> lookup (put q c root) p <> None.
Proof.
  intros Hne Hd Hpar Hp.
  destruct (lookup root p) as [[x|es]|] eqn:E; [| |contradiction].
  - destruct (list_eq_dec string_dec p q) as [->|Hpq].
    + now rewrite lookup_put.
    + pose proof (file_content_place q (File c) (leaf_file c) root p Hpq Hd)
        as F.
      rewrite <- put_place in F. unfold file_content in F. rewrite E in F.
      destruct (lookup (put q c root) p); [discriminate | discriminate].
  - pose proof (is_dir_put q c root p Hne Hd) as D. unfold is_dir in D.
    rewrite E in D. destruct (lookup (put q c root) p); discriminate.
Qed.

Lemma exists_after_write (root root' : node) (p x : path) (c : string) :
  write_file root p c = Ok root' ->
  exists_ root x = true -> exists_ root' x = true.
Proof.
  intros Hw Hx. destruct (write_file_inv _ _ _ _ Hw) as [Hok _].
  destruct (write_file_ok root p c Hok) as (q & Hres & Hne & Hd & Hpar & Hw').
  rewrite Hw in Hw'. injection Hw' as ->.
  unfold exists_ in *.
  assert (R : resolve (put q c root) x = resolve root x).
  { apply resolve_ext. intros p'. now apply is_dir_put. }
  rewrite R. destruct (resolve root x) as [y|]; [|discriminate].
  destruct (lookup root y) eqn:E; [|discriminate].
  pose proof (lookup_put_some q c root y Hne Hd Hpar) as L.
  rewrite E in L. destruct (lookup (put q c root) y); [reflexivity|].
  exfalso. now apply L.
Qed.

Lemma writable_after_write (root root' : node) (p x : path) (c : string) :
  write_file root p c = Ok root' ->
  resolve root' x = resolve root x /\
  (forall y, is_dir root' y = is_dir root y).
Proof.
  intros Hw. destruct (write_file_inv _ _ _ _ Hw) as [Hok _].
  destruct (write_file_ok root p c Hok) as (q & Hres & Hne & Hd & Hpar & Hw').
  rewrite Hw in Hw'. injection Hw' as ->.
  assert (D : forall y, is_dir (put q c root) y = is_dir root y)
    by (intros y; now apply is_dir_put).
  split; [|exact D]. now apply resolve_ext.
Qed.

(** A write changes the content of no regular file but its target. *)
Lemma file_content_after_write (root root' : node) (p : path) (c : string)
  (q x : path) :
  write_file root p c = Ok root' -> resolve root p = Some q ->
  file_content root' x = if list_eq_dec string_dec x q then Some c
                         else file_content root x.
Proof.
  intros Hw Hres. destruct (write_file_inv _ _ _ _ Hw) as [Hok _].
  destruct (write_file_ok root p c Hok)
    as (q' & Hres' & Hne & Hd & Hpar & Hw').
  assert (q' = q) as -> by congruence.
  rewrite Hw in Hw'. injection Hw' as ->.
  destruct (list_eq_dec string_dec x q) as [->|Hxq].
  - unfold file_content. now rewrite lookup_put.
  - rewrite put_place. now apply file_content_place; [apply leaf_file | |].
Qed.
End TreeFacts.

(* ================================================================= *)
(** * Further facts about the generated table *)

Module RowFacts.
Import PyStr PyStrFacts Sample SampleFacts Rows.
Local Open Scope list_scope.

Lemma draws_on_replicate {A} d (P : A -> Prop) (m : St.M A) (n : nat) :
  draws_on d P m ->
  draws_on d (fun l => List.length l = n /\ Forall P l) (St.replicate n m).
Proof.
  intros Hm. induction n as [|n IH]; intros w Hw.
  - exists [], w. cbn. auto.
  - destruct (Hm w Hw) as (x & w1 & E1 & Px & F1 & T1).
    destruct (IH w1 T1) as (xs & w2 & E2 & [Hlen Hall] & F2 & T2).
    exists (x :: xs), w2. cbn [St.replicate]. unfold St.bind at 1.
    rewrite E1. unfold St.bind at 1. rewrite E2. cbn.
    repeat split; auto; congruence.
Qed.

Lemma randint_range (a b : Z) (w : world) :
  (a <= b)%Z ->
  exists z, Random.randint a b w = (Ok z, advance w) /\ (a <= z <= b)%Z.
Proof.
  intros Hab. unfold Random.randint.
  destruct (Z.ltb_spec b a) as [H|_]; [lia|].
  eexists. split; [reflexivity|].
  pose proof (Z.mod_pos_bound (Z.of_nat (tape w (cursor w))) (b - a + 1)).
  lia.
Qed.

Lemma draws_on_score d :
  draws_on d is_score (x <- Random.randint 1 100 ;; St.ret (CInt x))%st.
Proof.
  intros w Hw. destruct (randint_range 1 100 w) as (z & E & Hz); [lia|].
  exists (CInt z), (advance w). unfold St.bind. rewrite E.
  repeat split; auto. now exists z.
Qed.

Lemma draws_on_category d :
  draws_on d is_category
    (x <- Random.choice ["A"; "B"; "C"]%string ;; St.ret (CStr x))%st.
Proof.
  intros w Hw. unfold St.bind, Random.choice.
  pose proof (Nat.mod_upper_bound (tape w (cursor w)) 3) as Hlt.
  cbn [List.length]. destruct (tape w (cursor w) mod 3) as [|[|[|k]]];
    [| | |lia]; cbn [nth_error St.ret fst snd];
    eexists _, _; (split; [reflexivity|]); (split; [|now split]);
    eexists; (split; [reflexivity|]); cbn; auto.
Qed.

Lemma draws_on_created d :
  draws_on d (is_created d)
    (fun w =>
       (k <- Random.randint 1 365 ;;
        St.ret (CStr (Datetime.strftime_ymd
                        (Datetime.minus_days (today w) k))))%st w).
Proof.
  intros w Hw. destruct (randint_range 1 365 w) as (z & E & Hz); [lia|].
  eexists _, (advance w). unfold St.bind. rewrite E.
  split; [reflexivity|]. split; [|now split].
  exists z. now rewrite Hw.
Qed.

Lemma nth_range (a b : Z) (i : nat) (d : Z) :
  i < Z.to_nat (b - a) -> nth i (range a b) d = (a + Z.of_nat i)%Z.
Proof.
  intros Hi. unfold range.
  rewrite (nth_indep _ d (a + Z.of_nat 0)%Z)
    by now rewrite length_map, length_seq.
  rewrite (map_nth (fun k => (a + Z.of_nat k)%Z)). now rewrite seq_nth.
Qed.

Lemma nth_Forall {A} (P : A -> Prop) (l : list A) (i : nat) (d : A) :
  Forall P l -> i < List.length l -> P (nth i l d).
Proof. intros H Hi. rewrite Forall_forall in H. now apply H, nth_In. Qed.

(** The table that is built, row by row. *)
Lemma sample_frame_rows (n : Z) (w : world) :
  exists data df w',
    sample_columns n w = (Ok data, w') /\
    Frame.from_dict data = Ok df /\
    fs w' = fs w /\ is_sample_frame n df /\ sample_rows (today w) n df.
Proof.
  destruct (sample_frame n w) as (data & df & w' & E & Hdf & F & Hs).
  exists data, df, w'. repeat split; try assumption; try apply Hs.
  revert E. unfold sample_columns.
  destruct (draws_on_replicate (today w) _ _ (Z.to_nat n)
              (draws_on_score (today w)) w eq_refl)
    as (score & w1 & E1 & [L1 P1] & _ & T1).
  destruct (draws_on_replicate (today w) _ _ (Z.to_nat n)
              (draws_on_category (today w)) w1 T1)
    as (category & w2 & E2 & [L2 P2] & _ & T2).
  destruct (draws_on_replicate (today w) _ _ (Z.to_nat n)
              (draws_on_created (today w)) w2 T2)
    as (created & w3 & E3 & [L3 P3] & _ & _).
  unfold St.bind at 1. rewrite E1.
  unfold St.bind at 1. rewrite E2. unfold St.bind at 1. rewrite E3.
  intros [= <- <-]. revert Hdf. unfold Frame.from_dict.
  destruct (forallb _ _); [|discriminate]. intros [= <-].
  intros i Hi. cbn [rows Frame.column_length].
  assert (Hr : Z.to_nat (n + 1 - 1) = Z.to_nat n) by (f_equal; lia).
  rewrite length_map, length_range, Hr.
  rewrite (nth_map_default _ _ i 0) by now rewrite length_seq.
  rewrite seq_nth by assumption. cbn [Nat.add].
  unfold Frame.row_at. cbn [map snd].
  rewrite !(nth_map_default _ _ i 0%Z) by (rewrite length_range; lia).
  rewrite nth_range by lia.
  destruct (nth_Forall _ score i (CStr "") P1) as (s & -> & Hs'); [lia|].
  destruct (nth_Forall _ category i (CStr "") P2) as (c & -> & Hc); [lia|].
  destruct (nth_Forall _ created i (CStr "") P3) as (k & -> & Hk); [lia|].
  now exists s, c, k.
Qed.
End RowFacts.

(* ================================================================= *)
(** * Further properties of the handlers *)

Section Creation.
Import PyStr PyStrFacts FS FSFacts TreeFacts PathFacts Sample SampleFacts.
Import Rows RowFacts.
Local Open Scope list_scope.

Context {pd : Pandas}.
Variable script_dir : path.

Local Abbreviation DATA := (DATA_DIR script_dir).
Local Abbreviation target f := (Pathlib.joinpath (DATA_DIR script_dir) f).

(** [create_sample_data] by cases, with the rows of the table. *)
Lemma create_outcomes (filename : string) (n : Z) (w : world) :
  exists df w1,
    fs w1 = fs w /\ is_sample_frame n df /\ sample_rows (today w) n df /\
    create_sample_data script_dir filename n w
    = if endswith filename ".csv" then
        match write_file (fs w) (target filename) (render_csv df) with
        | Ok root' => (Ok (created_text filename n), with_fs w1 root')
        | Raise e => (Ok ("Error creating sample data: " ++ exn_str e)%string,
                      w1)
        end
      else if endswith filename ".parquet" then
        match render_parquet df with
        | Ok bytes =>
            match write_file (fs w) (target filename) bytes with
            | Ok root' => (Ok (created_text filename n), with_fs w1 root')
            | Raise e =>
                (Ok ("Error creating sample data: " ++ exn_str e)%string, w1)
            end
        | Raise e =>
            (Ok ("Error creating sample data: " ++ exn_str e)%string, w1)
        end
      else (Ok unsupported_text, w1).
Proof.
  destruct (sample_frame_rows n w) as (data & df & w1 & E & Hdf & F & Hs & Hr).
  exists df, w1. split; [exact F|]. split; [exact Hs|]. split; [exact Hr|].
  destruct Hs as (Hc & _ & _).
  unfold create_sample_data, St.try_except.
  unfold St.bind at 1. rewrite E.
  unfold St.bind at 1, St.lift. rewrite Hdf.
  destruct (endswith filename ".csv").
  - unfold St.bind, df_to_csv. rewrite F.
    destruct (write_file (fs w) (target filename) (render_csv df));
      [|reflexivity].
    unfold St.ret, created_text. now rewrite Hc.
  - destruct (endswith filename ".parquet"); [|reflexivity].
    unfold St.bind, df_to_parquet. rewrite F.
    destruct (render_parquet df) as [bytes|e]; [|reflexivity].
    destruct (write_file (fs w) (target filename) bytes); [|reflexivity].
    unfold St.ret, created_text. now rewrite Hc.
Qed.

(** What a successful creation leaves: the table with its rows, stored at
    the target. *)
Lemma create_stores (filename : string) (n : Z) (w : world) :
  supported filename = true ->
  writable (fs w) (target filename) = true ->
  exists df bytes root',
    is_sample_frame n df /\ sample_rows (today w) n df /\
    stored_as filename df bytes /\
    write_file (fs w) (target filename) bytes = Ok root' /\
    fst (create_sample_data script_dir filename n w)
    = Ok (created_text filename n) /\
    fs (snd (create_sample_data script_dir filename n w)) = root'.
Proof.
  intros Hs Hw.
  destruct (create_outcomes filename n w) as (df & w1 & F & Hdf & Hr & ->).
  unfold supported in Hs. unfold stored_as.
  destruct (endswith filename ".csv").
  - destruct (write_file_ok _ _ (render_csv df) Hw) as (q & _ & _ & _ & _ & E).
    rewrite E. exists df, (render_csv df), (put q (render_csv df) (fs w)).
    split; [exact Hdf|]. split; [exact Hr|]. repeat split; assumption.
  - cbn [orb] in Hs. rewrite Hs.
    destruct (parquet_round_trip df (proj2 (proj2 Hdf)))
      as (bytes & df' & E1 & _).
    rewrite E1.
    destruct (write_file_ok _ _ bytes Hw) as (q & _ & _ & _ & _ & E).
    rewrite E. exists df, bytes, (put q bytes (fs w)).
    split; [exact Hdf|]. split; [exact Hr|]. repeat split; assumption.
Qed.

(** The file system after [create_sample_data]: as before, or with one
    file written through the target. *)
Lemma create_fs (filename : string) (n : Z) (w : world) :
  fs (snd (create_sample_data script_dir filename n w)) = fs w \/
  exists bytes,
    write_file (fs w) (target filename) bytes
    = Ok (fs (snd (create_sample_data script_dir filename n w))).
Proof.
  destruct (create_outcomes filename n w) as (df & w1 & F & _ & _ & ->).
  destruct (endswith filename ".csv").
  - destruct (write_file _ _ _) as [root'|e] eqn:E; cbn [snd fs with_fs];
      [right; eauto | now left].
  - destruct (endswith filename ".parquet"); [|now left].
    destruct (render_parquet df) as [bytes|e]; [|now left].
    destruct (write_file _ _ _) as [root'|e] eqn:E; cbn [snd fs with_fs];
      [right; eauto | now left].
Qed.
End Creation.

Section CreationProperties.
Import PyStr PyStrFacts FS FSFacts TreeFacts PathFacts Sample SampleFacts.
Import Rows RowFacts.
Local Open Scope list_scope.

Context {pd : Pandas}.
Variable script_dir : path.

Local Abbreviation DATA := (DATA_DIR script_dir).
Local Abbreviation target f := (Pathlib.joinpath (DATA_DIR script_dir) f).
Local Abbreviation after_create f n w :=
  (fs (snd (create_sample_data script_dir f n w))).

(** Reading back a created CSV file. *)
Lemma read_back_csv (filename : string) (n : Z) (w : world) :
  endswith filename ".csv" = true ->
  writable (fs w) (target filename) = true ->
  fst (create_sample_data script_dir filename n w)
  = Ok (created_text filename n) /\
  exists df',
    exists_ (after_create filename n w) (target filename) = true /\
    pd_read_csv (after_create filename n w) (target filename) = Ok df' /\
    Frame.len df' = Z.to_nat n /\ columns df' = sample_names.
Proof.
  intros Hcsv Hw.
  assert (Hs : supported filename = true) by (unfold supported; now rewrite Hcsv).
  destruct (create_stores script_dir filename n w Hs Hw)
    as (df & bytes & root' & (Hc & Hl & Hp) & _ & Hst & Hwr & Hret & Hfs).
  split; [exact Hret|]. rewrite Hfs.
  destruct (read_after_write _ _ _ _ Hwr) as (Hex & Hrd & _).
  unfold stored_as in Hst. rewrite Hcsv in Hst. subst bytes.
  destruct (csv_round_trip df Hp) as (df' & Hparse & Hl' & Hc').
  exists df'. split; [exact Hex|]. split; [|split; congruence].
  unfold pd_read_csv. rewrite Hrd. exact Hparse.
Qed.

(** Reading back a created Parquet file. *)
Lemma read_back_parquet (filename : string) (n : Z) (w : world) :
  endswith filename ".csv" = false ->
  endswith filename ".parquet" = true ->
  writable (fs w) (target filename) = true ->
  fst (create_sample_data script_dir filename n w)
  = Ok (created_text filename n) /\
  exists df',
    exists_ (after_create filename n w) (target filename) = true /\
    pd_read_parquet (after_create filename n w) (target filename) = Ok df' /\
    Frame.len df' = Z.to_nat n /\ columns df' = sample_names.
Proof.
  intros Hcsv Hpq Hw.
  assert (Hs : supported filename = true)
    by (unfold supported; now rewrite Hcsv, Hpq).
  destruct (create_stores script_dir filename n w Hs Hw)
    as (df & bytes & root' & (Hc & Hl & Hp) & _ & Hst & Hwr & Hret & Hfs).
  split; [exact Hret|]. rewrite Hfs.
  destruct (read_after_write _ _ _ _ Hwr) as (Hex & _ & q & Hq & Hlq).
  unfold stored_as in Hst. rewrite Hcsv in Hst.
  destruct (parquet_round_trip df Hp)
    as (bytes' & df' & Hrender & Hparse & Hl' & Hc').
  assert (bytes' = bytes) as -> by congruence.
  exists df'. split; [exact Hex|]. split; [|split; congruence].
  unfold pd_read_parquet. rewrite Hq, Hlq. exact Hparse.
Qed.

(** X1: when [create_sample_data] succeeds, the file at the target holds
    the serialised table whose row [i] (from 0) is: id [i+1], name
    [User_<i+1>], a score from 1 to 100, a category among A, B, C, and the
    date of a day 1 to 365 days before today as YYYY-MM-DD. *)
Theorem X1_created_file_holds_the_table (filename : string) (n : Z)
  (w : world) :
  supported filename = true ->
  writable (fs w) (target filename) = true ->
  exists df bytes q,
    resolve (fs w) (target filename) = Some q /\
    stored_as filename df bytes /\
    file_content (after_create filename n w) q = Some bytes /\
    columns df = sample_names /\ Frame.len df = Z.to_nat n /\
    sample_rows (today w) n df.
Proof.
  intros Hs Hw.
  destruct (create_stores script_dir filename n w Hs Hw)
    as (df & bytes & root' & (Hc & Hl & _) & Hr & Hst & Hwr & _ & Hfs).
  destruct (write_file_inv _ _ _ _ Hwr) as (_ & q & Hq & _).
  exists df, bytes, q. rewrite Hfs.
  rewrite (file_content_after_write _ _ _ _ q q Hwr Hq).
  destruct (list_eq_dec string_dec q q); [|contradiction].
  repeat split; assumption.
Qed.

(** X2: for a negative row count the confirmation repeats the number
    asked for, while the table written has no row: the summary that
    follows reports 0 rows and the five columns. *)
Theorem X2_negative_rows_give_an_empty_table (filename : string) (n : Z)
  (w : world) :
  (n < 0)%Z ->
  supported filename = true ->
  writable (fs w) (target filename) = true ->
  fst (create_sample_data script_dir filename n w)
  = Ok ("Created " ++ filename ++ " with " ++ str_of_Z n
          ++ " rows and 5 columns.")%string /\
  (endswith filename ".csv" = true ->
   summarize_csv_file script_dir (after_create filename n w) filename
   = Ok (summary_text "CSV" filename "0" sample_names)) /\
  (endswith filename ".csv" = false ->
   summarize_parquet_file script_dir (after_create filename n w) filename
   = Ok (summary_text "Parquet" filename "0" sample_names)).
Proof.
  intros Hn Hs Hw.
  assert (Z0 : Z.to_nat n = 0) by lia.
  destruct (endswith filename ".csv") eqn:Hcsv.
  - destruct (read_back_csv filename n w Hcsv Hw)
      as (Hret & df' & Hex & Hrd & Hl & Hc).
    split; [exact Hret|]. split; [intros _|discriminate].
    unfold summarize_csv_file.
    rewrite (read_csv_summary_loaded script_dir _ filename df' Hex Hrd).
    now rewrite Hl, Hc, Z0.
  - unfold supported in Hs. rewrite Hcsv in Hs. cbn [orb] in Hs.
    destruct (read_back_parquet filename n w Hcsv Hs Hw)
      as (Hret & df' & Hex & Hrd & Hl & Hc).
    split; [exact Hret|]. split; [discriminate|intros _].
    unfold summarize_parquet_file.
    rewrite (read_parquet_summary_loaded script_dir _ filename df' Hex Hrd).
    now rewrite Hl, Hc, Z0.
Qed.

(** X3: after a successful [create_sample_data] of a .csv file,
    [analyze_csv_data] with the operation columns lists the five column
    names of the generated table. *)
Theorem X3_columns_after_create (filename : string) (n : Z) (w : world) :
  endswith filename ".csv" = true ->
  writable (fs w) (target filename) = true ->
  analyze_csv_data script_dir (after_create filename n w) filename "columns"
  = Ok ("Columns in " ++ filename
          ++ ": id, name, score, category, created_date")%string.
Proof.
  intros Hcsv Hw.
  destruct (read_back_csv filename n w Hcsv Hw)
    as (_ & df' & Hex & Hrd & Hl & Hc).
  apply path_exists_true in Hex.
  unfold analyze_csv_data. cbv zeta. rewrite Hex, Hrd.
  cbn [negb Res.bind Res.try_except String.eqb Ascii.eqb Bool.eqb].
  now rewrite Hc.
Qed.

(** X5: [create_sample_data] changes the content of no regular file other
    than the one its target resolves to: no other file is written, made or
    removed, whether the call succeeds or not. *)
Theorem X5_create_changes_only_its_target (filename : string) (n : Z)
  (w : world) (x : path) :
  (forall q, resolve (fs w) (target filename) = Some q -> x <> q) ->
  file_content (after_create filename n w) x = file_content (fs w) x.
Proof.
  intros Hx. destruct (create_fs script_dir filename n w) as [->|[bytes Hw]];
    [reflexivity|].
  destruct (write_file_inv _ _ _ _ Hw) as (_ & q & Hq & _).
  rewrite (file_content_after_write _ _ _ _ q x Hw Hq).
  destruct (list_eq_dec string_dec x q) as [->|_]; [|reflexivity].
  now destruct (Hx q Hq).
Qed.

Lemma invoke_is_dir (c : tool_call) (w : world) (p : path) :
  is_dir (fs (snd (invoke script_dir c w))) p = is_dir (fs w) p.
Proof.
  destruct c as [|f|f|f op|f rows]; try reflexivity.
  cbn [invoke].
  destruct (create_fs script_dir f
              (match rows with Some n => n | None => 10%Z end) w)
    as [->|[bytes Hw]]; [reflexivity|].
  now destruct (writable_after_write _ _ _ p _ Hw) as [_ ->].
Qed.

Lemma is_file_content (root : node) (p : path) :
  is_file root p = match file_content root p with
                   | Some _ => true
                   | None => false
                   end.
Proof.
  unfold is_file, file_content. now destruct (lookup root p) as [[c|es]|].
Qed.

Lemma invoke_is_file (c : tool_call) (w : world) (p : path) :
  is_file (fs w) p = true -> is_file (fs (snd (invoke script_dir c w))) p = true.
Proof.
  destruct c as [|f|f|f op|f rows]; try (intros H; exact H).
  cbn [invoke]. intros H.
  destruct (create_fs script_dir f
              (match rows with Some n => n | None => 10%Z end) w)
    as [->|[bytes Hw]]; [exact H|].
  destruct (write_file_inv _ _ _ _ Hw) as (_ & q & Hq & _).
  rewrite is_file_content in *.
  rewrite (file_content_after_write _ _ _ _ q p Hw Hq).
  now destruct (list_eq_dec string_dec p q).
Qed.

(** X6: no tool call makes or removes a directory: after any session the
    directories are those there were before. *)
Theorem X6_sessions_keep_the_directories (cs : list tool_call) (w : world)
  (p : path) :
  is_dir (fs (run script_dir cs w)) p = is_dir (fs w) p.
Proof.
  revert w. induction cs as [|c cs IH]; intros w; [reflexivity|].
  cbn [run]. rewrite IH. apply invoke_is_dir.
Qed.

(** X7: no tool call removes a file: a regular file is still a regular
    file after any session (its content may have been rewritten). *)
Theorem X7_sessions_remove_no_file (cs : list tool_call) (w : world)
  (p : path) :
  is_file (fs w) p = true -> is_file (fs (run script_dir cs w)) p = true.
Proof.
  revert w. induction cs as [|c cs IH]; intros w H; [exact H|].
  cbn [run]. apply IH. now apply invoke_is_file.
Qed.

(** X8: a session in which every [create_sample_data] is given a relative
    file name without [..] changes nothing that is seen outside the data
    directory. *)
Theorem X8_sessions_stay_in_the_data_directory (cs : list tool_call)
  (w : world) (p : path) :
  ~ In ".."%string script_dir ->
  Forall writes_below cs ->
  ~ inside DATA p ->
  stat (fs (run script_dir cs w)) p = stat (fs w) p.
Proof.
  intros Hdir Hcs Hout. revert w.
  induction Hcs as [|c cs Hc _ IH]; intros w; [reflexivity|].
  cbn [run]. rewrite IH.
  destruct c as [|f|f|f op|f rows]; try reflexivity.
  cbn [invoke]. now apply create_below.
Qed.
End CreationProperties.

Section Listing.
Import PyStr PyStrFacts FS FSFacts TreeFacts PathFacts Sample SampleFacts.
Local Open Scope list_scope.

Context {pd : Pandas}.
Variable script_dir : path.

Local Abbreviation DATA := (DATA_DIR script_dir).
Local Abbreviation target f := (Pathlib.joinpath (DATA_DIR script_dir) f).

Lemma in_upsert (name : string) (n : node) es : In (name, n) (upsert name n es).
Proof.
  induction es as [|[k m] es IH]; cbn [upsert]; [now left|].
  destruct (String.eqb_spec k name) as [->|_]; [now left | now right].
Qed.

(** The directory that receives a new node lists it. *)
Lemma lookup_place_parent (name : string) (new : node) (d : path) :
  forall root es,
    lookup root d = Some (Dir es) ->
    lookup (place (d ++ [name]) new root) d = Some (Dir (upsert name new es)).
Proof.
  induction d as [|k d IH]; intros root es H.
  - cbn [lookup] in H. injection H as ->. reflexivity.
  - destruct root as [x|es0]; [discriminate H|].
    cbn [lookup] in H.
    assert (E : place ((k :: d) ++ [name]) new (Dir es0)
                = Dir (map_entry k (place (d ++ [name]) new) es0))
      by now destruct d.
    rewrite E. cbn [lookup]. rewrite get_entry_map_entry, String.eqb_refl.
    destruct (get_entry k es0) as [m|]; [|discriminate H].
    cbn [option_map]. now apply IH.
Qed.

(** X4: after a successful [create_sample_data] under a file name of one
    component, [list_data_files] answers with the heading and a list of
    names that holds that file name. *)
Theorem X4_created_file_is_listed (filename : string) (n : Z) (w : world) :
  ~ In ".."%string script_dir ->
  Pathlib.is_absolute filename = false ->
  Pathlib.parse_parts filename = [filename] ->
  supported filename = true ->
  writable (fs w) (target filename) = true ->
  exists names,
    list_data_files script_dir
      (fs (snd (create_sample_data script_dir filename n w)))
    = Ok ("Available data files: " ++ join ", " names)%string /\
    In filename names.
Proof.
  intros Hdir Hrel Hone Hs Hw.
  assert (Hbelow : stays_below filename).
  { split; [exact Hrel|]. rewrite Hone. intros [E|[]].
    rewrite E in Hs. discriminate Hs. }
  destruct (create_writes script_dir filename n w Hs Hw)
    as (df & bytes & root' & _ & _ & Hwr & _ & ->).
  destruct (write_file_inv _ _ _ _ Hwr) as (_ & q & Hq & ->).
  destruct (write_file_ok _ _ bytes Hw) as (q' & Hq' & Hne & Hd & Hpar & _).
  assert (q' = q) as -> by congruence.
  pose proof (resolve_below script_dir Hdir (fs w) filename q Hbelow Hq) as Eq.
  rewrite Hone in Eq. subst q.
  unfold Pathlib.parent in Hpar. rewrite removelast_last in Hpar.
  assert (Hres : resolve (put (DATA ++ [filename]) bytes (fs w)) DATA
                 = Some DATA).
  { assert (R : resolve (fs w) DATA = Some DATA).
    { destruct (target_below script_dir Hdir filename Hbelow) as [Et _].
      rewrite Et, Hone in Hq.
      destruct (resolve_prefix _ _ _ _ Hq) as (d & Rd & _).
      pose proof (resolve_walk _ _ _ Rd) as Wd.
      apply walk_plain in Wd; [|now apply DATA_plain]. now rewrite Rd, Wd. }
    rewrite <- R. apply resolve_ext. intros p.
    now apply is_dir_put. }
  unfold is_dir in Hpar.
  destruct (lookup (fs w) DATA) as [[x|es]|] eqn:L; try discriminate.
  rewrite list_data_files_cases. unfold glob_star. rewrite Hres.
  rewrite put_place, (lookup_place_parent filename (File bytes) DATA _ es L).
  pose proof (in_upsert filename (File bytes) es) as Hin.
  destruct (upsert filename (File bytes) es) as [|e es'] eqn:U; [destruct Hin|].
  exists (regular_names (e :: es')). split; [reflexivity|].
  unfold regular_names. apply in_map_iff. exists (filename, File bytes).
  split; [reflexivity|]. apply filter_In. now split.
Qed.
End Listing.

Section AbsoluteNames.
Import PyStr PyStrFacts FS FSFacts TreeFacts PathFacts Sample SampleFacts.
Local Open Scope list_scope.

Context {pd : Pandas}.
Variable script_dir : path.

Local Abbreviation DATA := (DATA_DIR script_dir).
Local Abbreviation target f := (Pathlib.joinpath (DATA_DIR script_dir) f).

Lemma clean_elim (c : string) :
  clean_component c = true ->
  Pathlib.keep_part c = true /\ has_char "/"%char c = false /\
  c <> ".."%string /\ valid_component c = true.
Proof.
  unfold clean_component. rewrite !andb_true_iff, !negb_true_iff.
  intros [[[H1 H2] H3] H4]. repeat split; auto.
  intros ->. discriminate H3.
Qed.

Lemma filter_all {A} (f : A -> bool) (l : list A) :
  forallb f l = true -> filter f l = l.
Proof.
  induction l as [|x l IH]; cbn [forallb filter]; [reflexivity|].
  intros H. apply andb_true_iff in H. destruct H as [-> Hl].
  now rewrite IH.
Qed.

(** The text of an absolute path reads back as the path. *)
Lemma parse_parts_to_str (q : path) :
  forallb clean_component q = true ->
  Pathlib.parse_parts (Pathlib.to_str q) = q /\
  Pathlib.is_absolute (Pathlib.to_str q) = true.
Proof.
  intros Hq. split.
  - unfold Pathlib.parse_parts, Pathlib.to_str.
    change (split_on "/" ("/" ++ join "/" q)%string)
      with (""%string :: split_on "/" (join "/" q)).
    cbn [filter Pathlib.keep_part String.eqb negb andb].
    destruct q as [|x xs]; [reflexivity|].
    rewrite (split_on_join "/"%char x xs).
    + apply filter_all. rewrite forallb_forall in *.
      intros c Hc. now destruct (clean_elim c (Hq c Hc)).
    + apply Forall_forall. rewrite forallb_forall in Hq.
      intros c Hc. now destruct (clean_elim c (Hq c Hc)) as (_ & ? & _).
  - unfold Pathlib.is_absolute, startswith, Pathlib.to_str.
    apply SimplePandasFacts.prefix_append.
Qed.

(** A path to something that exists resolves to itself. *)
Lemma walk_existing (root : node) (comps : list string) :
  forallb clean_component comps = true ->
  forall cur n,
    lookup root (cur ++ comps) = Some n ->
    walk root cur comps = Some (cur ++ comps).
Proof.
  induction comps as [|c rest IH]; intros Hc cur n H.
  - now rewrite app_nil_r.
  - cbn [forallb] in Hc. apply andb_true_iff in Hc. destruct Hc as [Hc Hrest].
    destruct (clean_elim c Hc) as (_ & _ & Hdd & Hv).
    cbn [walk]. rewrite Hv.
    assert (D : is_dir root cur = true).
    { unfold is_dir. rewrite lookup_app in H.
      destruct (lookup root cur) as [[x|es]|]; [discriminate H | reflexivity
                                                | discriminate H]. }
    rewrite D. cbn [andb].
    destruct (String.eqb_spec c "..") as [E|_]; [contradiction|].
    rewrite (IH Hrest (cur ++ [c]) n); rewrite <- app_assoc; [reflexivity|].
    exact H.
Qed.

Lemma target_absolute (q : path) :
  forallb clean_component q = true -> target (Pathlib.to_str q) = q.
Proof.
  intros Hq. destruct (parse_parts_to_str q Hq) as [Hp Ha].
  unfold Pathlib.joinpath. now rewrite Ha.
Qed.


(** X10: nor does it bound what is written: any regular file of the disk
    whose absolute path is within [PATH_MAX] and ends in .csv or .parquet
    is overwritten with a generated table by [create_sample_data] given
    that path. *)
Theorem X10_any_file_is_overwritten_by_its_absolute_name (q : path)
  (old : string) (n : Z) (w : world) :
  forallb clean_component q = true ->
  fits q = true ->
  lookup (fs w) q = Some (File old) ->
  supported (Pathlib.to_str q) = true ->
  fst (create_sample_data script_dir (Pathlib.to_str q) n w)
  = Ok (created_text (Pathlib.to_str q) n) /\
  exists df bytes,
    is_sample_frame n df /\ stored_as (Pathlib.to_str q) df bytes /\
    file_content
      (fs (snd (create_sample_data script_dir (Pathlib.to_str q) n w))) q
    = Some bytes.
Proof.
  intros Hq Hfit Hl Hs.
  assert (R : resolve (fs w) (target (Pathlib.to_str q)) = Some q).
  { rewrite target_absolute by assumption.
    rewrite walk_resolve by assumption.
    now apply (walk_existing (fs w) q Hq [] (File old)). }
  destruct (writable_file (fs w) (target (Pathlib.to_str q)) q old)
    as [Hne Hw]; [now apply joinpath_nonempty | assumption | assumption |].
  destruct (create_writes script_dir (Pathlib.to_str q) n w Hs Hw)
    as (df & bytes & root' & Hdf & Hst & Hwr & Hret & Hfs).
  split; [exact Hret|]. exists df, bytes. split; [exact Hdf|].
  split; [exact Hst|]. rewrite Hfs.
  rewrite (file_content_after_write _ _ _ _ q q Hwr R).
  now destruct (list_eq_dec string_dec q q).
Qed.

(** X11: a file name that names a directory is not reported as not found:
    the existence test passes and the load fails, so [summarize_csv_file]
    and [analyze_csv_data] answer with their read-error sentence.  The
    empty file name is such a name: it names the data directory itself. *)
Theorem X11_a_directory_gives_a_read_error (root : node) (filename : string) :
  path_is_dir root (target filename) = true ->
  summarize_csv_file script_dir root filename
  = Ok ("Error reading CSV file '" ++ filename ++ "': "
          ++ exn_str (err_is_dir (target filename)))%string /\
  (forall operation,
      analyze_csv_data script_dir root filename operation
      = Ok ("Error analyzing " ++ filename ++ ": "
              ++ exn_str (err_is_dir (target filename)))%string) /\
  summarize_csv_file script_dir root filename <> Ok (not_found_text filename).
Proof.
  unfold path_is_dir. intros H.
  destruct (resolve root (target filename)) as [q|] eqn:R; [|discriminate].
  unfold is_dir in H.
  destruct (lookup root q) as [[x|es]|] eqn:L; try discriminate.
  assert (Hex : exists_ root (target filename) = true)
    by (unfold exists_; now rewrite R, L).
  assert (Hrd : pd_read_csv root (target filename)
                = Raise (err_is_dir (target filename)))
    by (unfold pd_read_csv, read_file; now rewrite R, L).
  unfold summarize_csv_file.
  rewrite (read_csv_summary_load_failure script_dir root filename _ Hex Hrd).
  split; [reflexivity|]. split.
  - intros operation. now apply analyze_load_failure.
  - unfold not_found_text. cbn [append]. intros [= E]. 
Qed.

Lemma empty_name_is_the_data_directory : target "" = DATA.
Proof. unfold Pathlib.joinpath. cbn. apply app_nil_r. Qed.
End AbsoluteNames.

(* ================================================================= *)
(** * The start of the process *)

Section Startup.
Import PyStr PyStrFacts FS FSFacts TreeFacts PathFacts Sample SampleFacts.
Local Open Scope list_scope.

Context {pd : Pandas}.
Variable script_dir : path.

Local Abbreviation DATA := (DATA_DIR script_dir).
Local Abbreviation target f := (Pathlib.joinpath (DATA_DIR script_dir) f).

Lemma with_fs_same (w : world) : with_fs w (fs w) = w.
Proof. now destruct w. Qed.

(** X12: when [DATA_DIR.mkdir(exist_ok=True)] succeeds, the data directory
    is a directory, every regular file has the content it had, every
    directory is still one, and doing it again changes nothing. *)
Theorem X12_ensure_data_dir_is_idempotent (w w' : world) :
  ensure_data_dir script_dir w = (Ok tt, w') ->
  path_is_dir (fs w') DATA = true /\
  (forall x, file_content (fs w') x = file_content (fs w) x) /\
  (forall x, is_dir (fs w) x = true -> is_dir (fs w') x = true) /\
  ensure_data_dir script_dir w' = (Ok tt, w').
Proof.
  unfold ensure_data_dir, mkdir_exist_ok, os_mkdir.
  destruct (resolve (fs w) DATA) as [q|] eqn:R;
    [|unfold path_is_dir; rewrite R;
      destruct (String.eqb _ _); discriminate].
  destruct (lookup (fs w) q) as [m|] eqn:L.
  - cbn [exn_class err_exists String.eqb Ascii.eqb Bool.eqb].
    destruct (path_is_dir (fs w) DATA) eqn:D; [|discriminate].
    intros [= <-]. rewrite with_fs_same.
    repeat split; auto.
    rewrite R, L. cbn [exn_class err_exists String.eqb Ascii.eqb Bool.eqb].
    now rewrite D, with_fs_same.
  - destruct (is_dir (fs w) (Pathlib.parent q)) eqn:P; [|discriminate].
    intros [= <-]. cbn [fs with_fs].
    assert (Hq : q <> []) by (intros ->; discriminate L).
    assert (Hd : is_dir (fs w) q = false) by (unfold is_dir; now rewrite L).
    assert (M : forall x, is_dir (fs w) x = true ->
                          is_dir (place q (Dir []) (fs w)) x = true)
      by (intros x; now apply is_dir_place_absent).
    assert (R' : resolve (place q (Dir []) (fs w)) DATA = Some q)
      by (rewrite (walk_resolve _ _ (resolve_fits _ _ _ R));
          apply (walk_mono (fs w)); [exact M | now apply resolve_walk]).
    assert (L' : lookup (place q (Dir []) (fs w)) q = Some (Dir []))
      by now apply lookup_place.
    split; [|split; [|split]].
    + unfold path_is_dir, is_dir. now rewrite R', L'.
    + intros x. destruct (list_eq_dec string_dec x q) as [->|Hx].
      * unfold file_content. now rewrite L, L'.
      * now apply file_content_place; [apply leaf_empty_dir | |].
    + exact M.
    + rewrite R', L'.
      cbn [exn_class err_exists String.eqb Ascii.eqb Bool.eqb].
      unfold path_is_dir, is_dir. now rewrite R', L'.
Qed.

(** The table of the [__main__] block. *)
Lemma seed_frame :
  exists df,
    Frame.from_dict sample_data = Ok df /\
    columns df = seed_names /\ Frame.len df = 5 /\ Frame.plain_frame df.
Proof.
  eexists. split; [reflexivity|]. split; [reflexivity|].
  split; [reflexivity|]. unfold Frame.plain_frame. cbn [columns rows map].
  split; [cbn; lia|]. split.
  - repeat constructor; cbn; intuition discriminate.
  - split; [repeat constructor|]. split; [repeat constructor|].
    intros j Hj. cbn in Hj.
    do 4 (destruct j as [|j]; [reflexivity|]). lia.
Qed.

Lemma read_file_content (root : node) (p q : path) (c : string) :
  resolve root p = Some q -> file_content root q = Some c ->
  exists_ root p = true /\ read_file root p = Ok c.
Proof.
  unfold file_content, exists_, read_file. intros -> H.
  destruct (lookup root q) as [[x|es]|]; try discriminate.
  injection H as ->. now split.
Qed.

(** A name put after a path: where it resolves. *)
Lemma resolve_child (root : node) (base : path) (name : string) (q : path) :
  name <> ".."%string ->
  resolve root (base ++ [name]) = Some q ->
  exists d, resolve root base = Some d /\ q = d ++ [name].
Proof.
  intros Hn H. destruct (resolve_prefix _ _ _ _ H) as (d & Rd & W).
  exists d. split; [exact Rd|]. cbn [walk] in W.
  destruct (valid_component name && is_dir root d); [|discriminate].
  destruct (String.eqb_spec name ".."); [contradiction|]. congruence.
Qed.

Lemma main_unfold (w : world) :
  main script_dir w
  = match path_exists (fs w) (target "sample.csv") with
    | Raise e => (Raise e, w)
    | Ok true => (Ok tt, w)
    | Ok false =>
      match Frame.from_dict sample_data with
      | Raise e => (Raise e, w)
      | Ok df =>
          match write_file (fs w) (target "sample.csv") (render_csv df) with
          | Raise e => (Raise e, w)
          | Ok root1 =>
              match render_parquet df with
              | Raise e => (Raise e, with_fs w root1)
              | Ok bytes =>
                  match write_file root1 (target "sample.parquet") bytes with
                  | Raise e => (Raise e, with_fs w root1)
                  | Ok root2 => (Ok tt, with_fs (with_fs w root1) root2)
                  end
              end
          end
      end
    end.
Proof.
  unfold main. unfold St.bind at 1, St.read_only.
  destruct (path_exists (fs w) (target "sample.csv")) as [[|]|e];
    [reflexivity| |reflexivity].
  cbn [negb]. unfold St.bind at 1, St.lift.
  destruct (Frame.from_dict sample_data) as [df|e]; [|reflexivity].
  unfold St.bind at 1, df_to_csv.
  destruct (write_file (fs w) (target "sample.csv") (render_csv df))
    as [root1|e]; [|reflexivity].
  unfold St.bind, df_to_parquet. cbn [fs with_fs].
  destruct (render_parquet df) as [bytes|e]; [|reflexivity].
  now destruct (write_file root1 (target "sample.parquet") bytes).
Qed.

(** X13: when [sample.csv] is absent and both sample files can be written,
    the [__main__] block writes them, and the two summaries then report 5
    rows and the 4 columns id, name, email, signup_date. *)
Theorem X13_main_seeds_the_samples (w : world) :
  exists_ (fs w) (target "sample.csv") = false ->
  writable (fs w) (target "sample.csv") = true ->
  writable (fs w) (target "sample.parquet") = true ->
  fst (main script_dir w) = Ok tt /\
  summarize_csv_file script_dir (fs (snd (main script_dir w))) "sample.csv"
  = Ok (summary_text "CSV" "sample.csv" "5" seed_names) /\
  summarize_parquet_file script_dir (fs (snd (main script_dir w)))
    "sample.parquet"
  = Ok (summary_text "Parquet" "sample.parquet" "5" seed_names).
Proof.
  intros Hno Hw1 Hw2. rewrite main_unfold.
  destruct seed_frame as (df & -> & Hc & Hl & Hp).
  destruct (write_file_ok _ _ (render_csv df) Hw1)
    as (q1 & R1 & _ & _ & _ & E1).
  rewrite (path_exists_resolved _ _ _ R1), Hno.
  rewrite E1. set (root1 := put q1 (render_csv df) (fs w)) in *.
  destruct (parquet_round_trip df Hp) as (bytes & dfp & Hrender & Hparse & Hlp & Hcp).
  rewrite Hrender.
  destruct (writable_after_write _ _ _ (target "sample.parquet") _ E1)
    as [Rsame Dsame].
  assert (Hw2' : writable root1 (target "sample.parquet") = true).
  { unfold writable in *. rewrite Rsame.
    destruct (resolve (fs w) (target "sample.parquet")) as [[|c q]|];
      try discriminate. now rewrite !Dsame. }
  destruct (write_file_ok _ _ bytes Hw2') as (q2 & R2 & _ & _ & _ & E2).
  rewrite E2. cbn [fst snd fs with_fs].
  set (root2 := put q2 bytes root1) in *.
  split; [reflexivity|]. split.
  - destruct (writable_after_write _ _ _ (target "sample.csv") _ E2)
      as [Rcsv _].
    destruct (writable_after_write _ _ _ (target "sample.csv") _ E1)
      as [Rcsv1 _].
    assert (Hq : q1 <> q2).
    { rewrite Rsame in R2.
      destruct (resolve_child (fs w) DATA "sample.csv" q1) as (d1 & D1 & ->);
        [discriminate | exact R1 |].
      destruct (resolve_child (fs w) DATA "sample.parquet" q2)
        as (d2 & D2 & ->); [discriminate | exact R2 |].
      assert (d1 = d2) as -> by congruence.
      intros E. apply app_inv_head in E. discriminate E. }
    assert (F1 : file_content root1 q1 = Some (render_csv df)).
    { rewrite (file_content_after_write _ _ _ _ q1 q1 E1 R1).
      now destruct (list_eq_dec string_dec q1 q1). }
    assert (F2 : file_content root2 q1 = Some (render_csv df)).
    { rewrite (file_content_after_write _ _ _ _ q2 q1 E2 R2).
      now destruct (list_eq_dec string_dec q1 q2). }
    destruct (read_file_content root2 (target "sample.csv") q1
                (render_csv df)) as [Hex Hrd]; [congruence | exact F2 |].
    destruct (csv_round_trip df Hp) as (df' & Hparse' & Hl' & Hc').
    unfold summarize_csv_file.
    rewrite (read_csv_summary_loaded script_dir root2 "sample.csv" df' Hex).
    + now rewrite Hl', Hl, Hc', Hc.
    + unfold pd_read_csv. rewrite Hrd. exact Hparse'.
  - destruct (read_after_write _ _ _ _ E2) as (Hex & _ & q & Hq & Hlq).
    unfold summarize_parquet_file.
    rewrite (read_parquet_summary_loaded script_dir root2 "sample.parquet" dfp
               Hex).
    + now rewrite Hlp, Hl, Hcp, Hc.
    + unfold pd_read_parquet. rewrite Hq, Hlq. exact Hparse.
Qed.

(** X14: the [__main__] block leaves an existing [sample.csv] and all the
    rest alone, even when [sample.parquet] is missing; and whatever a
    first run did, a second run changes nothing more. *)
Theorem X14_main_runs_once (w : world) :
  (exists_ (fs w) (target "sample.csv") = true ->
   main script_dir w = (Ok tt, w)) /\
  fs (snd (main script_dir (snd (main script_dir w))))
  = fs (snd (main script_dir w)).
Proof.
  split; [intros H; now rewrite main_unfold, (path_exists_true _ _ H)|].
  assert (Skip : forall v, exists_ (fs v) (target "sample.csv") = true ->
                           fs (snd (main script_dir v)) = fs v)
    by (intros v H; now rewrite main_unfold, (path_exists_true _ _ H)).
  destruct seed_frame as (df & Hdf & _).
  rewrite (main_unfold w), Hdf.
  destruct (path_exists_cases (fs w) (target "sample.csv"))
    as [[_ Epe]|[_ Epe]]; rewrite Epe;
    [|cbn [snd]; now rewrite main_unfold, Epe].
  destruct (exists_ (fs w) (target "sample.csv")) eqn:Hex;
    [now apply Skip|].
  destruct (write_file (fs w) (target "sample.csv") (render_csv df))
    as [root1|e] eqn:E1.
  - destruct (read_after_write _ _ _ _ E1) as (Hex1 & _).
    destruct (render_parquet df) as [bytes|e]; [|apply Skip; exact Hex1].
    destruct (write_file root1 (target "sample.parquet") bytes)
      as [root2|e] eqn:E2; [|apply Skip; exact Hex1].
    apply Skip. cbn [snd fs with_fs].
    now apply (exists_after_write root1 root2 _ _ bytes E2).
  - cbn [snd]. now rewrite main_unfold, Epe, Hdf, E1.
Qed.
End Startup.

Section FreshStart.
Import PyStr PyStrFacts FS FSFacts TreeFacts PathFacts Sample SampleFacts.
Local Open Scope list_scope.

Context {pd : Pandas}.
Variable script_dir : path.

Local Abbreviation DATA := (DATA_DIR script_dir).
Local Abbreviation target f := (Pathlib.joinpath (DATA_DIR script_dir) f).

(** A new name in an existing directory: where it resolves. *)
Lemma resolve_new_child (root : node) (base : path) (name : string) es :
  forallb clean_component base = true ->
  clean_component name = true ->
  fits (base ++ [name]) = true ->
  lookup root base = Some (Dir es) ->
  resolve root (base ++ [name]) = Some (base ++ [name]) /\
  lookup root (base ++ [name]) = get_entry name es /\
  is_dir root (Pathlib.parent (base ++ [name])) = true.
Proof.
  intros Hb Hn Hf L. destruct (clean_elim name Hn) as (_ & _ & Hdd & Hv).
  split; [|split].
  - rewrite walk_resolve by assumption. rewrite walk_app.
    rewrite (walk_existing root base Hb [] (Dir es) L).
    change ([] ++ base) with base. cbn [walk].
    unfold is_dir. rewrite L, Hv. cbn [andb].
    now destruct (String.eqb_spec name "..").
  - rewrite lookup_app, L. cbn [lookup]. now destruct (get_entry name es).
  - unfold Pathlib.parent. rewrite removelast_last. unfold is_dir.
    now rewrite L.
Qed.

Lemma snoc_not_nil {A} (l : list A) (x : A) : l ++ [x] <> [].
Proof. now destruct l. Qed.

Lemma write_new_child (root : node) (base : path) (name c : string) es :
  forallb clean_component base = true ->
  clean_component name = true ->
  fits (base ++ [name]) = true ->
  lookup root base = Some (Dir es) ->
  get_entry name es = None ->
  exists_ root (base ++ [name]) = false /\
  write_file root (base ++ [name]) c = Ok (put (base ++ [name]) c root) /\
  lookup (put (base ++ [name]) c root) base
  = Some (Dir (upsert name (File c) es)).
Proof.
  intros Hb Hn Hf L G.
  destruct (resolve_new_child root base name es Hb Hn Hf L) as (R & Lc & P).
  rewrite G in Lc. split; [|split].
  - unfold exists_. now rewrite R, Lc.
  - unfold write_file. rewrite R.
    destruct (base ++ [name]) as [|x xs] eqn:E;
      [now destruct (snoc_not_nil base name)|].
    unfold is_dir at 1. now rewrite Lc, P.
  - rewrite put_place. now apply lookup_place_parent.
Qed.

Lemma mkdir_new_child (root : node) (base : path) (name : string) es :
  forallb clean_component base = true ->
  clean_component name = true ->
  fits (base ++ [name]) = true ->
  lookup root base = Some (Dir es) ->
  get_entry name es = None ->
  mkdir_exist_ok root (base ++ [name])
  = Ok (place (base ++ [name]) (Dir []) root) /\
  lookup (place (base ++ [name]) (Dir []) root) base
  = Some (Dir (upsert name (Dir []) es)).
Proof.
  intros Hb Hn Hf L G.
  destruct (resolve_new_child root base name es Hb Hn Hf L) as (R & Lc & P).
  rewrite G in Lc. split.
  - unfold mkdir_exist_ok, os_mkdir. now rewrite R, Lc, P.
  - now apply lookup_place_parent.
Qed.

Lemma lookup_child (root : node) (base : path) (name : string) es :
  lookup root base = Some (Dir es) ->
  lookup root (base ++ [name])
  = match get_entry name es with Some m => Some m | None => None end.
Proof. intros L. rewrite lookup_app, L. reflexivity. Qed.

Lemma clean_data_dir :
  forallb clean_component script_dir = true ->
  forallb clean_component DATA = true.
Proof.
  intros H. rewrite DATA_DIR_eq, forallb_app, H. reflexivity.
Qed.

Lemma writable_new_child (root : node) (base : path) (name : string) es :
  forallb clean_component base = true ->
  clean_component name = true ->
  fits (base ++ [name]) = true ->
  lookup root base = Some (Dir es) ->
  get_entry name es = None ->
  writable root (base ++ [name]) = true.
Proof.
  intros Hb Hn Hf L G.
  destruct (resolve_new_child root base name es Hb Hn Hf L) as (R & Lc & P).
  rewrite G in Lc. unfold writable. rewrite R.
  destruct (base ++ [name]) as [|x xs] eqn:E;
    [now destruct (snoc_not_nil base name)|].
  unfold is_dir at 1. now rewrite Lc, P.
Qed.

(** The data directory after a start on a disk that had none. *)
Lemma fits_in_data (name : string) :
  String.length name <= 14 ->
  fits (target "sample.parquet") = true ->
  fits (DATA ++ [name]) = true /\ fits DATA = true.
Proof.
  intros Hn Hf. change (target "sample.parquet")
    with (DATA ++ ["sample.parquet"%string]) in Hf.
  split; [now apply (fits_shorter DATA "sample.parquet" name)|].
  now apply (fits_app DATA ["sample.parquet"%string]).
Qed.

Lemma fresh_start (w : world) es :
  forallb clean_component script_dir = true ->
  fits (target "sample.parquet") = true ->
  lookup (fs w) script_dir = Some (Dir es) ->
  get_entry "data" es = None ->
  exists w2 c1 c2,
    start script_dir w = (Ok tt, w2) /\
    lookup (fs w2) DATA
    = Some (Dir [("sample.csv"%string, File c1);
                 ("sample.parquet"%string, File c2)]).
Proof.
  intros Hs Hf L G. pose proof (clean_data_dir Hs) as Hd.
  destruct (fits_in_data "sample.csv" ltac:(cbn; lia) Hf) as [Hf1 Hf0].
  destruct (mkdir_new_child (fs w) script_dir "data" es Hs eq_refl Hf0 L G)
    as [M L0].
  fold (DATA_DIR script_dir) in *.
  change (script_dir ++ ["data"%string]) with DATA in *.
  set (root0 := place DATA (Dir []) (fs w)) in *.
  assert (D0 : lookup root0 DATA = Some (Dir [])).
  { rewrite DATA_DIR_eq, (lookup_child root0 script_dir "data" _ L0).
    now rewrite get_entry_upsert, String.eqb_refl. }
  destruct seed_frame as (df & Hdf & _ & _ & Hp).
  destruct (parquet_round_trip df Hp) as (bytes & _ & Hrender & _).
  destruct (write_new_child root0 DATA "sample.csv" (render_csv df) []
              Hd eq_refl Hf1 D0 eq_refl) as (X1 & W1 & D1).
  set (root1 := put (DATA ++ ["sample.csv"%string]) (render_csv df) root0) in *.
  destruct (write_new_child root1 DATA "sample.parquet" bytes _
              Hd eq_refl Hf D1 eq_refl) as (_ & W2 & D2).
  set (root2 := put (DATA ++ ["sample.parquet"%string]) bytes root1) in *.
  exists (with_fs (with_fs (with_fs w root0) root1) root2), (render_csv df),
    bytes.
  split; [|exact D2].
  unfold start, St.bind, ensure_data_dir. rewrite M.
  rewrite main_unfold. cbn [fs with_fs].
  change (target "sample.csv") with (DATA ++ ["sample.csv"%string]).
  change (target "sample.parquet") with (DATA ++ ["sample.parquet"%string]).
  destruct (write_file_inv _ _ _ _ W1) as (_ & q1 & R1 & _).
  rewrite (path_exists_resolved _ _ _ R1), X1.
  now rewrite Hdf, W1, Hrender, W2.
Qed.

Lemma listing_of (root : node) es :
  forallb clean_component script_dir = true ->
  fits DATA = true ->
  lookup root DATA = Some (Dir es) ->
  list_data_files script_dir root
  = match es with
    | [] => Ok no_files_text
    | _ => Ok ("Available data files: " ++ join ", " (regular_names es))%string
    end.
Proof.
  intros Hs Hf L. rewrite list_data_files_cases. unfold glob_star.
  assert (R : resolve root DATA = Some DATA)
    by (rewrite walk_resolve by assumption;
        exact (walk_existing root DATA (clean_data_dir Hs) [] _ L)).
  rewrite R, L. now destruct es.
Qed.

(** X15: on a disk where the directory of the script exists and holds no
    entry [data], and lies no deeper than that the path of the sample
    files is within [PATH_MAX], the start succeeds, and [list_data_files]
    then answers with the heading and the names of the two sample files,
    in some order, and no other. *)
Theorem X15_fresh_start_lists_the_samples (w : world) es :
  forallb clean_component script_dir = true ->
  fits (target "sample.parquet") = true ->
  lookup (fs w) script_dir = Some (Dir es) ->
  get_entry "data" es = None ->
  fst (start script_dir w) = Ok tt /\
  exists names,
    list_data_files script_dir (fs (snd (start script_dir w)))
    = Ok ("Available data files: " ++ join ", " names)%string /\
    Permutation names ["sample.csv"; "sample.parquet"]%string.
Proof.
  intros Hs Hf L G.
  destruct (fresh_start w es Hs Hf L G) as (w2 & c1 & c2 & -> & D).
  destruct (fits_in_data "sample.csv" ltac:(cbn; lia) Hf) as [_ Hf0].
  split; [reflexivity|]. cbn [snd]. eexists.
  rewrite (listing_of _ _ Hs Hf0 D). split; reflexivity.
Qed.

(** X20: the calls of [interactive_demo], made to a server freshly started
    on a disk without data directory (and with the sample files within
    [PATH_MAX]), leave three files: the listing names sample.csv,
    sample.parquet and test_data.csv and no other, and test_data.csv is
    summarized as 3 rows and the 5 generated columns. *)
Theorem X20_demo_on_a_fresh_server (w : world) es :
  forallb clean_component script_dir = true ->
  fits (target "sample.parquet") = true ->
  lookup (fs w) script_dir = Some (Dir es) ->
  get_entry "data" es = None ->
  (exists names,
      list_data_files script_dir
        (fs (run script_dir Client.demo (snd (start script_dir w))))
      = Ok ("Available data files: " ++ join ", " names)%string /\
      Permutation names
        ["sample.csv"; "sample.parquet"; "test_data.csv"]%string) /\
  summarize_csv_file script_dir
    (fs (run script_dir Client.demo (snd (start script_dir w))))
    "test_data.csv"
  = Ok (summary_text "CSV" "test_data.csv" "3" sample_names).
Proof.
  intros Hs Hf L G.
  destruct (fresh_start w es Hs Hf L G) as (w2 & c1 & c2 & -> & D).
  destruct (fits_in_data "test_data.csv" ltac:(cbn; lia) Hf) as [Hf3 Hf0].
  pose proof (clean_data_dir Hs) as Hd.
  cbn [snd Client.demo run invoke St.read_only].
  assert (Hw : writable (fs w2) (target "test_data.csv") = true)
    by exact (writable_new_child (fs w2) DATA "test_data.csv" _
                Hd eq_refl Hf3 D eq_refl).
  split.
  - destruct (create_writes script_dir "test_data.csv" 3 w2 eq_refl Hw)
      as (df & bytes & root' & _ & _ & Hwr & _ & ->).
    destruct (write_new_child (fs w2) DATA "test_data.csv" bytes _
                Hd eq_refl Hf3 D eq_refl) as (_ & W & D3).
    change (target "test_data.csv") with (DATA ++ ["test_data.csv"%string])
      in Hwr.
    rewrite W in Hwr. injection Hwr as <-. eexists.
    rewrite (listing_of _ _ Hs Hf0 D3). split; reflexivity.
  - destruct (read_back_csv script_dir "test_data.csv" 3 w2 eq_refl Hw)
      as (_ & df' & Hex & Hrd & Hl & Hc).
    unfold summarize_csv_file.
    rewrite (read_csv_summary_loaded script_dir _ "test_data.csv" df' Hex Hrd).
    now rewrite Hl, Hc.
Qed.
End FreshStart.

(* ================================================================= *)
(** * The interactive client *)

Module ClientFacts.
Import PyStr PyStrFacts Client.
Local Open Scope list_scope.

(** *** Characters *)

(** Decoding reads the bytes of one character and no more. *)
Lemma decode_app (s t : string) (x : N * nat) :
  decode s = Some x -> decode (s ++ t) = Some x.
Proof.
  destruct s as [|b0 s0]; [discriminate|]. cbn [append].
  unfold decode. cbv zeta.
  destruct (N_of_ascii b0 <? 128)%N; [auto|].
  destruct ((194 <=? N_of_ascii b0) && (N_of_ascii b0 <? 224))%N.
  { destruct s0 as [|b1 s1]; [discriminate|]. cbn [append]. auto. }
  destruct ((224 <=? N_of_ascii b0) && (N_of_ascii b0 <? 240))%N.
  { destruct s0 as [|b1 [|b2 s2]]; try discriminate. cbn [append]. auto. }
  destruct ((240 <=? N_of_ascii b0) && (N_of_ascii b0 <? 245))%N;
    [|discriminate].
  destruct s0 as [|b1 [|b2 [|b3 s3]]]; try discriminate. cbn [append]. auto.
Qed.

(** A space that follows a text completes no character of it. *)
Lemma decode_before_space (s r : string) :
  s <> ""%string -> decode (s ++ String " " r) = decode s.
Proof.
  destruct s as [|b0 s0]; [contradiction|]. intros _. cbn [append].
  unfold decode. cbv zeta.
  destruct (N_of_ascii b0 <? 128)%N; [reflexivity|].
  destruct ((194 <=? N_of_ascii b0) && (N_of_ascii b0 <? 224))%N.
  { destruct s0 as [|b1 s1]; reflexivity. }
  destruct ((224 <=? N_of_ascii b0) && (N_of_ascii b0 <? 240))%N.
  { destruct s0 as [|b1 [|b2 s2]]; cbn [append]; try reflexivity.
    - now destruct r.
    - change (continuation " ") with false. now rewrite andb_false_r. }
  destruct ((240 <=? N_of_ascii b0) && (N_of_ascii b0 <? 245))%N;
    [|reflexivity].
  destruct s0 as [|b1 [|b2 [|b3 s3]]]; cbn [append]; try reflexivity.
  - destruct r as [|x [|y r]]; reflexivity.
  - change (continuation " ") with false.
    destruct r; now rewrite ?andb_false_r.
  - change (continuation " ") with false. now rewrite andb_false_r.
Qed.

Lemma space_at_app (s t : string) (n : nat) :
  space_at s = Some n -> space_at (s ++ t) = Some n.
Proof.
  unfold space_at. destruct (decode s) as [[cp k]|] eqn:E; [|discriminate].
  now rewrite (decode_app s t _ E).
Qed.

Lemma space_at_before_space (s r : string) :
  s <> ""%string -> space_at (s ++ String " " r) = space_at s.
Proof. intros H. unfold space_at. now rewrite decode_before_space. Qed.

Lemma space_at_space (r : string) : space_at (String " " r) = Some 1.
Proof. reflexivity. Qed.

(** *** Numerals *)

Lemma valid_digits_after (d : uint) :
  valid_digits true (NilEmpty.string_of_uint d) = true.
Proof. induction d; cbn; auto. Qed.

Lemma valid_digits_uint (d : uint) (b : bool) :
  d <> Nil -> valid_digits b (NilEmpty.string_of_uint d) = true.
Proof.
  destruct d; intros H; [contradiction|..]; cbn; apply valid_digits_after.
Qed.

Lemma drop_underscores_uint (d : uint) :
  drop_underscores (NilEmpty.string_of_uint d) = NilEmpty.string_of_uint d.
Proof. induction d; cbn; congruence. Qed.

Lemma digits_value_uint (d : uint) :
  digits_value (NilZero.string_of_uint d) = Some (Z.of_uint d).
Proof.
  destruct d eqn:E; [reflexivity|..]; rewrite <- E;
    (assert (Hd : d <> Nil) by (rewrite E; discriminate));
    unfold NilZero.string_of_uint;
    (replace (match d with Nil => "0"%string | _ => NilEmpty.string_of_uint d end)
       with (NilEmpty.string_of_uint d) by (rewrite E; reflexivity));
    unfold digits_value;
    now rewrite valid_digits_uint, drop_underscores_uint, NilEmpty.usu.
Qed.

Lemma signed_value_uint (d : uint) :
  signed_value (NilZero.string_of_uint d) = Some (Z.of_uint d).
Proof.
  rewrite <- digits_value_uint. now destruct d.
Qed.

Lemma signed_value_str (n : Z) : signed_value (str_of_Z n) = Some n.
Proof.
  rewrite <- (DecimalZ.of_to n) at 2. unfold str_of_Z.
  destruct (Z.to_int n) as [d|d]; cbn [NilZero.string_of_int Z.of_int].
  - apply signed_value_uint.
  - cbn [signed_value Ascii.eqb]. now rewrite digits_value_uint.
Qed.

(** The characters of a numeral are ASCII and not whitespace. *)
Lemma numeral_low (c : ascii) :
  numeral_char c = true ->
  (N_of_ascii c <? 127)%N = true /\ c_space c = false /\
  isspace (N_of_ascii c) = false.
Proof.
  destruct c as [[] [] [] [] [] [] [] []]; vm_compute; intros H;
    first [now repeat split | discriminate H].
Qed.

Lemma decode_low (c : ascii) (r : string) :
  (N_of_ascii c <? 127)%N = true ->
  decode (String c r) = Some (N_of_ascii c, 1).
Proof.
  intros H. unfold decode. cbv zeta.
  replace (N_of_ascii c <? 128)%N with true; [reflexivity|].
  symmetry. apply N.ltb_lt. apply N.ltb_lt in H. lia.
Qed.

Lemma transform_numeral (s : string) :
  Frame.all_chars numeral_char s = true -> transform s = s.
Proof.
  unfold transform. induction s as [|c s IH]; [reflexivity|].
  cbn [Frame.all_chars]. intros H. apply andb_true_iff in H.
  destruct H as [Hc Hs]. destruct (numeral_low c Hc) as (Hlow & _).
  cbn [transform_from]. rewrite (decode_low c s Hlow), Hlow.
  now rewrite (IH Hs).
Qed.

Lemma no_space_numeral (s : string) :
  Frame.all_chars numeral_char s = true -> no_space s = true.
Proof.
  induction s as [|c s IH]; [reflexivity|].
  cbn [Frame.all_chars]. intros H. apply andb_true_iff in H.
  destruct H as [Hc Hs]. destruct (numeral_low c Hc) as (Hlow & _ & Hsp).
  cbn [no_space]. unfold space_at. rewrite (decode_low c s Hlow), Hsp.
  now apply IH.
Qed.

Lemma word_str_of_Z (n : Z) : word (str_of_Z n).
Proof.
  split; [apply str_of_Z_nonempty|].
  apply no_space_numeral, str_of_Z_numeral.
Qed.

Lemma lstrip_c_numeral (s : string) :
  Frame.all_chars numeral_char s = true -> lstrip_c s = s.
Proof.
  destruct s as [|c s]; [reflexivity|]. cbn [Frame.all_chars lstrip_c].
  intros H. apply andb_true_iff in H. destruct H as [Hc _].
  destruct (numeral_low c Hc) as (_ & -> & _). reflexivity.
Qed.

Lemma rstrip_c_numeral (s : string) :
  Frame.all_chars numeral_char s = true -> rstrip_c s = s.
Proof.
  induction s as [|c s IH]; [reflexivity|].
  cbn [Frame.all_chars rstrip_c]. intros H.
  apply andb_true_iff in H. destruct H as [Hc Hs].
  destruct (numeral_low c Hc) as (_ & -> & _). now rewrite (IH Hs).
Qed.

Lemma count_digit_run (s : string) :
  count_digits (digit_run s) <= count_digits s.
Proof.
  induction s as [|c s IH]; [reflexivity|]. cbn [digit_run count_digits].
  destruct (is_digit c) eqn:D; cbn [orb count_digits].
  - rewrite D. lia.
  - destruct (Ascii.eqb c "_"); cbn [count_digits]; [rewrite D|]; lia.
Qed.

Lemma count_unsigned (t : string) :
  count_digits (unsigned t) <= count_digits t.
Proof.
  destruct t as [|c r]; [reflexivity|].
  destruct c as [[] [] [] [] [] [] [] []]; cbn [unsigned];
    try reflexivity; cbn [count_digits]; destruct (is_digit _); lia.
Qed.

(** [int] reads back the decimal numeral of a number, when it has no more
    digits than the limit. *)
Lemma int_str_of_Z (n : Z) :
  count_digits (str_of_Z n) <= int_max_str_digits ->
  Client.int (str_of_Z n) = Ok n.
Proof.
  intros H. unfold Client.int. cbv zeta.
  pose proof (str_of_Z_numeral n) as Hn.
  rewrite (transform_numeral _ Hn), (lstrip_c_numeral _ Hn),
    (rstrip_c_numeral _ Hn), signed_value_str.
  replace (int_max_str_digits
           <? count_digits (digit_run (unsigned (str_of_Z n))))%nat
    with false.
  - now rewrite andb_false_r.
  - symmetry. apply Nat.ltb_ge.
    pose proof (count_digit_run (unsigned (str_of_Z n))).
    pose proof (count_unsigned (str_of_Z n)). lia.
Qed.


(** *** Whitespace at the ends *)

Lemma no_space_cons (c : ascii) (w : string) :
  no_space (String c w) = true ->
  space_at (String c w) = None /\ no_space w = true.
Proof.
  cbn [no_space]. destruct (space_at (String c w)); [discriminate|].
  now split.
Qed.

Lemma lstrip_head (s : string) : space_at s = None -> lstrip s = s.
Proof.
  destruct s as [|c r]; [reflexivity|]. unfold lstrip. cbn [lstrip_from].
  now intros ->.
Qed.

Lemma lstrip_word (w : string) : no_space w = true -> lstrip w = w.
Proof.
  destruct w as [|c w]; [reflexivity|]. intros H.
  apply lstrip_head. now apply no_space_cons.
Qed.

Lemma rstrip_word (w : string) : no_space w = true -> rstrip w = w.
Proof.
  induction w as [|c w IH]; [reflexivity|]. intros H.
  cbn [rstrip]. rewrite (lstrip_word _ H).
  destruct (no_space_cons c w H) as [_ Hw].
  cbn [String.eqb]. now rewrite (IH Hw).
Qed.

(** A text with nothing to strip. *)
Definition trimmed (s : string) : Prop :=
  rstrip s = s /\ lstrip s = s /\ s <> ""%string.

Lemma strip_trimmed (s : string) : trimmed s -> strip s = s.
Proof. intros (R & L & _). unfold strip. now rewrite L. Qed.

Lemma trimmed_word (w : string) : word w -> trimmed w.
Proof.
  intros [Hne Hw]. split; [now apply rstrip_word|].
  split; [now apply lstrip_word | exact Hne].
Qed.

Lemma rstrip_before (w r : string) :
  no_space w = true -> trimmed r ->
  rstrip (w ++ String " " r)%string = (w ++ String " " r)%string.
Proof.
  intros Hw (R & L & Hne). induction w as [|c w IH]; cbn [append rstrip].
  - unfold lstrip at 1. cbn [lstrip_from]. rewrite space_at_space.
    cbn [Nat.sub]. fold (lstrip r). rewrite L.
    destruct (String.eqb_spec r ""); [contradiction|]. now rewrite R.
  - destruct (no_space_cons c w Hw) as [Hc Hw'].
    rewrite lstrip_head.
    + cbn [String.eqb]. now rewrite (IH Hw').
    + change (String c (w ++ String " " r))
        with (String c w ++ String " " r)%string.
      rewrite space_at_before_space; [exact Hc | discriminate].
Qed.

Lemma trimmed_cons (w r : string) :
  word w -> trimmed r -> trimmed (w ++ String " " r)%string.
Proof.
  intros [Hne Hw] Hr. split; [now apply rstrip_before|]. split.
  - apply lstrip_head. rewrite space_at_before_space by assumption.
    destruct w as [|c w]; [contradiction|]. now apply no_space_cons.
  - destruct w; discriminate.
Qed.

(** *** Words *)

Lemma pieces_word (w : string) :
  no_space w = true -> pieces_from 0 w = [w].
Proof.
  induction w as [|c w IH]; [reflexivity|]. intros H.
  destruct (no_space_cons c w H) as [Hc Hw].
  cbn [pieces_from]. now rewrite Hc, (IH Hw).
Qed.

Lemma pieces_word_then (w r : string) :
  no_space w = true ->
  pieces_from 0 (w ++ String " " r) = w :: pieces_from 0 r.
Proof.
  intros Hw. induction w as [|c w IH]; cbn [append].
  - cbn [pieces_from]. now rewrite space_at_space.
  - destruct (no_space_cons c w Hw) as [Hc Hw'].
    cbn [pieces_from].
    change (String c (w ++ String " " r))
      with (String c w ++ String " " r)%string.
    rewrite space_at_before_space by discriminate.
    change (String c w ++ String " " r)%string
      with (String c (w ++ String " " r)).
    now rewrite Hc, (IH Hw').
Qed.

(** Every piece is free of whitespace; the first one, when no character
    is being passed, is the head of the text. *)
Lemma pieces_no_space (s : string) :
  forall k,
    Forall (fun w => no_space w = true) (pieces_from k s) /\
    (k = 0 -> exists w ws t, pieces_from 0 s = w :: ws /\ s = (w ++ t)%string).
Proof.
  induction s as [|c s IH]; intros k.
  - split; [now repeat constructor|]. intros _. now exists ""%string, [], ""%string.
  - destruct k as [|k]; cbn [pieces_from].
    + destruct (space_at (String c s)) as [n|] eqn:E.
      * split; [constructor; [reflexivity | apply IH]|].
        intros _. now exists ""%string, (pieces_from (n - 1) s), (String c s).
      * destruct (IH 0) as [Hall Hhead].
        destruct (Hhead eq_refl) as (w & ws & t & Ep & Es).
        rewrite Ep in *. apply Forall_cons_iff in Hall.
        destruct Hall as [Hw Hws].
        split.
        -- constructor; [|exact Hws]. cbn [no_space].
           destruct (space_at (String c w)) as [n|] eqn:Ew; [|exact Hw].
           apply (space_at_app _ t) in Ew. cbn [append] in Ew.
           rewrite <- Es in Ew. congruence.
        -- intros _. exists (String c w), ws, t. split; [reflexivity|].
           cbn [append]. now rewrite <- Es.
    + split; [apply IH | discriminate].
Qed.

Lemma split_words (s : string) : Forall word (Client.split s).
Proof.
  unfold Client.split. apply Forall_forall. intros w Hw.
  apply filter_In in Hw. destruct Hw as [Hin Hne].
  destruct (pieces_no_space s 0) as [H _].
  rewrite Forall_forall in H. split.
  - intros ->. discriminate Hne.
  - now apply H.
Qed.

Lemma split_word_then (w rest : string) :
  word w ->
  Client.split (w ++ String " "%char rest) = w :: Client.split rest.
Proof.
  intros [Hne Hw]. unfold Client.split.
  rewrite pieces_word_then by assumption.
  cbn [filter]. now destruct (String.eqb_spec w "").
Qed.

Lemma split_last_word (w : string) : word w -> Client.split w = [w].
Proof.
  intros [Hne Hw]. unfold Client.split.
  rewrite pieces_word by assumption.
  cbn [filter]. now destruct (String.eqb_spec w "").
Qed.

Lemma nth_word (parts : list string) (i : nat) :
  Forall word parts -> i < List.length parts -> word (nth i parts ""%string).
Proof. intros H Hi. rewrite Forall_forall in H. now apply H, nth_In. Qed.
End ClientFacts.

Module ClientProperties.
Import PyStr PyStrFacts Client ClientFacts.
Local Open Scope list_scope.

(** The cases of [react]. *)
Ltac react_cases :=
  unfold react; cbv zeta;
  repeat match goal with
         | |- context [if ?b then _ else _] => destruct b eqn:?
         | |- context [match Client.int ?s with _ => _ end] =>
             destruct (Client.int s) eqn:?
         end.

(** X16: the client chooses the summary tool by the suffix of the file
    name: it sends summarize_csv_file only for a name ending in .csv, and
    summarize_parquet_file only for a name ending in .parquet (and not in
    .csv); for any other name no request is sent. *)
Theorem X16_client_picks_the_summary_by_suffix (line f : string) :
  (react line = CallTool (summarize_csv_file_call f) ->
   endswith f ".csv" = true) /\
  (react line = CallTool (summarize_parquet_file_call f) ->
   endswith f ".parquet" = true /\ endswith f ".csv" = false).
Proof.
  split; react_cases; intros H; try discriminate H;
    injection H as <-; auto.
Qed.

(** X17: the file name the client sends is always one word of the line:
    it is not empty and holds no whitespace, so a file whose name has a
    space cannot be addressed. *)
Theorem X17_client_sends_only_words (line : string) (c : tool_call)
  (f : string) :
  react line = CallTool c -> call_filename c = Some f -> word f.
Proof.
  assert (W : forall s i k, (k <=? List.length (Client.split s))%nat = true ->
                            i < k -> word (nth i (Client.split s) ""%string)).
  { intros s i k H Hi. apply Nat.leb_le in H.
    apply nth_word; [apply split_words | lia]. }
  react_cases; intros H; try discriminate H; injection H as <-;
    cbn [call_filename]; intros E; try discriminate E; injection E as <-;
    unfold second; (eapply W; [eassumption | lia]).
Qed.






Lemma word_create : word "create".
Proof. split; [discriminate | reflexivity]. Qed.
Lemma word_analyze : word "analyze".
Proof. split; [discriminate | reflexivity]. Qed.
Lemma word_summarize : word "summarize".
Proof. split; [discriminate | reflexivity]. Qed.

(** X19: a well-formed line is sent as it was typed: [create f n], with
    [n] in decimal and of no more digits than [int] accepts, asks for
    [create_sample_data(f, n)]; [analyze f op] asks for
    [analyze_csv_data(f, op)]; [summarize f] with a name ending in .csv
    asks for [summarize_csv_file(f)]. *)
Theorem X19_what_is_typed_is_what_is_sent (f op : string) (n : Z) :
  word f -> word op ->
  count_digits (str_of_Z n) <= int_max_str_digits ->
  react ("create " ++ f ++ " " ++ str_of_Z n)
  = CallTool (create_sample_data_call f (Some n)) /\
  react ("analyze " ++ f ++ " " ++ op)
  = CallTool (analyze_csv_data_call f (Some op)) /\
  (endswith f ".csv" = true ->
   react ("summarize " ++ f) = CallTool (summarize_csv_file_call f)).
Proof.
  intros Hf Hop Hn. split; [|split].
  - unfold react. cbv zeta.
    change ("create " ++ f ++ " " ++ str_of_Z n)%string
      with ("create" ++ String " " (f ++ String " " (str_of_Z n)))%string.
    rewrite strip_trimmed
      by (apply trimmed_cons; [apply word_create|];
          apply trimmed_cons; [assumption|];
          apply trimmed_word, word_str_of_Z).
    rewrite (split_word_then "create") by apply word_create.
    rewrite (split_word_then f) by assumption.
    rewrite split_last_word by apply word_str_of_Z.
    cbn [List.length Nat.leb second third nth].
    now rewrite int_str_of_Z.
  - unfold react. cbv zeta.
    change ("analyze " ++ f ++ " " ++ op)%string
      with ("analyze" ++ String " " (f ++ String " " op))%string.
    rewrite strip_trimmed
      by (apply trimmed_cons; [apply word_analyze|];
          apply trimmed_cons; [assumption|];
          now apply trimmed_word).
    rewrite (split_word_then "analyze") by apply word_analyze.
    rewrite (split_word_then f) by assumption.
    rewrite split_last_word by assumption.
    reflexivity.
  - intros Hcsv. unfold react. cbv zeta.
    change ("summarize " ++ f)%string
      with ("summarize" ++ String " " f)%string.
    rewrite strip_trimmed
      by (apply trimmed_cons; [apply word_summarize|];
          now apply trimmed_word).
    rewrite (split_word_then "summarize") by apply word_summarize.
    rewrite split_last_word by assumption.
    cbn [List.length Nat.leb second nth]. rewrite Hcsv. reflexivity.
Qed.
End ClientProperties.

(* ================================================================= *)
(** * The further properties on the disks of [Fixture] *)

Module MoreRuns.
Import PyStr FS FSFacts PathFacts Sample SampleFacts Rows Fixture.
Import Client ClientProperties.
Local Open Scope list_scope.

Lemma X1_witness :
  exists df bytes q,
    resolve (fs w0) (Pathlib.joinpath (DATA_DIR app_dir) "t.csv") = Some q /\
    stored_as "t.csv" df bytes /\
    file_content (fs (snd (create_sample_data app_dir "t.csv" 3 w0))) q
    = Some bytes /\
    columns df = sample_names /\ Frame.len df = Z.to_nat 3 /\
    sample_rows (today w0) 3 df.
Proof.
  apply (@X1_created_file_holds_the_table simple_pandas app_dir "t.csv" 3 w0);
    reflexivity.
Defined.

Lemma X2_witness :
  fst (create_sample_data app_dir "t.csv" (-4) w0)
  = Ok ("Created " ++ "t.csv" ++ " with " ++ str_of_Z (-4)
          ++ " rows and 5 columns.")%string /\
  (endswith "t.csv" ".csv" = true ->
   summarize_csv_file app_dir
     (fs (snd (create_sample_data app_dir "t.csv" (-4) w0))) "t.csv"
   = Ok (summary_text "CSV" "t.csv" "0" sample_names)) /\
  (endswith "t.csv" ".csv" = false ->
   summarize_parquet_file app_dir
     (fs (snd (create_sample_data app_dir "t.csv" (-4) w0))) "t.csv"
   = Ok (summary_text "Parquet" "t.csv" "0" sample_names)).
Proof.
  apply (@X2_negative_rows_give_an_empty_table simple_pandas app_dir
           "t.csv" (-4) w0); [lia | reflexivity | reflexivity].
Defined.

Lemma X3_witness :
  analyze_csv_data app_dir
    (fs (snd (create_sample_data app_dir "t.csv" 3 w0))) "t.csv" "columns"
  = Ok ("Columns in " ++ "t.csv"
          ++ ": id, name, score, category, created_date")%string.
Proof.
  apply (@X3_columns_after_create simple_pandas app_dir "t.csv" 3 w0);
    reflexivity.
Defined.

Lemma X4_witness :
  exists names,
    list_data_files app_dir (fs (snd (create_sample_data app_dir "t.csv" 3 w0)))
    = Ok ("Available data files: " ++ join ", " names)%string /\
    In "t.csv"%string names.
Proof.
  apply (@X4_created_file_is_listed simple_pandas app_dir "t.csv" 3 w0).
  - cbn. intuition discriminate.
  - reflexivity.
  - reflexivity.
  - reflexivity.
  - reflexivity.
Defined.

Lemma X5_witness :
  file_content (fs (snd (create_sample_data app_dir "t.csv" 3 w0)))
    ["srv"; "app"; "data"; "sample.csv"]%string
  = file_content (fs w0) ["srv"; "app"; "data"; "sample.csv"]%string.
Proof.
  apply (@X5_create_changes_only_its_target simple_pandas app_dir "t.csv" 3 w0).
  intros q H. vm_compute in H. injection H as <-. discriminate.
Defined.

Lemma X7_witness :
  is_file
    (fs (run app_dir [create_sample_data_call "sample.csv" None;
                      create_sample_data_call "archive" (Some 2%Z);
                      list_data_files_call] w0))
    ["srv"; "app"; "data"; "sample.csv"]%string = true.
Proof.
  apply (@X7_sessions_remove_no_file simple_pandas app_dir). reflexivity.
Defined.

Lemma X8_witness :
  stat (fs (run app_dir [create_sample_data_call "t.csv" (Some 2%Z);
                         summarize_csv_file_call "../main.py";
                         create_sample_data_call "archive/u.parquet" None]
              w0)) hosts
  = stat (fs w0) hosts.
Proof.
  apply (@X8_sessions_stay_in_the_data_directory simple_pandas app_dir).
  - cbn. intuition discriminate.
  - repeat constructor; cbn; intuition discriminate.
  - intros [rest H]. discriminate H.
Defined.


Lemma X10_witness :
  fst (create_sample_data app_dir (Pathlib.to_str hosts) 2 w0)
  = Ok (created_text (Pathlib.to_str hosts) 2) /\
  exists df bytes,
    is_sample_frame 2 df /\ stored_as (Pathlib.to_str hosts) df bytes /\
    file_content
      (fs (snd (create_sample_data app_dir (Pathlib.to_str hosts) 2 w0))) hosts
    = Some bytes.
Proof.
  apply (@X10_any_file_is_overwritten_by_its_absolute_name simple_pandas
           app_dir hosts ("ip,host" ++ newline)%string 2 w0); reflexivity.
Defined.

Lemma X11_witness :
  summarize_csv_file app_dir disk ""
  = Ok ("Error reading CSV file '" ++ "" ++ "': "
          ++ exn_str (err_is_dir (Pathlib.joinpath (DATA_DIR app_dir) "")))%string
  /\
  (forall operation,
      analyze_csv_data app_dir disk "" operation
      = Ok ("Error analyzing " ++ "" ++ ": "
              ++ exn_str (err_is_dir (Pathlib.joinpath (DATA_DIR app_dir) "")))%string)
  /\
  summarize_csv_file app_dir disk "" <> Ok (not_found_text "").
Proof.
  apply (@X11_a_directory_gives_a_read_error simple_pandas app_dir disk "").
  reflexivity.
Defined.

Lemma X12_witness :
  path_is_dir (fs (snd (ensure_data_dir app_dir w_fresh))) (DATA_DIR app_dir)
  = true /\
  (forall x, file_content (fs (snd (ensure_data_dir app_dir w_fresh))) x
             = file_content (fs w_fresh) x) /\
  (forall x, is_dir (fs w_fresh) x = true ->
             is_dir (fs (snd (ensure_data_dir app_dir w_fresh))) x = true) /\
  ensure_data_dir app_dir (snd (ensure_data_dir app_dir w_fresh))
  = (Ok tt, snd (ensure_data_dir app_dir w_fresh)).
Proof.
  apply (@X12_ensure_data_dir_is_idempotent app_dir w_fresh). reflexivity.
Defined.

Lemma X13_witness :
  fst (main app_dir w_bare) = Ok tt /\
  summarize_csv_file app_dir (fs (snd (main app_dir w_bare))) "sample.csv"
  = Ok (summary_text "CSV" "sample.csv" "5" seed_names) /\
  summarize_parquet_file app_dir (fs (snd (main app_dir w_bare)))
    "sample.parquet"
  = Ok (summary_text "Parquet" "sample.parquet" "5" seed_names).
Proof.
  apply (@X13_main_seeds_the_samples simple_pandas app_dir w_bare);
    reflexivity.
Defined.

Lemma X14_witness : main app_dir w0 = (Ok tt, w0).
Proof.
  apply (proj1 (@X14_main_runs_once simple_pandas app_dir w0)). reflexivity.
Defined.

Lemma X15_witness :
  fst (start app_dir w_fresh) = Ok tt /\
  exists names,
    list_data_files app_dir (fs (snd (start app_dir w_fresh)))
    = Ok ("Available data files: " ++ join ", " names)%string /\
    Permutation names ["sample.csv"; "sample.parquet"]%string.
Proof.
  apply (@X15_fresh_start_lists_the_samples simple_pandas app_dir w_fresh
           [("main.py"%string, File "import pandas as pd")]); reflexivity.
Defined.

Lemma X16_witness : endswith "sample.csv" ".csv" = true.
Proof.
  apply (proj1 (X16_client_picks_the_summary_by_suffix
                  "summarize sample.csv" "sample.csv")).
  reflexivity.
Defined.

Lemma X17_witness : word "sample.csv".
Proof.
  apply (X17_client_sends_only_words "  summarize   sample.csv  "
           (summarize_csv_file_call "sample.csv") "sample.csv"); reflexivity.
Defined.


Lemma X19_witness :
  react ("create " ++ "t.csv" ++ " " ++ str_of_Z 3)
  = CallTool (create_sample_data_call "t.csv" (Some 3%Z)) /\
  react ("analyze " ++ "t.csv" ++ " " ++ "head")
  = CallTool (analyze_csv_data_call "t.csv" (Some "head"%string)) /\
  (endswith "t.csv" ".csv" = true ->
   react ("summarize " ++ "t.csv") = CallTool (summarize_csv_file_call "t.csv")).
Proof.
  apply (X19_what_is_typed_is_what_is_sent "t.csv" "head" 3);
    [split; [discriminate | reflexivity]
    |split; [discriminate | reflexivity]
    |apply Nat.leb_le; reflexivity].
Defined.

Lemma X20_witness :
  (exists names,
      list_data_files app_dir
        (fs (run app_dir Client.demo (snd (start app_dir w_fresh))))
      = Ok ("Available data files: " ++ join ", " names)%string /\
      Permutation names
        ["sample.csv"; "sample.parquet"; "test_data.csv"]%string) /\
  summarize_csv_file app_dir
    (fs (run app_dir Client.demo (snd (start app_dir w_fresh))))
    "test_data.csv"
  = Ok (summary_text "CSV" "test_data.csv" "3" sample_names).
Proof.
  apply (@X20_demo_on_a_fresh_server simple_pandas app_dir w_fresh
           [("main.py"%string, File "import pandas as pd")]); reflexivity.
Defined.
Lemma X21_witness :
  (exists s,
      fst (invoke app_dir (summarize_csv_file_call "missing.csv") w0) = Ok s /\
      describes (summarize_csv_file_call "missing.csv") NotFound s) /\
  (exists s,
      fst (invoke app_dir (summarize_parquet_file_call "sample.csv") w0)
      = Ok s /\
      describes (summarize_parquet_file_call "sample.csv") LoadFailure s) /\
  (exists s,
      fst (invoke app_dir (analyze_csv_data_call "archive" None) w0) = Ok s /\
      describes (analyze_csv_data_call "archive" None) LoadFailure s) /\
  (exists s,
      fst (invoke app_dir (create_sample_data_call "x.txt" None) w0) = Ok s /\
      describes (create_sample_data_call "x.txt" None) UnsupportedFormat s) /\
  (exists s,
      fst (invoke app_dir (create_sample_data_call "nodir/t.csv" (Some 3%Z)) w0)
      = Ok s /\
      describes (create_sample_data_call "nodir/t.csv" (Some 3%Z))
        WriteFailure s) /\
  (exists s,
      fst (invoke app_dir
             (analyze_csv_data_call "sample.csv" (Some "bogus")) w0)
      = Ok s /\
      describes (analyze_csv_data_call "sample.csv" (Some "bogus"))
        UnknownOperation s).
Proof.
  repeat split;
    apply (proj2 (@X21_failures_are_sentences simple_pandas app_dir _ w0)).
  - apply csv_not_found. reflexivity.
  - eapply parquet_load_failure; reflexivity.
  - eapply analyze_load_fails; reflexivity.
  - apply create_bad_suffix. reflexivity.
  - apply create_cannot_write; reflexivity.
  - eapply analyze_unknown; [reflexivity | reflexivity |].
    cbn. intuition discriminate.
Defined.
End MoreRuns.
